(** * Census Bureau ACS extraction scripts: a shallow embedding

    The development follows three scripts of the repository:

    - [ACS Notebook-Bronze Layer ETL.py] (module [ETL]): [fetch_geo_data]
      and the table/geography loop that writes Delta tables;
    - [Additional files/acs5_2022_extraction_all_geos.py] (module [AllGeos]):
      [fetch_data_chunk], the retry loop and the Parquet writer;
    - [Additional files/# --- Environment Setup ---.py] (modules [EnvSetup]
      and [SingleCounty]): the standard-error / coefficient-of-variation
      loop, and the script as a whole.

    Python strings are modelled as [string] (the variable codes and column
    names of the scripts are ASCII), pandas float64 values as binary64
    [spec_float] (NaN is pandas' "missing"), a pandas DataFrame as an index
    plus an ordered list of named columns, and raised exceptions as an
    explicit outcome type. *)

From Stdlib Require Import ZArith List String Ascii Bool Arith Lia.
From Stdlib Require Import Floats.SpecFloat.
From Stdlib Require Import Numbers.DecimalString Numbers.DecimalPos.
Import ListNotations.

Local Open Scope string_scope.
Local Open Scope list_scope.
Local Open Scope nat_scope.

(** ** Python strings *)

Module PyStr.

(** [s.replace(old, new)] for one-character [old] and [new]: every
    occurrence is replaced. *)
Fixpoint replace (old new : ascii) (s : string) : string :=
  match s with
  | EmptyString => EmptyString
  | String c rest =>
      String (if Ascii.eqb c old then new else c) (replace old new rest)
  end.

Fixpoint rev_onto (s acc : string) : string :=
  match s with
  | EmptyString => acc
  | String c rest => rev_onto rest (String c acc)
  end.

Definition rev (s : string) : string := rev_onto s EmptyString.

Definition newline : ascii := ascii_of_nat 10.

(** [re.sub(old + "$", new, s)] for a one-character [old]: Python's [$]
    matches at the very end of the text and also just before a final
    newline. *)
Definition sub_at_end (old new : ascii) (s : string) : string :=
  match rev s with
  | String c rest =>
      if Ascii.eqb c old then rev (String new rest)
      else if Ascii.eqb c newline then
        match rest with
        | String c' rest' =>
            if Ascii.eqb c' old then rev (String c (String new rest'))
            else s
        | EmptyString => s
        end
      else s
  | EmptyString => s
  end.

Fixpoint zeros (n : nat) : string :=
  match n with
  | O => EmptyString
  | S k => String "0" (zeros k)
  end.

(** [s.zfill(width)]: left-pads with ['0'] up to [width], after a leading
    sign when there is one; a text already that long is returned as is.
    pandas' [.str.zfill] applies it to each element (older releases pad
    ahead of a sign instead; the lengths are the same). *)
Definition zfill (width : nat) (s : string) : string :=
  if width <=? String.length s then s
  else
    let pad := zeros (width - String.length s) in
    match s with
    | String c rest =>
        if (Ascii.eqb c "+" || Ascii.eqb c "-")%bool
        then String c (pad ++ rest)
        else pad ++ s
    | EmptyString => pad
    end.

Definition is_upper (c : ascii) : bool :=
  ((65 <=? nat_of_ascii c) && (nat_of_ascii c <=? 90))%bool.

Definition is_lower (c : ascii) : bool :=
  ((97 <=? nat_of_ascii c) && (nat_of_ascii c <=? 122))%bool.

Definition is_digit (c : ascii) : bool :=
  ((48 <=? nat_of_ascii c) && (nat_of_ascii c <=? 57))%bool.

Definition lower_char (c : ascii) : ascii :=
  if is_upper c then ascii_of_nat (nat_of_ascii c + 32) else c.

Definition upper_char (c : ascii) : ascii :=
  if is_lower c then ascii_of_nat (nat_of_ascii c - 32) else c.

Fixpoint map_chars (f : ascii -> ascii) (s : string) : string :=
  match s with
  | EmptyString => EmptyString
  | String c rest => String (f c) (map_chars f rest)
  end.

(** [s.lower()] and [s.upper()] on ASCII text. *)
Definition lower : string -> string := map_chars lower_char.
Definition upper : string -> string := map_chars upper_char.

(** [s.startswith(p)] *)
Definition startswith (p s : string) : bool := String.prefix p s.

(** [p in s] *)
Fixpoint contains (p s : string) : bool :=
  if String.prefix p s then true
  else match s with
       | EmptyString => false
       | String _ rest => contains p rest
       end.

Fixpoint all_chars (p : ascii -> bool) (s : string) : bool :=
  match s with
  | EmptyString => true
  | String c rest => (p c && all_chars p rest)%bool
  end.

(** [str(n)] for an integer. *)
Definition of_Z (z : Z) : string := NilZero.string_of_int (Z.to_int z).

(** The last character of a text, when there is one. *)
Fixpoint last_char (s : string) : option ascii :=
  match s with
  | EmptyString => None
  | String c EmptyString => Some c
  | String _ rest => last_char rest
  end.

End PyStr.

(** ** Python lists: [range] and slices *)

Module PyList.

Fixpoint range_from (fuel i stop step : nat) : list nat :=
  match fuel with
  | O => []
  | S fuel' =>
      if i <? stop then i :: range_from fuel' (i + step) stop step else []
  end.

(** [range(0, stop, step)] for a positive [step]; [stop] steps of fuel
    always reach the end. *)
Definition range0 (stop step : nat) : list nat :=
  range_from stop 0 stop step.

(** [l[i:j]] for [0 <= i <= j]: out-of-range bounds are clamped. *)
Definition slice {A} (l : list A) (i j : nat) : list A :=
  firstn (j - i) (skipn i l).

End PyList.

(** ** Python exceptions and outcomes *)

Module Py.

Inductive exn : Type :=
| KeyError (key : string)
| ValueError (msg : string)
| IndexError
| TypeError
| AttributeError (attr : string)
| NameError (name : string)
| ReadTimeout
| OtherError (msg : string).

Inductive outcome (A : Type) : Type :=
| Return (a : A)
| Raise (e : exn).

Arguments Return {A} a.
Arguments Raise {A} e.

Definition obind {A B} (o : outcome A) (k : A -> outcome B) : outcome B :=
  match o with
  | Return a => k a
  | Raise e => Raise e
  end.

Definition returned {A} (o : outcome A) : bool :=
  match o with
  | Return _ => true
  | Raise _ => false
  end.

End Py.

Import Py.

(** ** binary64 arithmetic *)

Module F64.

Definition prec : Z := 53.
Definition emax : Z := 1024.

Definition nan : spec_float := S754_nan.
Definition of_Z (z : Z) : spec_float := binary_normalize prec emax z 0 false.
Definition div : spec_float -> spec_float -> spec_float := SFdiv prec emax.
Definition mul : spec_float -> spec_float -> spec_float := SFmul prec emax.

(** The literals [1.645] and [100.0] as Python reads them: the binary64
    value nearest to the decimal. *)
Definition c1_645 : spec_float := S754_finite false 7408421387024466 (-52).
Definition c100 : spec_float := of_Z 100.

Definition is_nan (f : spec_float) : bool :=
  match f with
  | S754_nan => true
  | _ => false
  end.

Definition is_inf (f : spec_float) : bool :=
  match f with
  | S754_infinity _ => true
  | _ => false
  end.

Definition is_zero (f : spec_float) : bool :=
  match f with
  | S754_zero _ => true
  | _ => false
  end.

Definition eqb (a b : spec_float) : bool :=
  match a, b with
  | S754_zero s, S754_zero t => Bool.eqb s t
  | S754_infinity s, S754_infinity t => Bool.eqb s t
  | S754_nan, S754_nan => true
  | S754_finite s m e, S754_finite t n f =>
      (Bool.eqb s t && Pos.eqb m n && Z.eqb e f)%bool
  | _, _ => false
  end.

End F64.

(** ** pandas values and frames *)

Module Pandas.

(** What a frame cell may hold: text, an integer, a float64 (NaN is the
    missing value), Python's [None], or a geometry object (carried as its
    well-known text). *)
Inductive cell : Type :=
| CStr (s : string)
| CInt (z : Z)
| CFloat (f : spec_float)
| CNone
| CGeom (wkt : string).

Definition cell_eqb (a b : cell) : bool :=
  match a, b with
  | CStr s, CStr t => String.eqb s t
  | CInt x, CInt y => Z.eqb x y
  | CFloat f, CFloat g => F64.eqb f g
  | CNone, CNone => true
  | CGeom s, CGeom t => String.eqb s t
  | _, _ => false
  end.

Definition is_numeric (c : cell) : bool :=
  match c with
  | CInt _ | CFloat _ => true
  | _ => false
  end.

Definition Series : Type := list cell.

(** A frame: the index (row labels, with the name of the index when it
    was set from a column), and the columns in order.  Column names are
    distinct in the answers of the data source; [lookup] reads the first
    column of a name. *)
Record DataFrame : Type := mkDF {
  index_name : option string;
  index : list cell;
  columns : list (string * Series)
}.

Definition col_names (df : DataFrame) : list string :=
  map fst (columns df).

Definition nrows (df : DataFrame) : nat := List.length (index df).

(** [c in df.columns] *)
Definition has_col (c : string) (df : DataFrame) : bool :=
  existsb (String.eqb c) (col_names df).

Fixpoint lookup (c : string) (cols : list (string * Series)) : option Series :=
  match cols with
  | [] => None
  | (n, v) :: rest => if String.eqb c n then Some v else lookup c rest
  end.

(** [df[c]] *)
Definition getitem (df : DataFrame) (c : string) : outcome Series :=
  match lookup c (columns df) with
  | Some v => Return v
  | None => Raise (KeyError c)
  end.

Fixpoint assign (c : string) (v : Series) (cols : list (string * Series))
  : list (string * Series) :=
  match cols with
  | [] => [(c, v)]
  | (n, w) :: rest =>
      if String.eqb c n then (n, v) :: rest else (n, w) :: assign c v rest
  end.

(** [df[c] = v]: an existing column keeps its position, a new one goes
    last. *)
Definition setitem (df : DataFrame) (c : string) (v : Series) : DataFrame :=
  mkDF (index_name df) (index df) (assign c v (columns df)).

Definition without (c : string) (cols : list (string * Series))
  : list (string * Series) :=
  filter (fun nv => negb (String.eqb c (fst nv))) cols.

(** [df.drop(columns=[c], inplace=True)] *)
Definition drop (df : DataFrame) (c : string) : outcome DataFrame :=
  if has_col c df
  then Return (mkDF (index_name df) (index df) (without c (columns df)))
  else Raise (KeyError c).

(** [df.set_index(c, inplace=True)] *)
Definition set_index (df : DataFrame) (c : string) : outcome DataFrame :=
  match lookup c (columns df) with
  | Some v => Return (mkDF (Some c) v (without c (columns df)))
  | None => Raise (KeyError c)
  end.

(** [df.rename(columns={old: new}, inplace=True)] *)
Definition rename (df : DataFrame) (old new : string) : DataFrame :=
  mkDF (index_name df) (index df)
       (map (fun nv => if String.eqb (fst nv) old then (new, snd nv) else nv)
            (columns df)).

(** [df.reset_index(inplace=True)]: the index becomes the first column,
    named after the index, or ["index"] for an unnamed one (["level_0"]
    when ["index"] is taken); the rows are relabelled 0, 1, 2, ... *)
Definition reset_index (df : DataFrame) : outcome DataFrame :=
  let name :=
    match index_name df with
    | Some n => n
    | None => if has_col "index" df then "level_0" else "index"
    end in
  if has_col name df
  then Raise (ValueError ("cannot insert " ++ name ++ ", already exists"))
  else Return (mkDF None
                    (map (fun i => CInt (Z.of_nat i)) (seq 0 (nrows df)))
                    ((name, index df) :: columns df)).

(** Text conversions of the libraries that the scripts rely on and that
    are not modelled digit by digit: [str(x)] of a float64, and what
    [pd.to_numeric(..., errors="coerce")] makes of a text that is not a
    plain decimal integer (a float64, NaN when the text is no number). *)
Record conversions : Type := mkConv {
  float_str : spec_float -> string;
  numeric_of_text : string -> spec_float
}.

(** [str(v)] of a cell, as [astype(str)] applies it. *)
Definition cell_str (cv : conversions) (c : cell) : string :=
  match c with
  | CStr s => s
  | CInt z => PyStr.of_Z z
  | CFloat f => float_str cv f
  | CNone => "None"
  | CGeom w => w
  end.

(** [series.astype(str).str.zfill(width)] *)
Definition astype_str_zfill (cv : conversions) (width : nat) (v : Series)
  : Series :=
  map (fun c => CStr (PyStr.zfill width (cell_str cv c))) v.

(** [a + b] on two cells of text columns; the scripts add nothing else. *)
Definition cell_add (a b : cell) : outcome cell :=
  match a, b with
  | CStr x, CStr y => Return (CStr (x ++ y))
  | _, _ => Raise TypeError
  end.

(** [a + b] on two columns of one frame, row by row. *)
Fixpoint series_add (a b : Series) : outcome Series :=
  match a, b with
  | x :: a', y :: b' =>
      obind (cell_add x y) (fun z =>
      obind (series_add a' b') (fun rest => Return (z :: rest)))
  | _, _ => Return []
  end.

Fixpoint digits_value (acc : Z) (s : string) : Z :=
  match s with
  | EmptyString => acc
  | String c rest =>
      digits_value (10 * acc + Z.of_nat (nat_of_ascii c - 48))%Z rest
  end.

(** A plain decimal integer: digits, after an optional minus sign. *)
Definition integer_text (s : string) : option Z :=
  let digits t :=
    (negb (String.eqb t "") && PyStr.all_chars PyStr.is_digit t)%bool in
  match s with
  | String "-" rest =>
      if digits rest then Some (- digits_value 0 rest)%Z else None
  | _ => if digits s then Some (digits_value 0 s) else None
  end.

(** One value under [pd.to_numeric(..., errors="coerce")]: numbers stay,
    integer text becomes an integer (a float64 outside the 64-bit range),
    other text goes through the library's parser, anything else is
    missing. *)
Definition to_numeric_cell (cv : conversions) (c : cell) : cell :=
  match c with
  | CStr s =>
      match integer_text s with
      | Some z =>
          if ((- 2 ^ 63 <=? z) && (z <? 2 ^ 64))%Z%bool
          then CInt z else CFloat (F64.of_Z z)
      | None => CFloat (numeric_of_text cv s)
      end
  | CInt z => CInt z
  | CFloat f => CFloat f
  | CNone => CFloat F64.nan
  | CGeom _ => CFloat F64.nan
  end.

Definition to_numeric (cv : conversions) (v : Series) : Series :=
  map (to_numeric_cell cv) v.

(** The float64 a numeric cell stands for in arithmetic. *)
Definition as_float (c : cell) : option spec_float :=
  match c with
  | CInt z => Some (F64.of_Z z)
  | CFloat f => Some f
  | _ => None
  end.

Fixpoint as_floats (v : Series) : outcome (list spec_float) :=
  match v with
  | [] => Return []
  | c :: rest =>
      match as_float c with
      | Some f => obind (as_floats rest) (fun fs => Return (f :: fs))
      | None => Raise TypeError
      end
  end.

(** ** [left.join(right, how="left")] *)

(** Column names present on both sides. *)
Definition overlap (l r : DataFrame) : list string :=
  filter (fun c => has_col c r) (col_names l).

(** Positions of the rows of [labels] labelled [k]. *)
Definition positions (k : cell) (labels : list cell) : list nat :=
  filter (fun j => cell_eqb (nth j labels CNone) k)
         (seq 0 (List.length labels)).

(** The rows of the result: each left row, once per matching right row,
    or once with no partner. *)
Definition join_plan (l r : DataFrame) : list (nat * option nat) :=
  flat_map
    (fun i =>
       match positions (nth i (index l) CNone) (index r) with
       | [] => [(i, None)]
       | js => map (fun j => (i, Some j)) js
       end)
    (seq 0 (nrows l)).

Definition take_left (plan : list (nat * option nat)) (v : Series) : Series :=
  map (fun ij => nth (fst ij) v CNone) plan.

Definition take_right (plan : list (nat * option nat)) (v : Series) : Series :=
  map (fun ij =>
         match snd ij with
         | Some j => nth j v CNone
         | None => CFloat F64.nan
         end) plan.

Definition join_left (l r : DataFrame) : outcome DataFrame :=
  match overlap l r with
  | _ :: _ => Raise (ValueError "columns overlap but no suffix specified")
  | [] =>
      let plan := join_plan l r in
      Return (mkDF (index_name l)
                   (take_left plan (index l))
                   (map (fun nv => (fst nv, take_left plan (snd nv))) (columns l)
                    ++ map (fun nv => (fst nv, take_right plan (snd nv)))
                           (columns r)))
  end.

End Pandas.

Import Pandas.

(** ** The world outside the scripts *)

Module World.

(** One call of [ced.download]: the variables asked for and the
    geography selectors; dataset, year and [with_geometry=True] are the
    same in every call. *)
Record request : Type := mkReq {
  req_vars : list string;
  req_params : list (string * string)
}.

(** A dataset in the sink: its rows and the partition column, if any. *)
Record dataset : Type := mkDataset {
  ds_frame : DataFrame;
  ds_partition : option string
}.

(** The collaborators.  [download n r] is the answer to request [r]
    when [n] requests were issued before it; [write_error n name df] is
    the exception of the write of [df] to [name] when [n] writes were
    attempted before it, if it fails. *)
Record services : Type := mkServices {
  conv : conversions;
  download : nat -> request -> outcome DataFrame;
  write_error : nat -> string -> DataFrame -> option exn
}.

Record world : Type := mkWorld {
  calls : list request;
  sleeps : list nat;
  writes : nat;
  store : list (string * dataset)
}.

Definition empty_world : world := mkWorld [] [] 0 [].

Fixpoint store_get (name : string) (st : list (string * dataset))
  : option dataset :=
  match st with
  | [] => None
  | (n, d) :: rest => if String.eqb name n then Some d else store_get name rest
  end.

(** Overwrite: the dataset of that name is replaced as a whole. *)
Definition store_put (name : string) (d : dataset)
           (st : list (string * dataset)) : list (string * dataset) :=
  (name, d) :: filter (fun nd => negb (String.eqb name (fst nd))) st.

(** Computations that may raise and that act on the world. *)
Definition M (A : Type) : Type := world -> outcome A * world.

Definition ret {A} (a : A) : M A := fun w => (Return a, w).

Definition raise {A} (e : exn) : M A := fun w => (Raise e, w).

Definition bind {A B} (m : M A) (k : A -> M B) : M B :=
  fun w =>
    match m w with
    | (Return a, w') => k a w'
    | (Raise e, w') => (Raise e, w')
    end.

Definition lift {A} (o : outcome A) : M A := fun w => (o, w).

Definition ced_download (sv : services) (r : request) : M DataFrame :=
  fun w =>
    (download sv (List.length (calls w)) r,
     mkWorld (calls w ++ [r]) (sleeps w) (writes w) (store w)).

(** [time.sleep(seconds)] *)
Definition sleep (seconds : nat) : M unit :=
  fun w =>
    (Return tt, mkWorld (calls w) (sleeps w ++ [seconds]) (writes w) (store w)).

(** One write to the sink: [spark.createDataFrame] and
    [write.mode("overwrite")...saveAsTable(name)] in the notebook,
    [to_parquet(name)] in the all-geographies script.  The dataset of that
    name is replaced as a whole; a failed write leaves the sink as it
    was. *)
Definition write (sv : services) (name : string) (df : DataFrame)
           (partition : option string) : M unit :=
  fun w =>
    match write_error sv (writes w) name df with
    | Some e =>
        (Raise e, mkWorld (calls w) (sleeps w) (S (writes w)) (store w))
    | None =>
        (Return tt,
         mkWorld (calls w) (sleeps w) (S (writes w))
                 (store_put name (mkDataset df partition) (store w)))
    end.

(** [for a in l: s = body(a, s)] *)
Fixpoint for_each {A S} (l : list A) (body : A -> S -> M S) (s : S) : M S :=
  match l with
  | [] => ret s
  | a :: rest => bind (body a s) (for_each rest body)
  end.

End World.

Import World.

Declare Scope py_scope.
Delimit Scope py_scope with py.
Notation "x <- c ;; k" := (bind c (fun x => k))
  (at level 61, c at next level, right associativity) : py_scope.
Notation "c ;;; k" := (bind c (fun _ => k))
  (at level 61, right associativity) : py_scope.

Local Open Scope py_scope.

(** ** Steps that the scripts share, statement for statement *)

Module Steps.

(** [df[c] = df[c].astype(str).str.zfill(width)] *)
Definition pad_column (cv : conversions) (df : DataFrame) (c : string)
           (width : nat) : outcome DataFrame :=
  obind (getitem df c) (fun v =>
  Return (setitem df c (astype_str_zfill cv width v))).

(** [df[key] = df[a] + df[b]] *)
Definition concat2 (df : DataFrame) (key a b : string) : outcome DataFrame :=
  obind (getitem df a) (fun va =>
  obind (getitem df b) (fun vb =>
  obind (series_add va vb) (fun k =>
  Return (setitem df key k)))).

(** [df[key] = df[a] + df[b] + df[c]] *)
Definition concat3 (df : DataFrame) (key a b c : string) : outcome DataFrame :=
  obind (getitem df a) (fun va =>
  obind (getitem df b) (fun vb =>
  obind (getitem df c) (fun vc =>
  obind (series_add va vb) (fun ab =>
  obind (series_add ab vc) (fun k =>
  Return (setitem df key k)))))).

(** The selectors of a geography level, or [ValueError] (both scripts
    have this chain of tests; the text of the message is not kept). *)
Definition query_params (geo_level : string)
  : outcome (list (string * string)) :=
  if String.eqb geo_level "tract" then
    Return [("state", "*"); ("county", "*"); ("tract", "*")]
  else if String.eqb geo_level "zcta" then
    Return [("zip_code_tabulation_area", "*")]
  else if String.eqb geo_level "county" then
    Return [("state", "*"); ("county", "*")]
  else if String.eqb geo_level "state" then
    Return [("state", "*")]
  else Raise (ValueError "Unsupported geography").

(** [[c for c in df.columns if p(c)][0]] *)
Definition first_column (p : string -> bool) (df : DataFrame)
  : outcome string :=
  match filter p (col_names df) with
  | c :: _ => Return c
  | [] => Raise IndexError
  end.

(** The loop
    [for col in df.columns:
       if col not in ("NAME", "geometry"):
         df[col] = pd.to_numeric(df[col], errors="coerce")]. *)
Definition passthrough (col : string) : bool :=
  (String.eqb col "NAME" || String.eqb col "geometry")%bool.

Definition coerce_column (cv : conversions) (df : DataFrame) (col : string)
  : DataFrame :=
  if passthrough col then df
  else match lookup col (columns df) with
       | Some v => setitem df col (to_numeric cv v)
       | None => df
       end.

Definition coerce_numeric (cv : conversions) (df : DataFrame) : DataFrame :=
  fold_left (coerce_column cv) (col_names df) df.

(** [(df[moe] / 1.645) / df[est] * 100.0], row by row. *)
Definition cv_value (moe est : spec_float) : spec_float :=
  F64.mul (F64.div (F64.div moe F64.c1_645) est) F64.c100.

Definition cv_rows (ms es : list spec_float) : Series :=
  map (fun me => CFloat (cv_value (fst me) (snd me))) (combine ms es).

Definition cv_series (moe est : Series) : outcome Series :=
  obind (as_floats moe) (fun ms =>
  obind (as_floats est) (fun es =>
  Return (cv_rows ms es))).

(** [est_var.replace("E", "M")] *)
Definition moe_var_of (est_var : string) : string :=
  PyStr.replace "E" "M" est_var.

(** The body of the coefficient-of-variation loop of the two pipelines:
    [moe_var = est_var.replace("E", "M")], then, when both columns are
    there, [df[est_var + "_CV"] = ...]. *)
Definition cv_step (est_var : string) (df : DataFrame) : outcome DataFrame :=
  let moe_var := moe_var_of est_var in
  if (has_col est_var df && has_col moe_var df)%bool then
    obind (getitem df moe_var) (fun m =>
    obind (getitem df est_var) (fun e =>
    obind (cv_series m e) (fun c =>
    Return (setitem df (est_var ++ "_CV") c))))
  else Return df.

Fixpoint cv_loop (var_codes : list string) (df : DataFrame)
  : outcome DataFrame :=
  match var_codes with
  | [] => Return df
  | v :: rest => obind (cv_step v df) (cv_loop rest)
  end.

End Steps.

Import Steps.

(** ** ACS Notebook-Bronze Layer ETL.py *)

Module ETL.

Definition MAX_VARS_PER_CALL : nat := 50.

Definition geographies : list string := ["tract"; "zcta"; "county"; "state"].

(** [c.lower().startswith("zip") or c.upper() == "ZCTA"] *)
Definition is_zcta_column (c : string) : bool :=
  (PyStr.startswith "zip" (PyStr.lower c)
   || String.eqb (PyStr.upper c) "ZCTA")%bool.

(** The [zcta], [county] and [state] branches, the same for the first
    chunk and for the later ones. *)
Definition index_zcta (cv : conversions) (df : DataFrame) : outcome DataFrame :=
  obind (first_column is_zcta_column df) (fun geo_col =>
  obind (pad_column cv (rename df geo_col "ZCTA") "ZCTA" 5) (fun d =>
  set_index d "ZCTA")).

Definition index_county (cv : conversions) (df : DataFrame) : outcome DataFrame :=
  obind (pad_column cv df "state" 2) (fun d1 =>
  obind (pad_column cv d1 "county" 3) (fun d2 =>
  obind (concat2 d2 "FIPS" "state" "county") (fun d3 =>
  set_index d3 "FIPS"))).

Definition index_state (cv : conversions) (df : DataFrame) : outcome DataFrame :=
  obind (pad_column cv df "state" 2) (fun d => set_index d "state").

(** The [tract] branch up to the [GEOID] column. *)
Definition key_tract (cv : conversions) (df : DataFrame) : outcome DataFrame :=
  obind (pad_column cv df "state" 2) (fun d1 =>
  obind (pad_column cv d1 "county" 3) (fun d2 =>
  obind (pad_column cv d2 "tract" 6) (fun d3 =>
  concat3 d3 "GEOID" "state" "county" "tract"))).

(** The branch [if df_full is None] (lines 157-176).  On line 162 the
    call [df_full.set_index("GEOID", inplace=True)] sits inside the
    comment that ends the line, so the [tract] branch stops at the
    [GEOID] column. *)
Definition first_chunk (cv : conversions) (geo_level : string)
           (df_full : DataFrame) : outcome DataFrame :=
  if String.eqb geo_level "tract" then key_tract cv df_full
  else if String.eqb geo_level "zcta" then index_zcta cv df_full
  else if String.eqb geo_level "county" then index_county cv df_full
  else if String.eqb geo_level "state" then index_state cv df_full
  else Return df_full.

(** The [else] branch (lines 178-197), before the join. *)
Definition next_chunk (cv : conversions) (geo_level : string)
           (chunk_df : DataFrame) : outcome DataFrame :=
  if String.eqb geo_level "tract" then
    obind (key_tract cv chunk_df) (fun d => set_index d "GEOID")
  else if String.eqb geo_level "zcta" then index_zcta cv chunk_df
  else if String.eqb geo_level "county" then index_county cv chunk_df
  else if String.eqb geo_level "state" then index_state cv chunk_df
  else Return chunk_df.

(** The variables of the request that starts at position [i]. *)
Definition chunk_at {A} (vars_list : list A) (i : nat) : list A :=
  PyList.slice vars_list i (i + MAX_VARS_PER_CALL).

(** [vars_list[i:i+MAX_VARS_PER_CALL]] for [i] in
    [range(0, len(vars_list), MAX_VARS_PER_CALL)]. *)
Definition chunks {A} (vars_list : list A) : list (list A) :=
  map (chunk_at vars_list)
      (PyList.range0 (List.length vars_list) MAX_VARS_PER_CALL).

(** One turn of the chunk loop. *)
Definition chunk_body (sv : services) (geo_level : string)
           (params : list (string * string)) (vars_list : list string)
           (i : nat) (df_full : option DataFrame) : M (option DataFrame) :=
  chunk_df <- ced_download sv (mkReq (chunk_at vars_list i) params) ;;
  match df_full with
  | None =>
      d <- lift (first_chunk (conv sv) geo_level chunk_df) ;;
      ret (Some d)
  | Some full =>
      c <- lift (next_chunk (conv sv) geo_level chunk_df) ;;
      j <- lift (join_left full c) ;;
      ret (Some j)
  end.

Definition fetch_geo_data (sv : services) (vars_list : list string)
           (geo_level : string) : M DataFrame :=
  params <- lift (query_params geo_level) ;;
  df_full <- for_each
               (PyList.range0 (List.length vars_list) MAX_VARS_PER_CALL)
               (chunk_body sv geo_level params vars_list) None ;;
  match df_full with
  | None => raise (AttributeError "columns")
  | Some d => ret (coerce_numeric (conv sv) d)
  end.

(** [moe_codes = [v.replace("E", "M") for v in var_codes]] *)
Definition moe_codes (var_codes : list string) : list string :=
  map (PyStr.replace "E" "M") var_codes.

(** [geom.wkt if geom is not None else None] *)
Definition wkt_of (c : cell) : outcome cell :=
  match c with
  | CGeom w => Return (CStr w)
  | CNone => Return CNone
  | _ => Raise (AttributeError "wkt")
  end.

Fixpoint apply_wkt (v : Series) : outcome Series :=
  match v with
  | [] => Return []
  | c :: rest =>
      obind (wkt_of c) (fun x =>
      obind (apply_wkt rest) (fun xs => Return (x :: xs)))
  end.

(** Lines 242-244. *)
Definition geometry_to_wkt (df : DataFrame) : outcome DataFrame :=
  if has_col "geometry" df then
    obind (getitem df "geometry") (fun g =>
    obind (apply_wkt g) (fun w =>
    drop (setitem df "geometry_wkt" w) "geometry"))
  else Return df.

Definition target_table_name (table_id geo : string) : string :=
  "Bronze.census_acs2022_" ++ table_id ++ "_" ++ geo.

Definition partition_of (geo : string) : option string :=
  if (String.eqb geo "tract" || String.eqb geo "county")%bool
  then Some "state" else None.

(** The body of [for geo in geographies] (lines 230-253). *)
Definition unit_body (sv : services) (table_id : string)
           (var_codes all_vars : list string) (geo : string) (_ : unit)
  : M unit :=
  geo_df <- fetch_geo_data sv all_vars geo ;;
  geo_df <- lift (cv_loop var_codes geo_df) ;;
  geo_df <- lift (reset_index geo_df) ;;
  geo_df <- lift (geometry_to_wkt geo_df) ;;
  write sv (target_table_name table_id geo) geo_df (partition_of geo).

(** The body of [for table_id, vars_subset in table_groups]
    (lines 220-253); [var_codes] is [vars_subset["VARIABLE"].tolist()]. *)
Definition table_body (sv : services) (group : string * list string)
           (_ : unit) : M unit :=
  let (table_id, var_codes) := group in
  let all_vars := var_codes ++ moe_codes var_codes in
  match all_vars with
  | [] => ret tt
  | _ :: _ =>
      for_each geographies (unit_body sv table_id var_codes all_vars) tt
  end.

Definition run (sv : services) (table_groups : list (string * list string))
  : M unit :=
  for_each table_groups (table_body sv) tt.

End ETL.

(** ** Additional files/acs5_2022_extraction_all_geos.py *)

Module AllGeos.

Definition MAX_VARS_PER_CALL : nat := 50.
Definition RETRY_LIMIT : nat := 3.
Definition WAIT_BETWEEN_RETRIES : nat := 2.

Definition geographies : list string := ["tract"; "zcta"; "county"; "state"].

(** Line 35: [vars_final["VARIABLE"].str.replace("E$", "M", regex=True)]. *)
Definition MOE_VAR (variable : string) : string :=
  PyStr.sub_at_end "E" "M" variable.

(** ["zip" in c.lower() or c.upper() == "ZCTA"] *)
Definition is_zcta_column (c : string) : bool :=
  (PyStr.contains "zip" (PyStr.lower c)
   || String.eqb (PyStr.upper c) "ZCTA")%bool.

(** Lines 54-73: the identifier columns and the index. *)
Definition standardize (cv : conversions) (geo_level : string)
           (df : DataFrame) : outcome DataFrame :=
  if String.eqb geo_level "tract" then
    obind (pad_column cv df "state" 2) (fun d1 =>
    obind (pad_column cv d1 "county" 3) (fun d2 =>
    obind (pad_column cv d2 "tract" 6) (fun d3 =>
    obind (concat3 d3 "GEOID" "state" "county" "tract") (fun d4 =>
    set_index d4 "GEOID"))))
  else if String.eqb geo_level "zcta" then
    obind (first_column is_zcta_column df) (fun zcta_col =>
    obind (pad_column cv (rename df zcta_col "ZCTA") "ZCTA" 5) (fun d =>
    set_index d "ZCTA"))
  else if String.eqb geo_level "county" then
    obind (pad_column cv df "state" 2) (fun d1 =>
    obind (pad_column cv d1 "county" 3) (fun d2 =>
    obind (concat2 d2 "FIPS" "state" "county") (fun d3 =>
    set_index d3 "FIPS")))
  else if String.eqb geo_level "state" then
    obind (pad_column cv df "state" 2) (fun d => set_index d "state")
  else Return df.

Definition fetch_data_chunk (sv : services) (variable_list : list string)
           (geo_level : string) : M DataFrame :=
  query_params <- lift (query_params geo_level) ;;
  df <- ced_download sv (mkReq variable_list query_params) ;;
  df <- lift (standardize (conv sv) geo_level df) ;;
  ret (coerce_numeric (conv sv) df).

(** [table_moes = [v.replace("E", "M") for v in table_vars]] *)
Definition table_moes (table_vars : list string) : list string :=
  map (PyStr.replace "E" "M") table_vars.

(** The variables of the script that outlive one turn of its loops:
    [geo_gdf] and [chunk_df]; [None] stands for a name not bound yet.
    After [geo_gdf = chunk_df] the two names denote one frame, so what
    the coefficient-of-variation loop writes into [geo_gdf] is seen
    through [chunk_df] too; [shared] records that. *)
Record vars : Type := mkVars {
  geo_gdf : option DataFrame;
  chunk_df : option DataFrame;
  shared : bool
}.

(** Lines 97-104:
    [while retries > 0:
       try: chunk_df = fetch_data_chunk(chunk_vars, geo); break
       except ReadTimeout: retries -= 1; time.sleep(WAIT_BETWEEN_RETRIES)].
    When the budget runs out the loop just ends: [chunk_df] keeps what it
    was bound to before, if anything. *)
Fixpoint retry_loop (sv : services) (chunk_vars : list string) (geo : string)
         (retries : nat) (chunk_df : option DataFrame)
  : M (option DataFrame) :=
  match retries with
  | O => ret chunk_df
  | S retries' =>
      fun w =>
        match fetch_data_chunk sv chunk_vars geo w with
        | (Return d, w') => (Return (Some d), w')
        | (Raise ReadTimeout, w') =>
            (sleep WAIT_BETWEEN_RETRIES ;;;
             retry_loop sv chunk_vars geo retries' chunk_df) w'
        | (Raise e, w') => (Raise e, w')
        end
  end.

(** One turn of the chunk loop (lines 96-108). *)
Definition chunk_body (sv : services) (geo : string)
           (variables_all : list string) (i : nat) (v : vars) : M vars :=
  let chunk_vars := PyList.slice variables_all i (i + MAX_VARS_PER_CALL) in
  c <- retry_loop sv chunk_vars geo RETRY_LIMIT (chunk_df v) ;;
  match c with
  | None => raise (NameError "chunk_df")
  | Some chunk =>
      match geo_gdf v with
      | None => ret (mkVars (Some chunk) c true)
      | Some g =>
          j <- lift (join_left g chunk) ;;
          ret (mkVars (Some j) c false)
      end
  end.

Definition output_file (table_id geo : string) : string :=
  "acs5_2022_" ++ table_id ++ "_" ++ geo ++ ".parquet".

(** The body of [for geo in geographies] (lines 94-119). *)
Definition unit_body (sv : services) (table_id : string)
           (table_vars variables_all : list string) (geo : string)
           (v : vars) : M vars :=
  v1 <- for_each
          (PyList.range0 (List.length variables_all) MAX_VARS_PER_CALL)
          (chunk_body sv geo variables_all)
          (mkVars None (chunk_df v) false) ;;
  match geo_gdf v1 with
  | None => raise (AttributeError "columns")
  | Some g =>
      g' <- lift (cv_loop table_vars g) ;;
      write sv (output_file table_id geo) g' None ;;;
      ret (mkVars (Some g') (if shared v1 then Some g' else chunk_df v1)
                  (shared v1))
  end.

(** The body of [for table_id in table_list] (lines 84-119);
    [table_vars] is the list read from [vars_final] for the table. *)
Definition table_body (sv : services) (table : string * list string)
           (v : vars) : M vars :=
  let (table_id, table_vars) := table in
  let variables_all := table_vars ++ table_moes table_vars in
  match variables_all with
  | [] => ret v
  | _ :: _ =>
      for_each geographies (unit_body sv table_id table_vars variables_all) v
  end.

Definition run (sv : services) (tables : list (string * list string))
  : M vars :=
  for_each tables (table_body sv) (mkVars None None false).

End AllGeos.

(** ** Additional files/# --- Environment Setup ---.py *)

Module EnvSetup.

Definition estimate_moe_pairs : list (string * string) :=
  [("TotalPopulation", "TotalPopulation_MOE");
   ("MedianHouseholdIncome", "MedianHouseholdIncome_MOE");
   ("MedianMonthlyRent", "MedianMonthlyRent_MOE")].

(** [df[moe_col] / 1.645] *)
Definition se_series (moe : Series) : outcome Series :=
  obind (as_floats moe) (fun ms =>
  Return (map (fun m => CFloat (F64.div m F64.c1_645)) ms)).

(** [(df[se_col] / df[estimate_col]) * 100] *)
Definition cv_series (se est : Series) : outcome Series :=
  obind (as_floats se) (fun ss =>
  obind (as_floats est) (fun es =>
  Return (map (fun se => CFloat (F64.mul (F64.div (fst se) (snd se)) F64.c100))
              (combine ss es)))).

(** The body of the loop of lines 54-61. *)
Definition pair_step (pair : string * string) (df : DataFrame)
  : outcome DataFrame :=
  let (estimate_col, moe_col) := pair in
  let se_col := (estimate_col ++ "_SE")%string in
  let cv_col := (estimate_col ++ "_CV")%string in
  obind (getitem df moe_col) (fun m =>
  obind (se_series m) (fun se =>
  let df1 := setitem df se_col se in
  obind (getitem df1 se_col) (fun s =>
  obind (getitem df1 estimate_col) (fun e =>
  obind (cv_series s e) (fun c =>
  Return (setitem df1 cv_col c)))))).

Fixpoint pair_loop (pairs : list (string * string)) (df : DataFrame)
  : outcome DataFrame :=
  match pairs with
  | [] => Return df
  | p :: rest => obind (pair_step p df) (pair_loop rest)
  end.

End EnvSetup.

(** ** Vocabulary of the specification *)

Module Grammar.

(** An estimate code: its field-type character, the last one, is [E]. *)
Definition estimate_code (v : string) : Prop :=
  PyStr.last_char v = Some "E"%char.









(** What the coercion loop leaves under a column name. *)
Definition coerced (cv : conversions) (c : string) (o : option Series)
  : option Series :=
  option_map (fun v => if passthrough c then v else to_numeric cv v) o.



End Grammar.

Import Grammar.

(** ** Sample inputs *)

Module Samples.

(** Text conversions used when a run is evaluated: no text other than a
    plain integer is a number, and floats print as ["nan"]. *)
Definition plain : conversions :=
  mkConv (fun _ => "nan") (fun _ => F64.nan).

(** One state whose estimate is 0 and whose margin of error is 1645,
    after the numeric coercion. *)
Definition zero_estimate : DataFrame :=
  mkDF (Some "state") [CStr "01"]
       [("NAME", [CStr "Alabama"]);
        ("B01003_001E", [CInt 0]);
        ("B01003_001M", [CInt 1645])].


(** The same figures under the column names of the single-county script. *)
Definition one_tract : DataFrame :=
  mkDF None [CInt 0]
       [("TotalPopulation", [CInt 1000000]);
        ("TotalPopulation_MOE", [CInt 1645])].

(** A source with two units per geography level.  Each answer carries one
    text column per selector of the request (unpadded codes), the area
    name, one text column per requested variable (1645 for a code ending
    in [M], 1000000 for any other) and the geometry. *)
Definition dimension_values (selector : string) : Series :=
  if String.eqb selector "state" then [CStr "1"; CStr "2"]
  else if String.eqb selector "county" then [CStr "1"; CStr "3"]
  else if String.eqb selector "tract" then [CStr "100"; CStr "200"]
  else [CStr "601"; CStr "602"].

Definition dimension_column (selector : string * string) : string * Series :=
  (if String.eqb (fst selector) "zip_code_tabulation_area"
   then "zip code tabulation area" else fst selector,
   dimension_values (fst selector)).

Definition variable_column (v : string) : string * Series :=
  (v, match PyStr.last_char v with
      | Some "M"%char => [CStr "1645"; CStr "1645"]
      | _ => [CStr "1000000"; CStr "1000000"]
      end).

Definition census (_ : nat) (r : request) : outcome DataFrame :=
  Return (mkDF None [CInt 0; CInt 1]
               (map dimension_column (req_params r)
                ++ [("NAME", [CStr "First"; CStr "Second"])]
                ++ map variable_column (req_vars r)
                ++ [("geometry", [CGeom "POLYGON A"; CGeom "POLYGON B"])])).

Definition sv_census : services :=
  mkServices plain census (fun _ _ _ => None).

(** A state-level answer whose state code has three characters. *)
Definition wide_state : DataFrame :=
  mkDF None [CInt 0] [("state", [CStr "123"]); ("NAME", [CStr "Somewhere"])].

(** A tract-level answer with unpadded codes. *)
Definition tract_answer : DataFrame :=
  mkDF None [CInt 0; CInt 1]
       [("state", [CStr "1"; CStr "2"]);
        ("county", [CStr "1"; CStr "3"]);
        ("tract", [CStr "100"; CStr "200"]);
        ("NAME", [CStr "First"; CStr "Second"]);
        ("B01003_001E", [CStr "1000000"; CStr "1000000"])].

(** The same source when only its first answer arrives: every later
    request times out. *)
Definition census_once (n : nat) (r : request) : outcome DataFrame :=
  if n =? 0 then census n r else Raise ReadTimeout.

Definition sv_census_once : services :=
  mkServices plain census_once (fun _ _ _ => None).

(** A source that never answers in time. *)
Definition sv_timeout : services :=
  mkServices plain (fun _ _ => Raise ReadTimeout) (fun _ _ _ => None).

(** The source whose answer to the fourth request fails (the first three
    requests serve the units of one single-chunk table before it). *)
Definition census_fourth_fails (n : nat) (r : request) : outcome DataFrame :=
  if n =? 3 then Raise (OtherError "HTTP 500") else census n r.

Definition sv_fourth_fails : services :=
  mkServices plain census_fourth_fails (fun _ _ _ => None).

(** A sink that refuses the second write. *)
Definition sv_second_write_fails : services :=
  mkServices plain census
             (fun n _ _ => if n =? 1 then Some (OtherError "write failed")
                           else None).

Definition two_tables : list (string * list string) :=
  [("B01003", ["B01003_001E"]); ("B19013", ["B19013_001E"])].


(** Fifty-one variable codes: two requests. *)
Definition codes51 : list string :=
  map (fun i => ("B01001_" ++ PyStr.of_Z (Z.of_nat i) ++ "E")%string)
      (seq 1 51).



End Samples.

(** ** Further vocabulary *)

Module Notions.

(** The world after [k] attempts of the all-geographies script for the
    variables [chunk_vars] that timed out: [k] more requests, and a sleep
    after each. *)
Definition after_timeouts (chunk_vars : list string)
           (params : list (string * string)) (w : world) (k : nat) : world :=
  mkWorld (calls w ++ repeat (mkReq chunk_vars params) k)
          (sleeps w ++ repeat AllGeos.WAIT_BETWEEN_RETRIES k)
          (writes w) (store w).

(** What a stretch of the script may have cost: at most [n] requests, at
    most [n] sleeps, each of [WAIT_BETWEEN_RETRIES] seconds, and no
    write. *)
Definition within_budget (n : nat) (w w' : world) : Prop :=
  List.length (calls w') <= List.length (calls w) + n
  /\ (exists k, k <= n
                /\ sleeps w' = sleeps w ++ repeat AllGeos.WAIT_BETWEEN_RETRIES k)
  /\ store w' = store w
  /\ writes w' = writes w.

(** The cell that a left join brings to a row labelled [k] from the
    column [v] of the right frame: the value of the first row of that
    label, or NaN when there is none. *)
Definition matched (right_labels : list cell) (v : Series) (k : cell) : cell :=
  match positions k right_labels with
  | p :: _ => nth p v CNone
  | [] => CFloat F64.nan
  end.

(** A column after the coercion loop: [NAME] and [geometry] as they
    were, any other column through [pd.to_numeric]. *)
Definition coerce_pair (cv : conversions) (nv : string * Series)
  : string * Series :=
  (fst nv, if passthrough (fst nv) then snd nv else to_numeric cv (snd nv)).

(** A cell that holds a code: a non-empty text of digits, or an integer
    of the 64-bit range. *)
Definition code_cell (c : cell) : Prop :=
  match c with
  | CStr s => s <> EmptyString /\ PyStr.all_chars PyStr.is_digit s = true
  | CInt z => (- 2 ^ 63 <= z < 2 ^ 64)%Z
  | _ => False
  end.

(** A source and a sink whose answers do not depend on how many calls
    came before. *)
Definition stationary (sv : services) : Prop :=
  (forall n m r, download sv n r = download sv m r)
  /\ (forall n m name df, write_error sv n name df = write_error sv m name df).

(** A sequence of overwrites, the oldest first. *)
Definition puts (ps : list (string * dataset)) (st : list (string * dataset))
  : list (string * dataset) :=
  fold_left (fun s p => store_put (fst p) (snd p) s) ps st.

(** The names that [ps] does not write. *)
Definition untouched (ps : list (string * dataset)) (nd : string * dataset)
  : bool :=
  forallb (fun p => negb (String.eqb (fst p) (fst nd))) ps.

(** What a sequence of overwrites leaves of the empty sink. *)
Definition written (ps : list (string * dataset)) : list (string * dataset) :=
  puts ps [].

(** A computation whose outcome and whose overwrites are the same from
    every world. *)
Definition steady {A} (c : M A) : Prop :=
  exists (o : outcome A) (ps : list (string * dataset)),
    forall w, fst (c w) = o /\ store (snd (c w)) = puts ps (store w).

(** A geometry cell: a shape, or [None] for a unit without one. *)
Definition is_shape (c : cell) : bool :=
  match c with
  | CGeom _ | CNone => true
  | _ => false
  end.

(** The well-known text of a geometry cell. *)
Definition wkt_cell (c : cell) : cell :=
  match c with
  | CGeom w => CStr w
  | _ => CNone
  end.

End Notions.

Import Notions.

(** ** The whole of [# --- Environment Setup ---.py] *)

Module SingleCounty.

Definition HOUSTON_STATE_FIPS : string := "48".
Definition HARRIS_COUNTY_FIPS : string := "201".

Definition download_variables : list string :=
  ["B01003_001E"; "B01003_001M";
   "B19013_001E"; "B19013_001M";
   "B25058_001E"; "B25058_001M"].

Definition column_renames : list (string * string) :=
  [("B01003_001E", "TotalPopulation");
   ("B01003_001M", "TotalPopulation_MOE");
   ("B19013_001E", "MedianHouseholdIncome");
   ("B19013_001M", "MedianHouseholdIncome_MOE");
   ("B25058_001E", "MedianMonthlyRent");
   ("B25058_001M", "MedianMonthlyRent_MOE")].

(** The one request of the script (lines 30-38). *)
Definition tracts_request : request :=
  mkReq download_variables
        [("state", HOUSTON_STATE_FIPS); ("county", HARRIS_COUNTY_FIPS);
         ("tract", "*")].

(** [mapping.get(name, name)] *)
Fixpoint renamed (mapping : list (string * string)) (name : string) : string :=
  match mapping with
  | [] => name
  | (old, new) :: rest =>
      if String.eqb name old then new else renamed rest name
  end.

(** [df.rename(columns=mapping, inplace=True)] *)
Definition rename_columns (mapping : list (string * string)) (df : DataFrame)
  : DataFrame :=
  mkDF (index_name df) (index df)
       (map (fun nv => (renamed mapping (fst nv), snd nv)) (columns df)).

(** The body of the loop of lines 43-45. *)
Definition numeric_step (cv : conversions) (df : DataFrame) (col : string)
  : outcome DataFrame :=
  if negb (String.eqb col "NAME") then
    obind (getitem df col) (fun v => Return (setitem df col (to_numeric cv v)))
  else Return df.

Fixpoint numeric_loop (cv : conversions) (cols : list string) (df : DataFrame)
  : outcome DataFrame :=
  match cols with
  | [] => Return df
  | col :: rest => obind (numeric_step cv df col) (numeric_loop cv rest)
  end.

Definition lakehouse_path : string := "/lakehouse/default/Files/census_data/".
Definition output_filename : string := "houston_acs5_tract_data.parquet".

(** What [to_parquet(path, index=False)] stores: the columns, without
    the index; read back, the rows are numbered from 0. *)
Definition without_index (df : DataFrame) : DataFrame :=
  mkDF None (map (fun i => CInt (Z.of_nat i)) (seq 0 (nrows df))) (columns df).

(** Lines 28-71. *)
Definition run (sv : services) : M unit :=
  gdf_houston_tracts <- ced_download sv tracts_request ;;
  let gdf_houston_tracts := rename_columns column_renames gdf_houston_tracts in
  gdf_houston_tracts <-
    lift (numeric_loop (conv sv) (map snd column_renames) gdf_houston_tracts) ;;
  gdf_houston_tracts <-
    lift (EnvSetup.pair_loop EnvSetup.estimate_moe_pairs gdf_houston_tracts) ;;
  write sv (lakehouse_path ++ output_filename)
        (without_index gdf_houston_tracts) None.

End SingleCounty.

(** ** Further sample inputs *)

Module MoreSamples.

(** A source whose first two answers time out. *)
Definition census_third_time (n : nat) (r : request) : outcome DataFrame :=
  if n <? 2 then Raise ReadTimeout else Samples.census n r.

Definition sv_third_time : services :=
  mkServices Samples.plain census_third_time (fun _ _ _ => None).

(** Two frames keyed by state, the right one with a state that the left
    one lacks and without one that it has. *)
Definition left_states : DataFrame :=
  mkDF (Some "state") [CStr "01"; CStr "02"]
       [("NAME", [CStr "First"; CStr "Second"]); ("A", [CInt 10; CInt 20])].

Definition right_states : DataFrame :=
  mkDF (Some "state") [CStr "02"; CStr "03"]
       [("B", [CInt 200; CInt 300])].

(** Two states, the second without a shape. *)
Definition shapes : DataFrame :=
  mkDF None [CInt 0; CInt 1]
       [("state", [CInt 1; CInt 2]);
        ("NAME", [CStr "First"; CStr "Second"]);
        ("geometry", [CGeom "POLYGON A"; CNone])].

End MoreSamples.

(** * Properties *)

(** ** Text *)

Section TextFacts.

Lemma append_assoc (s t u : string) :
  ((s ++ t) ++ u = s ++ (t ++ u))%string.
Proof.
  induction s as [|c s IH]; simpl.
  - reflexivity.
  - rewrite IH. reflexivity.
Qed.

Lemma length_append (s t : string) :
  String.length (s ++ t) = String.length s + String.length t.
Proof.
  induction s as [|c s IH]; simpl.
  - reflexivity.
  - rewrite IH. reflexivity.
Qed.

Lemma rev_onto_app (s acc : string) :
  PyStr.rev_onto s acc = (PyStr.rev s ++ acc)%string.
Proof.
  unfold PyStr.rev. revert acc.
  induction s as [|c s IH]; intros acc; simpl.
  - reflexivity.
  - rewrite IH. rewrite (IH (String c "")).
    rewrite append_assoc. reflexivity.
Qed.

Lemma rev_onto_append (s t acc : string) :
  PyStr.rev_onto (s ++ t) acc = PyStr.rev_onto t (PyStr.rev_onto s acc).
Proof.
  revert acc. induction s as [|d s IH]; intros acc; simpl.
  - reflexivity.
  - apply IH.
Qed.

Lemma rev_app_char (s : string) (c : ascii) :
  PyStr.rev (s ++ String c "") = String c (PyStr.rev s).
Proof. unfold PyStr.rev. rewrite rev_onto_append. reflexivity. Qed.

Lemma rev_cons (s : string) (c : ascii) :
  PyStr.rev (String c s) = (PyStr.rev s ++ String c "")%string.
Proof. unfold PyStr.rev at 1. simpl. apply rev_onto_app. Qed.

Lemma rev_involutive (s : string) : PyStr.rev (PyStr.rev s) = s.
Proof.
  induction s as [|c s IH].
  - reflexivity.
  - rewrite rev_cons, rev_app_char, IH. reflexivity.
Qed.

(** The pattern [E$] rewrites a final [E] and nothing before it. *)
Lemma sub_at_end_final (body : string) :
  PyStr.sub_at_end "E" "M" (body ++ "E") = (body ++ "M")%string.
Proof.
  unfold PyStr.sub_at_end. rewrite rev_app_char. simpl.
  rewrite rev_cons, rev_involutive. reflexivity.
Qed.

Lemma replace_app (old new : ascii) (s t : string) :
  PyStr.replace old new (s ++ t)
  = (PyStr.replace old new s ++ PyStr.replace old new t)%string.
Proof.
  induction s as [|c s IH]; simpl.
  - reflexivity.
  - rewrite IH. reflexivity.
Qed.

(** [replace] leaves a text without [old] alone. *)
Lemma replace_absent (old new : ascii) (s : string) :
  PyStr.all_chars (fun c => negb (Ascii.eqb c old)) s = true ->
  PyStr.replace old new s = s.
Proof.
  induction s as [|c s IH]; simpl; intros H.
  - reflexivity.
  - apply andb_true_iff in H. destruct H as [Hc Hs].
    apply negb_true_iff in Hc. rewrite Hc, (IH Hs). reflexivity.
Qed.

(** On a code whose only [E] is the last character the two derivations
    agree. *)
Lemma replace_only_final (body : string) :
  PyStr.all_chars (fun c => negb (Ascii.eqb c "E")) body = true ->
  PyStr.replace "E" "M" (body ++ "E") = (body ++ "M")%string.
Proof.
  intros H. rewrite replace_app, (replace_absent _ _ _ H). reflexivity.
Qed.

End TextFacts.

(** C1: the margin-of-error code of an estimate code is meant to differ
    from it in the final field-type character only.  Both pipelines derive
    it with [v.replace("E", "M")], which rewrites every [E]: for the code
    [B06004E_001E] of table [B06004E] they ask for [B06004M_001M], while
    the [E$] pattern of line 35 of the all-geographies script yields
    [B06004E_001M]. *)
Theorem C1_moe_codes_rewrite_every_E :
  ETL.moe_codes ["B06004E_001E"] = ["B06004M_001M"]
  /\ AllGeos.table_moes ["B06004E_001E"] = ["B06004M_001M"]
  /\ AllGeos.MOE_VAR "B06004E_001E" = "B06004E_001M"
  /\ ETL.moe_codes ["B06004E_001E"] <> [AllGeos.MOE_VAR "B06004E_001E"].
Proof.
  repeat split; try reflexivity.
  vm_compute. discriminate.
Qed.

(** ** Chunking *)

Section ChunkFacts.

Context {A : Type}.

Lemma range_from_length (step fuel i stop : nat) :
  0 < step -> stop - i <= fuel ->
  List.length (PyList.range_from fuel i stop step)
  = (stop - i + (step - 1)) / step.
Proof.
  intros Hstep. revert i.
  induction fuel as [|fuel IH]; intros i Hfuel; simpl.
  - replace (stop - i) with 0 by lia.
    symmetry. apply Nat.div_small. lia.
  - destruct (Nat.ltb_spec i stop) as [Hlt|Hge].
    + simpl. rewrite IH by lia.
      destruct (Nat.le_gt_cases step (stop - i)) as [Hbig|Hsmall].
      * replace (stop - i + (step - 1))
          with (stop - (i + step) + (step - 1) + 1 * step) by lia.
        rewrite Nat.div_add by lia. lia.
      * replace (stop - (i + step)) with 0 by lia.
        rewrite (Nat.div_small (0 + (step - 1))) by lia.
        apply (Nat.div_unique _ _ 1 (stop - i - 1)); lia.
    + replace (stop - i) with 0 by lia.
      symmetry. apply Nat.div_small. lia.
Qed.

Lemma slice_then_rest (l : list A) (i step : nat) :
  PyList.slice l i (i + step) ++ skipn (i + step) l = skipn i l.
Proof.
  unfold PyList.slice.
  replace (i + step - i) with step by lia.
  rewrite (Nat.add_comm i step), <- skipn_skipn.
  apply firstn_skipn.
Qed.

Lemma concat_slices (l : list A) (step fuel i : nat) :
  0 < step -> List.length l - i <= fuel ->
  List.concat (map (fun j => PyList.slice l j (j + step))
              (PyList.range_from fuel i (List.length l) step))
  = skipn i l.
Proof.
  intros Hstep. revert i.
  induction fuel as [|fuel IH]; intros i Hfuel; simpl.
  - symmetry. apply skipn_all2. lia.
  - destruct (Nat.ltb_spec i (List.length l)) as [Hlt|Hge].
    + simpl. rewrite IH by lia. apply slice_then_rest.
    + symmetry. apply skipn_all2. lia.
Qed.

Lemma slice_length_le (l : list A) (i step : nat) :
  List.length (PyList.slice l i (i + step)) <= step.
Proof.
  unfold PyList.slice. rewrite length_firstn. lia.
Qed.

Lemma chunks_concat (vars_list : list A) :
  List.concat (ETL.chunks vars_list) = vars_list.
Proof.
  unfold ETL.chunks, ETL.chunk_at, PyList.range0.
  rewrite concat_slices; [reflexivity | unfold ETL.MAX_VARS_PER_CALL; lia | lia].
Qed.

Lemma chunks_count (vars_list : list A) :
  List.length (ETL.chunks vars_list) = (List.length vars_list + 49) / 50.
Proof.
  unfold ETL.chunks, PyList.range0. rewrite length_map.
  rewrite (range_from_length ETL.MAX_VARS_PER_CALL)
    by (unfold ETL.MAX_VARS_PER_CALL; lia).
  unfold ETL.MAX_VARS_PER_CALL. f_equal. lia.
Qed.

Lemma chunks_bounded (vars_list : list A) :
  Forall (fun c => List.length c <= 50) (ETL.chunks vars_list).
Proof.
  unfold ETL.chunks. apply Forall_forall. intros c Hc.
  apply in_map_iff in Hc. destruct Hc as [i [<- _]].
  apply slice_length_le.
Qed.

End ChunkFacts.

(** ** The requests of [fetch_geo_data] *)

Section RequestLog.

Variable sv : services.
Variable geo_level : string.
Variable params : list (string * string).
Variable vars_list : list string.

Let req (i : nat) : request := mkReq (ETL.chunk_at vars_list i) params.

Lemma chunk_body_calls (i : nat) (s : option DataFrame) (w : world) :
  calls (snd (ETL.chunk_body sv geo_level params vars_list i s w))
  = calls w ++ [req i].
Proof.
  unfold ETL.chunk_body, bind, ced_download, lift, ret. simpl.
  destruct (download sv (List.length (calls w)) _) as [chunk|e]; simpl.
  - destruct s as [full|].
    + destruct (ETL.next_chunk _ _ _) as [c|e]; simpl; [|reflexivity].
      destruct (join_left full c); reflexivity.
    + destruct (ETL.first_chunk _ _ _); reflexivity.
  - reflexivity.
Qed.

Lemma chunk_loop_calls (starts : list nat) :
  forall (s : option DataFrame) (w : world) (r : option DataFrame) (w' : world),
    for_each starts (ETL.chunk_body sv geo_level params vars_list) s w
    = (Return r, w') ->
    calls w' = calls w ++ map req starts.
Proof.
  induction starts as [|i starts IH]; intros s w r w' H; simpl in *.
  - unfold ret in H. inversion H; subst. rewrite app_nil_r. reflexivity.
  - unfold bind in H.
    pose proof (chunk_body_calls i s w) as Hc.
    destruct (ETL.chunk_body sv geo_level params vars_list i s w)
      as [[s1|e] w1]; simpl in Hc.
    + rewrite (IH _ _ _ _ H), Hc, <- app_assoc. reflexivity.
    + discriminate.
Qed.

(** Whatever the outcome, the requests issued are the first chunks, in
    order. *)
Lemma chunk_loop_calls_prefix (starts : list nat) :
  forall (s : option DataFrame) (w : world),
    exists k,
      calls (snd (for_each starts
                    (ETL.chunk_body sv geo_level params vars_list) s w))
      = calls w ++ map req (firstn k starts).
Proof.
  induction starts as [|i starts IH]; intros s w; simpl.
  - exists 0. simpl. rewrite app_nil_r. reflexivity.
  - unfold bind.
    pose proof (chunk_body_calls i s w) as Hc.
    destruct (ETL.chunk_body sv geo_level params vars_list i s w)
      as [[s1|e] w1]; simpl in Hc.
    + destruct (IH s1 w1) as [k Hk]. exists (S k).
      rewrite Hk, Hc, <- app_assoc. reflexivity.
    + exists 1. simpl. exact Hc.
Qed.

End RequestLog.

Lemma fetch_geo_data_calls (sv : services) (vars_list : list string)
      (geo_level : string) (w w' : world) (df : DataFrame) :
  ETL.fetch_geo_data sv vars_list geo_level w = (Return df, w') ->
  map req_vars (calls w') = map req_vars (calls w) ++ ETL.chunks vars_list.
Proof.
  unfold ETL.fetch_geo_data, bind, lift. intros H.
  destruct (query_params geo_level) as [params|e]; [|discriminate].
  destruct (for_each _ _ None w) as [[r|e] w1] eqn:Hloop; [|discriminate].
  apply chunk_loop_calls in Hloop.
  assert (w1 = w') as <-.
  { destruct r; unfold ret, raise in H; inversion H; reflexivity. }
  rewrite Hloop, map_app, map_map. reflexivity.
Qed.

(** ** Columns of a frame *)

Section FrameFacts.

Lemma lookup_assign (c c' : string) (v : Series) (cols : list (string * Series)) :
  lookup c (assign c' v cols)
  = if String.eqb c c' then Some v else lookup c cols.
Proof.
  induction cols as [|[n w] cols IH]; simpl.
  - destruct (String.eqb c c'); reflexivity.
  - destruct (String.eqb_spec c' n) as [->|Hn]; simpl.
    + destruct (String.eqb c n); reflexivity.
    + destruct (String.eqb_spec c n) as [->|Hc].
      * destruct (String.eqb_spec n c') as [->|_]; [congruence|reflexivity].
      * apply IH.
Qed.

Lemma lookup_setitem_same (df : DataFrame) (c : string) (v : Series) :
  lookup c (columns (setitem df c v)) = Some v.
Proof. simpl. rewrite lookup_assign, String.eqb_refl. reflexivity. Qed.

Lemma lookup_setitem_other (df : DataFrame) (c c' : string) (v : Series) :
  c <> c' ->
  lookup c (columns (setitem df c' v)) = lookup c (columns df).
Proof.
  intros H. simpl. rewrite lookup_assign.
  destruct (String.eqb_spec c c'); [contradiction|reflexivity].
Qed.

Lemma has_col_lookup (c : string) (df : DataFrame) :
  has_col c df = match lookup c (columns df) with
                 | Some _ => true
                 | None => false
                 end.
Proof.
  unfold has_col, col_names.
  induction (columns df) as [|[n w] cols IH]; simpl.
  - reflexivity.
  - destruct (String.eqb c n); [reflexivity|apply IH].
Qed.

Lemma last_char_append (s t : string) :
  t <> EmptyString -> PyStr.last_char (s ++ t) = PyStr.last_char t.
Proof.
  intros Ht. induction s as [|c s IH]; simpl.
  - reflexivity.
  - rewrite IH. destruct (s ++ t)%string eqn:E; [|reflexivity].
    destruct s; simpl in E; [contradiction|discriminate].
Qed.

Lemma last_char_CV (s : string) : PyStr.last_char (s ++ "_CV") = Some "V"%char.
Proof. rewrite last_char_append; [reflexivity|discriminate]. Qed.

Lemma last_char_replace (s : string) :
  PyStr.last_char s = Some "E"%char ->
  PyStr.last_char (PyStr.replace "E" "M" s) = Some "M"%char.
Proof.
  induction s as [|c s IH]; simpl; [discriminate|].
  destruct s as [|d s]; simpl in *.
  - intros H. inversion H; subst. reflexivity.
  - intros H. exact (IH H).
Qed.

Lemma append_same_suffix (s t u : string) :
  (s ++ u = t ++ u)%string -> s = t.
Proof.
  revert t. induction s as [|c s IH]; intros t H.
  - destruct t as [|d t]; [reflexivity|].
    exfalso. simpl in H.
    assert (L : String.length u = String.length (String d (t ++ u)))
      by (rewrite <- H; reflexivity).
    simpl in L. rewrite length_append in L. lia.
  - destruct t as [|d t]; simpl in H.
    + exfalso.
      assert (L : String.length (String c (s ++ u)) = String.length u)
        by (rewrite H; reflexivity).
      simpl in L. rewrite length_append in L. lia.
    + inversion H; subst. f_equal. apply IH. assumption.
Qed.

End FrameFacts.

(** ** Reliability arithmetic *)

Section ReliabilityFacts.

(** [1.645] is 1645/1000 rounded to the nearest binary64. *)
Lemma c1_645_nearest :
  F64.div (F64.of_Z 1645) (F64.of_Z 1000) = F64.c1_645.
Proof. vm_compute. reflexivity. Qed.

Lemma c100_finite : exists m e, F64.c100 = S754_finite false m e.
Proof. eexists. eexists. vm_compute. reflexivity. Qed.

Lemma mul_c100_inf (s : bool) :
  F64.mul (S754_infinity s) F64.c100 = S754_infinity s.
Proof.
  destruct c100_finite as [m [e ->]]. simpl. destruct s; reflexivity.
Qed.

Lemma div_by_nan (x : spec_float) : F64.div x S754_nan = S754_nan.
Proof. destruct x; reflexivity. Qed.

(** A quotient by zero is never a finite number. *)
Lemma div_by_zero (x : spec_float) (s : bool) :
  F64.div x (S754_zero s) = S754_nan
  \/ exists t, F64.div x (S754_zero s) = S754_infinity t.
Proof.
  destruct x; simpl; [left|right|left|right]; try reflexivity;
    eexists; reflexivity.
Qed.

Lemma div_zero_c1_645 (s : bool) :
  F64.div (S754_zero s) F64.c1_645 = S754_zero s.
Proof. destruct s; reflexivity. Qed.

Lemma as_floats_floats (fs : list spec_float) :
  as_floats (map CFloat fs) = Return fs.
Proof.
  induction fs as [|f fs IH]; simpl.
  - reflexivity.
  - rewrite IH. reflexivity.
Qed.

Lemma as_floats_numeric (v : Series) :
  Forall (fun c => is_numeric c = true) v ->
  exists fs, as_floats v = Return fs.
Proof.
  induction 1 as [|c v Hc _ [fs IH]]; simpl.
  - exists []. reflexivity.
  - destruct c as [s|z|f| |w]; try discriminate; simpl; rewrite IH;
      eexists; reflexivity.
Qed.

(** On numeric columns the expression never raises. *)
Lemma cv_series_total (m e : Series) :
  Forall (fun c => is_numeric c = true) m ->
  Forall (fun c => is_numeric c = true) e ->
  exists ms es,
    as_floats m = Return ms /\ as_floats e = Return es
    /\ cv_series m e = Return (cv_rows ms es).
Proof.
  intros Hm He.
  destruct (as_floats_numeric m Hm) as [ms Hms].
  destruct (as_floats_numeric e He) as [es Hes].
  exists ms, es. unfold cv_series. rewrite Hms, Hes.
  repeat split.
Qed.

End ReliabilityFacts.

(** C2, as the code has it: on numeric columns the expression
    [(moe / 1.645) / est * 100.0] never raises; a missing estimate gives a
    missing value; an estimate that is exactly zero never gives a finite
    number: the value is missing when the margin of error is zero or
    missing, and is missing or an infinity otherwise (+infinity for a
    margin of error of 1645). *)
Theorem C2_cv_of_missing_or_zero_estimate (moe est : spec_float) :
  (F64.is_nan est = true -> cv_value moe est = F64.nan)
  /\ (F64.is_zero est = true ->
      (F64.is_nan (cv_value moe est) || F64.is_inf (cv_value moe est))%bool
      = true)
  /\ (F64.is_zero est = true ->
      (F64.is_zero moe || F64.is_nan moe)%bool = true ->
      cv_value moe est = F64.nan)
  /\ (forall m e,
        Forall (fun c => is_numeric c = true) m ->
        Forall (fun c => is_numeric c = true) e ->
        exists ms es,
          as_floats m = Return ms /\ as_floats e = Return es
          /\ cv_series m e = Return (cv_rows ms es)).
Proof.
  unfold cv_value. split; [|split; [|split]].
  - destruct est; try discriminate. intros _.
    rewrite div_by_nan. reflexivity.
  - destruct est as [s| | |]; try discriminate. intros _.
    destruct (div_by_zero (F64.div moe F64.c1_645) s) as [->|[t ->]].
    + reflexivity.
    + rewrite mul_c100_inf. reflexivity.
  - destruct est as [s| | |]; try discriminate. intros _.
    destruct moe as [t| | |]; try discriminate; intros _.
    + rewrite div_zero_c1_645. reflexivity.
    + reflexivity.
  - exact cv_series_total.
Qed.

(** The three cases at a margin of error of 1645 and of 0, and the
    column of one record with estimate 0. *)
Lemma C2_cv_of_missing_or_zero_estimate_witness :
  (F64.is_nan (cv_value (F64.of_Z 1645) (S754_zero false))
   || F64.is_inf (cv_value (F64.of_Z 1645) (S754_zero false)))%bool = true
  /\ cv_value (F64.of_Z 1645) S754_nan = F64.nan
  /\ cv_value (S754_zero false) (S754_zero false) = F64.nan
  /\ exists ms es,
      as_floats [CInt 1645] = Return ms /\ as_floats [CInt 0] = Return es
      /\ cv_series [CInt 1645] [CInt 0] = Return (cv_rows ms es).
Proof.
  split; [|split; [|split]].
  - exact (proj1 (proj2 (C2_cv_of_missing_or_zero_estimate
                           (F64.of_Z 1645) (S754_zero false))) eq_refl).
  - exact (proj1 (C2_cv_of_missing_or_zero_estimate
                    (F64.of_Z 1645) S754_nan) eq_refl).
  - exact (proj1 (proj2 (proj2 (C2_cv_of_missing_or_zero_estimate
                                  (S754_zero false) (S754_zero false))))
                 eq_refl eq_refl).
  - apply (proj2 (proj2 (proj2 (C2_cv_of_missing_or_zero_estimate
                                  S754_nan S754_nan)))).
    + constructor; [reflexivity|constructor].
    + constructor; [reflexivity|constructor].
Defined.

(** C2 as stated fails: an estimate of exactly 0 with a margin of error of
    1645 gets the coefficient of variation +infinity, which is not the
    missing value. *)
Lemma C2_zero_estimate_gives_infinity :
  cv_value (F64.of_Z 1645) (F64.of_Z 0) = S754_infinity false
  /\ F64.is_zero (F64.of_Z 0) = true
  /\ F64.is_nan (cv_value (F64.of_Z 1645) (F64.of_Z 0)) = false
  /\ cv_step "B01003_001E" Samples.zero_estimate
     = Return (setitem Samples.zero_estimate "B01003_001E_CV"
                       [CFloat (S754_infinity false)]).
Proof. repeat split; vm_compute; reflexivity. Qed.

(** ** The coefficient-of-variation loop *)

Section AnnotationFacts.

Lemma estimate_code_not_CV (v w : string) :
  estimate_code v -> v <> (w ++ "_CV")%string.
Proof.
  unfold estimate_code. intros Hv ->. rewrite last_char_CV in Hv. discriminate.
Qed.

Lemma moe_var_not_CV (v w : string) :
  estimate_code v -> moe_var_of v <> (w ++ "_CV")%string.
Proof.
  intros Hv H. apply last_char_replace in Hv. fold (moe_var_of v) in Hv.
  rewrite H, last_char_CV in Hv. discriminate.
Qed.

Lemma CV_name_injective (v w : string) :
  v <> w -> (v ++ "_CV")%string <> (w ++ "_CV")%string.
Proof. intros H E. apply H. exact (append_same_suffix _ _ _ E). Qed.

Lemma cv_step_skip (v : string) (df : DataFrame) :
  (has_col v df && has_col (moe_var_of v) df)%bool = false ->
  cv_step v df = Return df.
Proof. unfold cv_step, moe_var_of. intros ->. reflexivity. Qed.

(** One turn writes the column [v_CV] and no other. *)
Lemma cv_step_writes (v : string) (df df1 : DataFrame) :
  cv_step v df = Return df1 ->
  forall c, c <> (v ++ "_CV")%string ->
            lookup c (columns df1) = lookup c (columns df).
Proof.
  unfold cv_step. intros H c Hc.
  destruct (has_col v df && has_col (moe_var_of v) df)%bool.
  - destruct (getitem df _) as [m|]; simpl in H; [|discriminate].
    destruct (getitem df v) as [e|]; simpl in H; [|discriminate].
    destruct (cv_series m e) as [s|]; simpl in H; [|discriminate].
    inversion H; subst. apply lookup_setitem_other. exact Hc.
  - inversion H; subst. reflexivity.
Qed.


Lemma has_col_after_step (v c : string) (df df1 : DataFrame) :
  cv_step v df = Return df1 -> c <> (v ++ "_CV")%string ->
  has_col c df1 = has_col c df.
Proof.
  intros H Hc. rewrite !has_col_lookup, (cv_step_writes _ _ _ H c Hc).
  reflexivity.
Qed.

(** A variable whose estimate or margin column is missing stays without a
    [_CV] column through the whole loop. *)
Lemma cv_loop_absent (v : string) (var_codes : list string) :
  estimate_code v ->
  forall df df',
    (has_col v df && has_col (moe_var_of v) df)%bool = false ->
    cv_loop var_codes df = Return df' ->
    lookup (v ++ "_CV") (columns df') = lookup (v ++ "_CV") (columns df).
Proof.
  intros Hv. induction var_codes as [|w rest IH]; simpl; intros df df' Habs H.
  - inversion H; subst. reflexivity.
  - destruct (cv_step w df) as [df1|] eqn:Hstep; simpl in H; [|discriminate].
    destruct (string_dec w v) as [->|Hw].
    + rewrite (cv_step_skip _ _ Habs) in Hstep. inversion Hstep; subst.
      apply IH; assumption.
    + rewrite (IH df1 df').
      * apply (cv_step_writes _ _ _ Hstep). apply CV_name_injective. congruence.
      * rewrite (has_col_after_step _ _ _ _ Hstep (estimate_code_not_CV v w Hv)).
        rewrite (has_col_after_step _ _ _ _ Hstep (moe_var_not_CV v w Hv)).
        exact Habs.
      * exact H.
Qed.

End AnnotationFacts.

(** C10: when the estimate column or the derived margin-of-error column of
    a variable is not in the merged frame, its turn of the loop raises
    nothing and returns the frame as it was; and over the whole loop the
    frame ends with the same [_CV] column for that estimate code as it
    began with (none, when it had none). *)
Theorem C10_absent_columns_are_skipped (est_var : string) (df : DataFrame) :
  has_col est_var df = false
  \/ has_col (PyStr.replace "E" "M" est_var) df = false ->
  cv_step est_var df = Return df
  /\ (PyStr.last_char est_var = Some "E"%char ->
      forall var_codes df',
        cv_loop var_codes df = Return df' ->
        lookup (est_var ++ "_CV") (columns df')
        = lookup (est_var ++ "_CV") (columns df)).
Proof.
  intros Habs.
  assert (Hg : (has_col est_var df && has_col (moe_var_of est_var) df)%bool = false).
  { unfold moe_var_of. destruct Habs as [-> | ->];
      [reflexivity | apply andb_false_r]. }
  split.
  - apply cv_step_skip. exact Hg.
  - intros Hv var_codes df' H. exact (cv_loop_absent _ _ Hv _ _ Hg H).
Qed.

(** A table estimate with no column in the frame, next to one that has
    both columns. *)
Lemma C10_absent_columns_are_skipped_witness :
  cv_step "B19013_001E" Samples.zero_estimate = Return Samples.zero_estimate
  /\ match cv_loop ["B01003_001E"; "B19013_001E"] Samples.zero_estimate with
     | Return df' =>
         lookup "B19013_001E_CV" (columns df') = None
         /\ has_col "B01003_001E_CV" df' = true
     | Raise _ => False
     end.
Proof.
  pose proof (C10_absent_columns_are_skipped
                "B19013_001E" Samples.zero_estimate (or_introl eq_refl))
    as [Hstep Hloop].
  split; [exact Hstep|].
  destruct (cv_loop ["B01003_001E"; "B19013_001E"] Samples.zero_estimate)
    as [df'|e] eqn:H.
  - split.
    + exact (eq_trans (Hloop eq_refl _ _ H) eq_refl).
    + vm_compute in H. inversion H; subst. reflexivity.
  - vm_compute in H. discriminate H.
Defined.

(** ** What the loops add *)

Section AnnotationResults.





Lemma map_combine_map_l {X Y Z W : Type} (g : X -> Y) (f : Y * Z -> W)
      (xs : list X) (zs : list Z) :
  map f (combine (map g xs) zs)
  = map (fun xz => f (g (fst xz), snd xz)) (combine xs zs).
Proof.
  revert zs. induction xs as [|x xs IH]; intros [|z zs]; simpl;
    try reflexivity.
  rewrite IH. reflexivity.
Qed.

Lemma name_SE_fresh (s : string) : s <> (s ++ "_SE")%string.
Proof.
  intros H.
  assert (L : String.length s = String.length (s ++ "_SE")) by congruence.
  rewrite length_append in L. simpl in L. lia.
Qed.

(** The loop body of the single-county script writes both derived
    columns. *)
Lemma pair_step_spec (estimate_col moe_col : string) (df : DataFrame)
      (m e : Series) (ms es : list spec_float) :
  lookup moe_col (columns df) = Some m ->
  lookup estimate_col (columns df) = Some e ->
  as_floats m = Return ms -> as_floats e = Return es ->
  EnvSetup.pair_step (estimate_col, moe_col) df
  = Return (setitem
              (setitem df (estimate_col ++ "_SE")
                       (map (fun x => CFloat (F64.div x F64.c1_645)) ms))
              (estimate_col ++ "_CV") (cv_rows ms es)).
Proof.
  intros Hm He Hms Hes.
  unfold EnvSetup.pair_step, getitem, EnvSetup.se_series.
  rewrite Hm. simpl. rewrite Hms. simpl.
  rewrite lookup_assign, String.eqb_refl. simpl.
  rewrite lookup_assign.
  destruct (String.eqb_spec estimate_col (estimate_col ++ "_SE")) as [E|_].
  - exfalso. exact (name_SE_fresh _ E).
  - rewrite He. simpl. unfold EnvSetup.cv_series.
    rewrite <- (map_map (fun x => F64.div x F64.c1_645) CFloat).
    rewrite as_floats_floats. simpl. rewrite Hes. simpl.
    unfold cv_rows, cv_value. rewrite map_combine_map_l. reflexivity.
Qed.

End AnnotationResults.




(** ** Geo keys *)

Section KeyFacts.

Variable cv : conversions.



Lemma pad_column_spec (df : DataFrame) (c : string) (w : nat) (v : Series) :
  lookup c (columns df) = Some v ->
  pad_column cv df c w = Return (setitem df c (astype_str_zfill cv w v)).
Proof. intros H. unfold pad_column, getitem. rewrite H. reflexivity. Qed.











(** The all-geographies script standardizes as the later-chunk branch of
    the notebook does, except for its test of the ZCTA column name. *)
Lemma standardize_as_next_chunk (geo_level : string) (df : DataFrame) :
  geo_level <> "zcta" ->
  AllGeos.standardize cv geo_level df = ETL.next_chunk cv geo_level df.
Proof.
  intros Hz. unfold AllGeos.standardize, ETL.next_chunk.
  destruct (String.eqb geo_level "tract").
  - unfold ETL.key_tract.
    destruct (pad_column cv df "state" 2) as [d1|]; simpl; [|reflexivity].
    destruct (pad_column cv d1 "county" 3) as [d2|]; simpl; [|reflexivity].
    destruct (pad_column cv d2 "tract" 6) as [d3|]; simpl; reflexivity.
  - destruct (String.eqb_spec geo_level "zcta") as [E|_]; [contradiction|].
    reflexivity.
Qed.

End KeyFacts.




(** ** The left join *)

Section JoinFacts.




(** Two frames that share a column name do not join: no suffix was
    given. *)
Lemma join_left_overlap (l r : DataFrame) (c : string) :
  has_col c l = true -> has_col c r = true ->
  join_left l r = Raise (ValueError "columns overlap but no suffix specified").
Proof.
  intros Hl Hr. unfold join_left.
  assert (Hin : In c (overlap l r)).
  { unfold overlap. apply filter_In. split; [|exact Hr].
    unfold has_col in Hl. apply existsb_exists in Hl.
    destruct Hl as [n [Hn E]]. apply String.eqb_eq in E. subst n. exact Hn. }
  destruct (overlap l r); [contradiction|reflexivity].
Qed.

(** So with a source whose every answer carries the area name and the
    geometry, a fetch of more than fifty variables stops at the second
    chunk. *)
Lemma multi_chunk_overlap_raises :
  let r := ETL.fetch_geo_data Samples.sv_census Samples.codes51 "state"
                              empty_world in
  fst r = Raise (ValueError "columns overlap but no suffix specified")
  /\ List.length (calls (snd r)) = 2.
Proof. split; vm_compute; reflexivity. Qed.


Lemma index_coerce_column (cv : conversions) (df : DataFrame) (c : string) :
  index (coerce_column cv df c) = index df.
Proof.
  unfold coerce_column. destruct (passthrough c); [reflexivity|].
  destruct (lookup c (columns df)); reflexivity.
Qed.

Lemma index_coerce_numeric (cv : conversions) (df : DataFrame) :
  index (coerce_numeric cv df) = index df.
Proof.
  unfold coerce_numeric. generalize (col_names df) as names. intros names.
  revert df. induction names as [|c names IH]; intros df; simpl.
  - reflexivity.
  - rewrite IH. apply index_coerce_column.
Qed.

End JoinFacts.

Section MergeLoop.

Variable sv : services.
Variable geo_level : string.
Variable params : list (string * string).
Variable vars_list : list string.




End MergeLoop.





(** ** Numeric coercion *)

Section CoercionFacts.

Variable cv : conversions.

Lemma to_numeric_is_numeric (v : Series) :
  Forall (fun c => is_numeric c = true) (to_numeric cv v).
Proof.
  unfold to_numeric. apply Forall_forall. intros c Hc.
  apply in_map_iff in Hc. destruct Hc as [x [<- _]].
  destruct x as [s|z|f| |w]; simpl; try reflexivity.
  destruct (integer_text s) as [z|]; [|reflexivity].
  match goal with |- context [if ?b then _ else _] => destruct b end;
    reflexivity.
Qed.

Lemma lookup_coerce_column (df : DataFrame) (n c : string) :
  lookup c (columns (coerce_column cv df n))
  = if String.eqb c n then coerced cv c (lookup c (columns df))
    else lookup c (columns df).
Proof.
  unfold coerce_column, coerced.
  destruct (String.eqb_spec c n) as [->|Hne].
  - destruct (passthrough n) eqn:Hp.
    + destruct (lookup n (columns df)); reflexivity.
    + destruct (lookup n (columns df)) as [v|] eqn:Hv; simpl.
      * rewrite lookup_assign, String.eqb_refl. reflexivity.
      * rewrite Hv. reflexivity.
  - destruct (passthrough n); [reflexivity|].
    destruct (lookup n (columns df)) as [v|]; [|reflexivity].
    apply lookup_setitem_other. exact Hne.
Qed.

Lemma lookup_coerce_fold (names : list string) :
  NoDup names ->
  forall (df : DataFrame) (c : string),
    lookup c (columns (fold_left (coerce_column cv) names df))
    = if in_dec string_dec c names then coerced cv c (lookup c (columns df))
      else lookup c (columns df).
Proof.
  induction names as [|n names IH]; intros Hnd df c; simpl.
  - reflexivity.
  - inversion Hnd as [|n' names' Hn Hnd']; subst.
    rewrite (IH Hnd'), lookup_coerce_column.
    destruct (string_dec n c) as [->|Hnc].
    + rewrite String.eqb_refl.
      destruct (in_dec string_dec c names); [contradiction|reflexivity].
    + destruct (String.eqb_spec c n) as [->|_]; [congruence|].
      destruct (in_dec string_dec c names); reflexivity.
Qed.

Lemma lookup_absent (c : string) (cols : list (string * Series)) :
  ~ In c (map fst cols) -> lookup c cols = None.
Proof.
  induction cols as [|[n v] cols IH]; simpl; intros H.
  - reflexivity.
  - destruct (String.eqb_spec c n) as [->|_].
    + exfalso. apply H. left. reflexivity.
    + apply IH. intros Hin. apply H. right. exact Hin.
Qed.

(** On a frame with distinct column names the loop coerces every column
    but [NAME] and [geometry], and leaves the index alone. *)
Lemma coerce_numeric_spec (df : DataFrame) (c : string) :
  NoDup (col_names df) ->
  lookup c (columns (coerce_numeric cv df)) = coerced cv c (lookup c (columns df))
  /\ index (coerce_numeric cv df) = index df.
Proof.
  intros Hnd. split; [|apply index_coerce_numeric].
  unfold coerce_numeric. rewrite (lookup_coerce_fold _ Hnd).
  destruct (in_dec string_dec c (col_names df)) as [_|Hout]; [reflexivity|].
  rewrite (lookup_absent _ _ Hout). reflexivity.
Qed.

Lemma coerce_numeric_columns (df : DataFrame) (c : string) (v : Series) :
  NoDup (col_names df) ->
  passthrough c = false ->
  lookup c (columns (coerce_numeric cv df)) = Some v ->
  Forall (fun x => is_numeric x = true) v.
Proof.
  intros Hnd Hp Hv.
  rewrite (proj1 (coerce_numeric_spec df c Hnd)) in Hv.
  unfold coerced in Hv. rewrite Hp in Hv.
  destruct (lookup c (columns df)) as [v0|]; [|discriminate].
  inversion Hv; subst. apply to_numeric_is_numeric.
Qed.

End CoercionFacts.

(** C9: the dimension columns are coerced to numbers and the geo key is
    meant to survive as the text index.  At tract level the notebook's
    first-chunk branch never makes [GEOID] the index (line 162), so the
    key is coerced with the other columns: for state 1, county 1, tract
    100 the frame has the positions 0, 1 as its index and the number
    1001000100 in the column [GEOID], and that is what is written; the
    county level of the notebook and the tract level of the
    all-geographies script keep the zero-padded keys as the index. *)
Theorem C9_tract_key_is_coerced :
  (exists df,
      fst (ETL.fetch_geo_data Samples.sv_census
             ["B01003_001E"; "B01003_001M"] "tract" empty_world) = Return df
      /\ index_name df = None
      /\ index df = [CInt 0; CInt 1]
      /\ lookup "GEOID" (columns df)
         = Some [CInt 1001000100; CInt 2003000200]
      /\ lookup "state" (columns df) = Some [CInt 1; CInt 2])
  /\ (exists w,
        ETL.unit_body Samples.sv_census "B01003" ["B01003_001E"]
                      ["B01003_001E"; "B01003_001M"] "tract" tt empty_world
        = (Return tt, w)
        /\ option_map
             (fun d => (lookup "index" (columns (ds_frame d)),
                        lookup "GEOID" (columns (ds_frame d)),
                        ds_partition d))
             (store_get "Bronze.census_acs2022_B01003_tract" (store w))
           = Some (Some [CInt 0; CInt 1],
                   Some [CInt 1001000100; CInt 2003000200],
                   Some "state"))
  /\ (exists df,
        fst (AllGeos.fetch_data_chunk Samples.sv_census
               ["B01003_001E"; "B01003_001M"] "tract" empty_world) = Return df
        /\ index_name df = Some "GEOID"
        /\ index df = [CStr "01001000100"; CStr "02003000200"]
        /\ lookup "state" (columns df) = Some [CInt 1; CInt 2])
  /\ (exists df,
        fst (ETL.fetch_geo_data Samples.sv_census
               ["B01003_001E"; "B01003_001M"] "county" empty_world) = Return df
        /\ index_name df = Some "FIPS"
        /\ index df = [CStr "01001"; CStr "02003"]
        /\ lookup "state" (columns df) = Some [CInt 1; CInt 2]).
Proof.
  split; [|split; [|split]]; eexists;
    (split; [vm_compute; reflexivity|repeat split]).
Qed.

(** ** Loops and the world *)

Section LoopFacts.

Lemma for_each_app {A S : Type} (pre rest : list A) (body : A -> S -> M S)
      (s : S) (w : world) :
  for_each (pre ++ rest) body s w
  = match for_each pre body s w with
    | (Return s1, w1) => for_each rest body s1 w1
    | (Raise e, w1) => (Raise e, w1)
    end.
Proof.
  revert s w. induction pre as [|a pre IH]; intros s w; simpl.
  - reflexivity.
  - unfold bind. destruct (body a s w) as [[s1|e] w1]; [apply IH|reflexivity].
Qed.

(** A turn that raises ends the loop there: the turns after it do not
    run. *)
Lemma for_each_raise {A S : Type} (pre rest : list A) (a : A)
      (body : A -> S -> M S) (s s1 : S) (w w1 w2 : world) (e : exn) :
  for_each pre body s w = (Return s1, w1) ->
  body a s1 w1 = (Raise e, w2) ->
  for_each (pre ++ a :: rest) body s w = (Raise e, w2).
Proof.
  intros Hpre Ha. rewrite for_each_app, Hpre. simpl. unfold bind.
  rewrite Ha. reflexivity.
Qed.

(** A loop whose turns leave the sink alone leaves the sink alone. *)
Lemma for_each_store {A S : Type} (l : list A) (body : A -> S -> M S) :
  (forall a s w, store (snd (body a s w)) = store w
                 /\ writes (snd (body a s w)) = writes w) ->
  forall s w, store (snd (for_each l body s w)) = store w
              /\ writes (snd (for_each l body s w)) = writes w.
Proof.
  intros Hbody. induction l as [|a l IH]; intros s w; simpl.
  - split; reflexivity.
  - unfold bind. destruct (Hbody a s w) as [H1 H2].
    destruct (body a s w) as [[s1|e] w1]; simpl in *.
    + destruct (IH s1 w1) as [H3 H4]. split; congruence.
    + split; assumption.
Qed.

Lemma chunk_body_store (sv : services) (geo_level : string)
      (params : list (string * string)) (vars_list : list string)
      (i : nat) (s : option DataFrame) (w : world) :
  store (snd (ETL.chunk_body sv geo_level params vars_list i s w)) = store w
  /\ writes (snd (ETL.chunk_body sv geo_level params vars_list i s w))
     = writes w.
Proof.
  unfold ETL.chunk_body, bind, ced_download, lift, ret. simpl.
  destruct (download sv (List.length (calls w)) _) as [chunk|e]; simpl.
  - destruct s as [full|].
    + destruct (ETL.next_chunk _ _ _) as [c|e]; simpl; [|split; reflexivity].
      destruct (join_left full c); split; reflexivity.
    + destruct (ETL.first_chunk _ _ _); split; reflexivity.
  - split; reflexivity.
Qed.

(** Fetching never touches the sink. *)
Lemma fetch_geo_data_store (sv : services) (vars_list : list string)
      (geo_level : string) (w : world) :
  store (snd (ETL.fetch_geo_data sv vars_list geo_level w)) = store w
  /\ writes (snd (ETL.fetch_geo_data sv vars_list geo_level w)) = writes w.
Proof.
  unfold ETL.fetch_geo_data, bind, lift.
  destruct (query_params geo_level) as [params|e]; [|split; reflexivity].
  pose proof (for_each_store
                (PyList.range0 (List.length vars_list) ETL.MAX_VARS_PER_CALL)
                (ETL.chunk_body sv geo_level params vars_list)
                (chunk_body_store sv geo_level params vars_list) None w)
    as Hloop.
  destruct (for_each _ _ None w) as [[[d|]|e] w1]; simpl in *; exact Hloop.
Qed.

(** A unit that fails leaves every dataset as it was. *)
Lemma unit_body_failure_store (sv : services) (table_id : string)
      (var_codes all_vars : list string) (geo : string) (w w' : world)
      (e : exn) :
  ETL.unit_body sv table_id var_codes all_vars geo tt w = (Raise e, w') ->
  store w' = store w.
Proof.
  unfold ETL.unit_body, bind, lift. intros H.
  pose proof (fetch_geo_data_store sv all_vars geo w) as [Hs _].
  destruct (ETL.fetch_geo_data sv all_vars geo w) as [[d|e0] w1];
    simpl in Hs.
  - destruct (cv_loop var_codes d) as [d1|e1];
      [|inversion H; subst; exact Hs].
    destruct (reset_index d1) as [d2|e2]; [|inversion H; subst; exact Hs].
    destruct (ETL.geometry_to_wkt d2) as [d3|e3];
      [|inversion H; subst; exact Hs].
    unfold write in H.
    destruct (write_error sv (writes w1) _ d3) as [e4|]; [|discriminate].
    inversion H; subst. exact Hs.
  - inversion H; subst. exact Hs.
Qed.

End LoopFacts.

(** C8, as the code has it: the table/geography loop has no handler, so a
    unit whose fetch, annotation or write raises ends the loop of its table
    and the whole run with that exception, in the world as it was at the
    raise: no later unit is fetched or written.  The failed unit has
    written nothing, so the datasets in the sink, its own earlier one
    included, are as the units before it left them. *)
Theorem C8_failure_ends_the_run (sv : services) :
  (forall table_id var_codes all_vars before geo after w w1 e w2,
      for_each before (ETL.unit_body sv table_id var_codes all_vars) tt w
      = (Return tt, w1) ->
      ETL.unit_body sv table_id var_codes all_vars geo tt w1 = (Raise e, w2) ->
      for_each (before ++ geo :: after)
               (ETL.unit_body sv table_id var_codes all_vars) tt w
      = (Raise e, w2)
      /\ store w2 = store w1)
  /\ (forall before table after w w1 e w2,
        ETL.run sv before w = (Return tt, w1) ->
        ETL.table_body sv table tt w1 = (Raise e, w2) ->
        ETL.run sv (before ++ table :: after) w = (Raise e, w2)).
Proof.
  split.
  - intros table_id var_codes all_vars before geo after w w1 e w2 Hpre Hunit.
    split.
    + exact (for_each_raise before after geo _ tt tt w w1 w2 e Hpre Hunit).
    + exact (unit_body_failure_store _ _ _ _ _ _ _ _ Hunit).
  - intros before table after w w1 e w2 Hpre Htable.
    exact (for_each_raise before after table _ tt tt w w1 w2 e Hpre Htable).
Qed.

(** Two tables, and a source whose fourth answer fails: the run ends in
    the world where the first table's loop raised. *)
Lemma C8_failure_ends_the_run_witness :
  fst (ETL.run Samples.sv_fourth_fails Samples.two_tables empty_world)
  = Raise (OtherError "HTTP 500")
  /\ snd (ETL.run Samples.sv_fourth_fails Samples.two_tables empty_world)
     = snd (ETL.table_body Samples.sv_fourth_fails
                           ("B01003", ["B01003_001E"]) tt empty_world).
Proof.
  destruct (ETL.table_body Samples.sv_fourth_fails
                           ("B01003", ["B01003_001E"]) tt empty_world)
    as [[u|e] w2] eqn:H.
  - vm_compute in H. discriminate H.
  - assert (He : e = OtherError "HTTP 500").
    { vm_compute in H. inversion H. reflexivity. }
    change Samples.two_tables
      with ([] ++ ("B01003", ["B01003_001E"]) :: [("B19013", ["B19013_001E"])]).
    rewrite (proj2 (C8_failure_ends_the_run Samples.sv_fourth_fails)
                   [] ("B01003", ["B01003_001E"])
                   [("B19013", ["B19013_001E"])]
                   empty_world empty_world e w2 eq_refl H).
    simpl. rewrite He. split; reflexivity.
Defined.

(** C8 as stated fails: with two tables and a source whose fourth answer
    (the state level of the first table) fails, the run ends there with
    the exception; the four units of the second table are never fetched
    nor written, although the source would have served them. *)
Lemma C8_loop_does_not_continue :
  let failed := ETL.run Samples.sv_fourth_fails Samples.two_tables empty_world in
  let healthy := ETL.run Samples.sv_census Samples.two_tables empty_world in
  fst failed = Raise (OtherError "HTTP 500")
  /\ List.length (calls (snd failed)) = 4
  /\ map fst (store (snd failed))
     = ["Bronze.census_acs2022_B01003_county";
        "Bronze.census_acs2022_B01003_zcta";
        "Bronze.census_acs2022_B01003_tract"]
  /\ store_get "Bronze.census_acs2022_B19013_tract" (store (snd failed)) = None
  /\ fst healthy = Return tt
  /\ List.length (store (snd healthy)) = 8
  /\ (let refused :=
        ETL.run Samples.sv_second_write_fails Samples.two_tables empty_world in
      fst refused = Raise (OtherError "write failed")
      /\ List.length (calls (snd refused)) = 2
      /\ map fst (store (snd refused))
         = ["Bronze.census_acs2022_B01003_tract"]).
Proof. repeat split; vm_compute; reflexivity. Qed.

(** ** The retry loop *)

Section RetryFacts.

Variable sv : services.
Variable chunk_vars : list string.
Variable geo : string.

Lemma fetch_data_chunk_world (w : world) :
  let r := AllGeos.fetch_data_chunk sv chunk_vars geo w in
  sleeps (snd r) = sleeps w
  /\ store (snd r) = store w
  /\ List.length (calls (snd r)) <= S (List.length (calls w)).
Proof.
  unfold AllGeos.fetch_data_chunk, bind, lift, ced_download, ret. simpl.
  destruct (query_params geo) as [params|e]; simpl.
  - destruct (download sv _ _) as [df|e]; simpl.
    + destruct (AllGeos.standardize _ _ df); simpl;
        rewrite length_app; simpl; repeat split; lia.
    + rewrite length_app; simpl; repeat split; lia.
  - repeat split; lia.
Qed.

(** At most [retries] attempts, a sleep of [WAIT_BETWEEN_RETRIES] seconds
    after each timeout, and nothing written. *)
Lemma retry_loop_budget (retries : nat) :
  forall (chunk_df : option DataFrame) (w : world),
    let r := AllGeos.retry_loop sv chunk_vars geo retries chunk_df w in
    (exists k, k <= retries
               /\ sleeps (snd r)
                  = sleeps w ++ repeat AllGeos.WAIT_BETWEEN_RETRIES k)
    /\ List.length (calls (snd r)) <= List.length (calls w) + retries
    /\ store (snd r) = store w.
Proof.
  induction retries as [|n IH]; intros chunk_df w; simpl.
  - split; [exists 0; split; [lia|simpl; rewrite app_nil_r; reflexivity]|].
    split; [lia|reflexivity].
  - pose proof (fetch_data_chunk_world w) as [Hs [Hst Hc]].
    destruct (AllGeos.fetch_data_chunk sv chunk_vars geo w) as [[d|e] w1];
      simpl in *.
    + split; [exists 0; split; [lia|simpl; rewrite app_nil_r; exact Hs]|].
      split; [lia|exact Hst].
    + destruct e; simpl;
        try (split; [exists 0; split; [lia|simpl; rewrite app_nil_r; exact Hs]|];
             split; [lia|exact Hst]).
      unfold bind, sleep.
      specialize (IH chunk_df
                     (mkWorld (calls w1)
                              (sleeps w1 ++ [AllGeos.WAIT_BETWEEN_RETRIES])
                              (writes w1) (store w1))).
      simpl in IH. destruct IH as [[k [Hk Hsl]] [Hcalls Hstore]].
      split; [exists (S k); split; [lia|]|split].
      * rewrite Hsl, Hs, <- app_assoc. reflexivity.
      * lia.
      * congruence.
Qed.

(** When every attempt times out the loop ends without raising and hands
    back whatever [chunk_df] was bound to before it. *)
Lemma retry_loop_exhausted (params : list (string * string)) (retries : nat) :
  query_params geo = Return params ->
  (forall n r, download sv n r = Raise ReadTimeout) ->
  forall (chunk_df : option DataFrame) (w : world),
    AllGeos.retry_loop sv chunk_vars geo retries chunk_df w
    = (Return chunk_df,
       mkWorld (calls w ++ repeat (mkReq chunk_vars params) retries)
               (sleeps w ++ repeat AllGeos.WAIT_BETWEEN_RETRIES retries)
               (writes w) (store w)).
Proof.
  intros Hq Hd. induction retries as [|n IH]; intros chunk_df w; simpl.
  - unfold ret. rewrite !app_nil_r. destruct w; reflexivity.
  - unfold AllGeos.fetch_data_chunk, bind, lift, ced_download.
    rewrite Hq, Hd. unfold sleep. rewrite IH. simpl.
    rewrite <- !app_assoc. reflexivity.
Qed.

End RetryFacts.

(** C3: a chunk whose three attempts all time out is meant to fail its
    unit.  The retry loop of the all-geographies script makes the three
    attempts and sleeps 2 seconds after each, but has no branch for the
    exhausted budget: it falls through to the merge with whatever
    [chunk_df] held before.  With a source that answers only the first
    request, the run raises nothing, and after nine timeouts the files of
    the zcta, county and state units are written with the tract frame; with
    a source that never answers, the run stops on the unbound name
    [chunk_df]. *)
Theorem C3_exhausted_retries_fall_through :
  (let r := AllGeos.run Samples.sv_census_once
                        [("B01003", ["B01003_001E"])] empty_world in
   returned (fst r) = true
   /\ List.length (calls (snd r)) = 10
   /\ sleeps (snd r) = repeat 2 9
   /\ map fst (store (snd r))
      = ["acs5_2022_B01003_state.parquet"; "acs5_2022_B01003_county.parquet";
         "acs5_2022_B01003_zcta.parquet"; "acs5_2022_B01003_tract.parquet"]
   /\ option_map (fun d => index (ds_frame d))
                 (store_get "acs5_2022_B01003_zcta.parquet" (store (snd r)))
      = Some [CStr "01001000100"; CStr "02003000200"]
   /\ store_get "acs5_2022_B01003_zcta.parquet" (store (snd r))
      = store_get "acs5_2022_B01003_tract.parquet" (store (snd r)))
  /\ (let r := AllGeos.run Samples.sv_timeout
                           [("B01003", ["B01003_001E"])] empty_world in
      fst r = Raise (NameError "chunk_df")
      /\ List.length (calls (snd r)) = 3
      /\ sleeps (snd r) = [2; 2; 2]
      /\ store (snd r) = []).
Proof. repeat split; vm_compute; reflexivity. Qed.

(** * Further properties of the scripts *)

(** ** Geography levels and dimension columns *)

Section GeographyErrors.

Lemma query_params_unsupported (geo_level : string) :
  ~ In geo_level ETL.geographies ->
  query_params geo_level = Raise (ValueError "Unsupported geography").
Proof.
  intros H. unfold query_params.
  destruct (String.eqb_spec geo_level "tract") as [->|_].
  { exfalso. apply H. simpl. auto. }
  destruct (String.eqb_spec geo_level "zcta") as [->|_].
  { exfalso. apply H. simpl. auto. }
  destruct (String.eqb_spec geo_level "county") as [->|_].
  { exfalso. apply H. simpl. auto. }
  destruct (String.eqb_spec geo_level "state") as [->|_].
  { exfalso. apply H. simpl. auto. }
  reflexivity.
Qed.

Lemma query_params_supported (geo_level : string) :
  In geo_level ETL.geographies ->
  exists params, query_params geo_level = Return params.
Proof.
  simpl. intros [<-|[<-|[<-|[<-|[]]]]]; eexists; reflexivity.
Qed.

Lemma pad_column_missing (cv : conversions) (df : DataFrame) (c : string)
      (w : nat) :
  lookup c (columns df) = None ->
  pad_column cv df c w = Raise (KeyError c).
Proof. intros H. unfold pad_column, getitem. rewrite H. reflexivity. Qed.

End GeographyErrors.

(** X1: a geography level other than tract, zcta, county and state is
    refused before anything is asked of the data source: both fetch
    functions raise [ValueError] and leave the world as it was (no request,
    no sleep), and the retry loop of the all-geographies script lets that
    error through at its first attempt. *)
Theorem X1_unsupported_geography_is_refused (sv : services)
        (vars_list : list string) (geo_level : string) (w : world) :
  ~ In geo_level ETL.geographies ->
  ETL.fetch_geo_data sv vars_list geo_level w
  = (Raise (ValueError "Unsupported geography"), w)
  /\ AllGeos.fetch_data_chunk sv vars_list geo_level w
     = (Raise (ValueError "Unsupported geography"), w)
  /\ forall retries chunk_df,
      0 < retries ->
      AllGeos.retry_loop sv vars_list geo_level retries chunk_df w
      = (Raise (ValueError "Unsupported geography"), w).
Proof.
  intros H. pose proof (query_params_unsupported _ H) as Hq.
  assert (Hchunk : AllGeos.fetch_data_chunk sv vars_list geo_level w
                   = (Raise (ValueError "Unsupported geography"), w)).
  { unfold AllGeos.fetch_data_chunk, bind, lift. rewrite Hq. reflexivity. }
  split; [|split].
  - unfold ETL.fetch_geo_data, bind, lift. rewrite Hq. reflexivity.
  - exact Hchunk.
  - intros [|n] chunk_df Hn; [lia|]. simpl. rewrite Hchunk. reflexivity.
Qed.

(** The level [place] with a source that would answer. *)
Lemma X1_unsupported_geography_is_refused_witness :
  ETL.fetch_geo_data Samples.sv_census ["B01003_001E"] "place" empty_world
  = (Raise (ValueError "Unsupported geography"), empty_world)
  /\ AllGeos.retry_loop Samples.sv_census ["B01003_001E"] "place" 3 None
                        empty_world
     = (Raise (ValueError "Unsupported geography"), empty_world).
Proof.
  assert (H : ~ In "place" ETL.geographies).
  { simpl. intros [E|[E|[E|[E|[]]]]]; discriminate E. }
  destruct (X1_unsupported_geography_is_refused
              Samples.sv_census ["B01003_001E"] "place" empty_world H)
    as [H1 [_ H3]].
  split; [exact H1|]. apply H3. lia.
Defined.

(** X2: an answer that lacks a dimension column of its level is refused
    with the [KeyError] of the first missing column, in the order state,
    county, tract, by the first-chunk and later-chunk branches of the
    notebook and by the all-geographies script alike; at zcta level an
    answer with no column that passes the name test raises
    [IndexError]. *)
Theorem X2_missing_dimension_column (cv : conversions) (df : DataFrame) :
  (lookup "state" (columns df) = None ->
   forall geo_level, In geo_level ["tract"; "county"; "state"] ->
     ETL.first_chunk cv geo_level df = Raise (KeyError "state")
     /\ ETL.next_chunk cv geo_level df = Raise (KeyError "state")
     /\ AllGeos.standardize cv geo_level df = Raise (KeyError "state"))
  /\ (lookup "state" (columns df) <> None ->
      lookup "county" (columns df) = None ->
      forall geo_level, In geo_level ["tract"; "county"] ->
        ETL.first_chunk cv geo_level df = Raise (KeyError "county")
        /\ ETL.next_chunk cv geo_level df = Raise (KeyError "county")
        /\ AllGeos.standardize cv geo_level df = Raise (KeyError "county"))
  /\ (lookup "state" (columns df) <> None ->
      lookup "county" (columns df) <> None ->
      lookup "tract" (columns df) = None ->
      ETL.first_chunk cv "tract" df = Raise (KeyError "tract")
      /\ ETL.next_chunk cv "tract" df = Raise (KeyError "tract")
      /\ AllGeos.standardize cv "tract" df = Raise (KeyError "tract"))
  /\ (filter ETL.is_zcta_column (col_names df) = [] ->
      ETL.first_chunk cv "zcta" df = Raise IndexError
      /\ ETL.next_chunk cv "zcta" df = Raise IndexError)
  /\ (filter AllGeos.is_zcta_column (col_names df) = [] ->
      AllGeos.standardize cv "zcta" df = Raise IndexError).
Proof.
  split; [|split; [|split; [|split]]].
  - intros Hs geo_level Hin.
    assert (Hnext : ETL.next_chunk cv geo_level df = Raise (KeyError "state")).
    { simpl in Hin. destruct Hin as [<-|[<-|[<-|[]]]];
        unfold ETL.next_chunk, ETL.key_tract, ETL.index_county,
          ETL.index_state; simpl String.eqb;
        rewrite (pad_column_missing _ _ _ _ Hs); reflexivity. }
    split; [|split; [exact Hnext|]].
    + simpl in Hin. destruct Hin as [<-|[<-|[<-|[]]]];
        unfold ETL.first_chunk, ETL.key_tract, ETL.index_county,
          ETL.index_state; simpl String.eqb;
        rewrite (pad_column_missing _ _ _ _ Hs); reflexivity.
    + rewrite standardize_as_next_chunk; [exact Hnext|].
      simpl in Hin. destruct Hin as [<-|[<-|[<-|[]]]]; discriminate.
  - intros Hs Hc geo_level Hin.
    destruct (lookup "state" (columns df)) as [ss|] eqn:Es; [|congruence].
    assert (Hpad : pad_column cv
                     (setitem df "state" (astype_str_zfill cv 2 ss))
                     "county" 3 = Raise (KeyError "county")).
    { apply pad_column_missing.
      rewrite lookup_setitem_other by discriminate. exact Hc. }
    assert (Hnext : ETL.next_chunk cv geo_level df = Raise (KeyError "county")).
    { simpl in Hin. destruct Hin as [<-|[<-|[]]];
        unfold ETL.next_chunk, ETL.key_tract, ETL.index_county;
        simpl String.eqb;
        rewrite (pad_column_spec _ _ _ _ _ Es); cbn [obind];
        rewrite Hpad; reflexivity. }
    split; [|split; [exact Hnext|]].
    + simpl in Hin. destruct Hin as [<-|[<-|[]]];
        unfold ETL.first_chunk, ETL.key_tract, ETL.index_county;
        simpl String.eqb;
        rewrite (pad_column_spec _ _ _ _ _ Es); cbn [obind];
        rewrite Hpad; reflexivity.
    + rewrite standardize_as_next_chunk; [exact Hnext|].
      simpl in Hin. destruct Hin as [<-|[<-|[]]]; discriminate.
  - intros Hs Hc Ht.
    destruct (lookup "state" (columns df)) as [ss|] eqn:Es; [|congruence].
    destruct (lookup "county" (columns df)) as [cs|] eqn:Ec; [|congruence].
    assert (Hkey : ETL.key_tract cv df = Raise (KeyError "tract")).
    { unfold ETL.key_tract.
      rewrite (pad_column_spec _ _ _ _ _ Es). cbn [obind].
      erewrite pad_column_spec
        by (rewrite lookup_setitem_other by discriminate; exact Ec).
      cbn [obind]. rewrite pad_column_missing; [reflexivity|].
      rewrite !lookup_setitem_other by discriminate. exact Ht. }
    assert (Hnext : ETL.next_chunk cv "tract" df = Raise (KeyError "tract")).
    { unfold ETL.next_chunk. simpl String.eqb. rewrite Hkey. reflexivity. }
    split; [|split; [exact Hnext|]].
    + unfold ETL.first_chunk. simpl String.eqb. exact Hkey.
    + rewrite standardize_as_next_chunk by discriminate. exact Hnext.
  - intros Hf. unfold ETL.first_chunk, ETL.next_chunk, ETL.index_zcta,
      first_column. simpl String.eqb. rewrite Hf. split; reflexivity.
  - intros Hf. unfold AllGeos.standardize, first_column. simpl String.eqb.
    rewrite Hf. reflexivity.
Qed.

(** A state-level answer asked for counties, an answer without a state
    column, and an answer without a ZCTA column. *)
Lemma X2_missing_dimension_column_witness :
  ETL.first_chunk Samples.plain "county" Samples.wide_state
  = Raise (KeyError "county")
  /\ AllGeos.standardize Samples.plain "state" Samples.one_tract
     = Raise (KeyError "state")
  /\ ETL.first_chunk Samples.plain "zcta" Samples.wide_state
     = Raise IndexError.
Proof.
  split; [|split].
  - apply (proj1 (proj2 (X2_missing_dimension_column
                           Samples.plain Samples.wide_state))).
    + discriminate.
    + reflexivity.
    + simpl. auto.
  - apply (proj1 (X2_missing_dimension_column
                    Samples.plain Samples.one_tract)).
    + reflexivity.
    + simpl. auto.
  - apply (proj1 (proj2 (proj2 (proj2 (X2_missing_dimension_column
                                         Samples.plain Samples.wide_state))))).
    reflexivity.
Defined.

(** ** The shape of the chunks *)

Section ChunkShape.

Context {A : Type}.

(** [range(i, stop, step)] is [i, i + step, i + 2 step, ...]. *)
Lemma range_from_explicit (step fuel i stop : nat) :
  0 < step -> stop - i <= fuel ->
  PyList.range_from fuel i stop step
  = map (fun j => i + j * step) (seq 0 ((stop - i + (step - 1)) / step)).
Proof.
  intros Hstep. revert i.
  induction fuel as [|fuel IH]; intros i Hfuel; simpl.
  - replace (stop - i) with 0 by lia.
    rewrite Nat.div_small by lia. reflexivity.
  - destruct (Nat.ltb_spec i stop) as [Hlt|Hge].
    + rewrite IH by lia.
      assert (Hq : (stop - i + (step - 1)) / step
                   = S ((stop - (i + step) + (step - 1)) / step)).
      { destruct (Nat.le_gt_cases step (stop - i)) as [Hbig|Hsmall].
        - replace (stop - i + (step - 1))
            with (stop - (i + step) + (step - 1) + 1 * step) by lia.
          rewrite Nat.div_add by lia. lia.
        - replace (stop - (i + step)) with 0 by lia.
          rewrite (Nat.div_small (0 + (step - 1))) by lia.
          symmetry. apply (Nat.div_unique _ _ 1 (stop - i - 1)); lia. }
      rewrite Hq. simpl. f_equal; [lia|].
      rewrite <- seq_shift, map_map. apply map_ext. intros j. lia.
    + replace (stop - i) with 0 by lia.
      rewrite Nat.div_small by lia. reflexivity.
Qed.

Lemma chunks_explicit (vars_list : list A) :
  ETL.chunks vars_list
  = map (fun j => firstn 50 (skipn (50 * j) vars_list))
        (seq 0 ((List.length vars_list + 49) / 50)).
Proof.
  unfold ETL.chunks, PyList.range0.
  rewrite (range_from_explicit ETL.MAX_VARS_PER_CALL)
    by (unfold ETL.MAX_VARS_PER_CALL; lia).
  unfold ETL.MAX_VARS_PER_CALL, ETL.chunk_at, PyList.slice.
  rewrite map_map.
  replace (List.length vars_list - 0 + (50 - 1))
    with (List.length vars_list + 49) by lia.
  apply map_ext. intros j.
  replace (0 + j * 50 + ETL.MAX_VARS_PER_CALL - (0 + j * 50)) with 50
    by (unfold ETL.MAX_VARS_PER_CALL; lia).
  f_equal. f_equal. lia.
Qed.

Lemma chunk_nth (vars_list : list A) (i : nat) :
  i < List.length (ETL.chunks vars_list) ->
  nth i (ETL.chunks vars_list) [] = firstn 50 (skipn (50 * i) vars_list).
Proof.
  intros Hi. rewrite chunks_count in Hi. rewrite chunks_explicit.
  rewrite (nth_indep _ [] (firstn 50 (skipn (50 * 0) vars_list)))
    by (rewrite length_map, length_seq; exact Hi).
  rewrite (map_nth (fun j => firstn 50 (skipn (50 * j) vars_list))).
  rewrite seq_nth by exact Hi. reflexivity.
Qed.

End ChunkShape.

Lemma chunks_nonempty {A : Type} (vars_list : list A) :
  Forall (fun c => 1 <= List.length c) (ETL.chunks vars_list).
Proof.
  rewrite chunks_explicit. apply Forall_forall. intros c Hc.
  apply in_map_iff in Hc. destruct Hc as [j [<- Hj]].
  apply in_seq in Hj.
  pose proof (Nat.Div0.mul_div_le (List.length vars_list + 49) 50) as Hq.
  rewrite length_firstn, length_skipn. lia.
Qed.

Lemma chunks_full_before_last {A : Type} (vars_list : list A) (i : nat) :
  S i < List.length (ETL.chunks vars_list) ->
  List.length (nth i (ETL.chunks vars_list) []) = 50.
Proof.
  intros Hi. rewrite chunk_nth by lia. rewrite chunks_count in Hi.
  pose proof (Nat.Div0.mul_div_le (List.length vars_list + 49) 50) as Hq.
  rewrite length_firstn, length_skipn. lia.
Qed.

Lemma in_firstn {A : Type} (k : nat) (l : list A) (x : A) :
  In x (firstn k l) -> In x l.
Proof.
  intros H. rewrite <- (firstn_skipn k l). apply in_or_app. left. exact H.
Qed.

(** The requests of a fetch, returned or not. *)
Lemma fetch_geo_data_requests (sv : services) (vars_list : list string)
      (geo_level : string) (w : world) (r : request) :
  In r (calls (snd (ETL.fetch_geo_data sv vars_list geo_level w))) ->
  In r (calls w)
  \/ (In (req_vars r) (ETL.chunks vars_list)
      /\ query_params geo_level = Return (req_params r)).
Proof.
  unfold ETL.fetch_geo_data, bind, lift.
  destruct (query_params geo_level) as [params|e]; [|simpl; auto].
  destruct (chunk_loop_calls_prefix sv geo_level params vars_list
              (PyList.range0 (List.length vars_list) ETL.MAX_VARS_PER_CALL)
              None w) as [k Hk].
  destruct (for_each _ _ None w) as [[[d|]|e] w1]; simpl in *; rewrite Hk;
    intros Hin; apply in_app_or in Hin;
    (destruct Hin as [Hin|Hin]; [left; exact Hin|right]);
    apply in_map_iff in Hin; destruct Hin as [i [<- Hi]];
    apply in_firstn in Hi; simpl;
    (split; [apply in_map; exact Hi|reflexivity]).
Qed.

(** X3: no chunk is empty and every chunk before the last holds exactly
    50 variables; so every request that a fetch issues, whether the fetch
    returns or raises, asks for between 1 and 50 variables of the list,
    with the selectors of the level. *)
Theorem X3_requests_are_never_empty (vars_list : list string) :
  Forall (fun c => 1 <= List.length c <= 50) (ETL.chunks vars_list)
  /\ (forall i, S i < List.length (ETL.chunks vars_list) ->
                List.length (nth i (ETL.chunks vars_list) []) = 50)
  /\ (forall sv geo_level w r,
        In r (calls (snd (ETL.fetch_geo_data sv vars_list geo_level w))) ->
        In r (calls w)
        \/ (1 <= List.length (req_vars r) <= 50
            /\ In (req_vars r) (ETL.chunks vars_list)
            /\ query_params geo_level = Return (req_params r))).
Proof.
  assert (Hsize : Forall (fun c => 1 <= List.length c <= 50)
                         (ETL.chunks vars_list)).
  { apply Forall_forall. intros c Hc. split.
    - exact (proj1 (Forall_forall _ _) (chunks_nonempty vars_list) c Hc).
    - exact (proj1 (Forall_forall _ _) (chunks_bounded vars_list) c Hc). }
  split; [exact Hsize|]. split; [apply chunks_full_before_last|].
  intros sv geo_level w r Hr.
  destruct (fetch_geo_data_requests _ _ _ _ _ Hr) as [H|[H1 H2]];
    [left; exact H|right].
  split; [|split; assumption].
  exact (proj1 (Forall_forall _ _) Hsize _ H1).
Qed.

(** Fifty-one codes: a first chunk of 50, and two requests even though the
    second merge raises. *)
Lemma X3_requests_are_never_empty_witness :
  List.length (nth 0 (ETL.chunks Samples.codes51) []) = 50
  /\ Forall (fun r => 1 <= List.length (req_vars r) <= 50)
            (calls (snd (ETL.fetch_geo_data Samples.sv_census Samples.codes51
                                            "state" empty_world))).
Proof.
  destruct (X3_requests_are_never_empty Samples.codes51) as [_ [Hfull Hreq]].
  split.
  - apply Hfull. vm_compute. lia.
  - apply Forall_forall. intros r Hr.
    destruct (Hreq Samples.sv_census "state" empty_world r Hr) as [[]|[H _]].
    exact H.
Defined.

(** ** Names in the sink *)

Section SinkNames.

Lemma append_same_prefix (p s t : string) :
  (p ++ s = p ++ t)%string -> s = t.
Proof.
  induction p as [|c p IH]; simpl; intros H.
  - exact H.
  - inversion H. apply IH. assumption.
Qed.

Lemma geography_by_last_char (g g' : string) :
  In g ETL.geographies -> In g' ETL.geographies ->
  PyStr.last_char g = PyStr.last_char g' -> g = g'.
Proof.
  simpl. intros [<-|[<-|[<-|[<-|[]]]]] [<-|[<-|[<-|[<-|[]]]]] H;
    try reflexivity; discriminate H.
Qed.

Lemma geography_nonempty (g : string) :
  In g ETL.geographies -> g <> EmptyString.
Proof. simpl. intros [<-|[<-|[<-|[<-|[]]]]]; discriminate. Qed.

(** Table code, underscore, level: the level is read off the end. *)
Lemma unit_suffix_injective (t t' g g' : string) :
  In g ETL.geographies -> In g' ETL.geographies ->
  (t ++ "_" ++ g = t' ++ "_" ++ g')%string -> t = t' /\ g = g'.
Proof.
  intros Hg Hg' H.
  assert (Hlast : PyStr.last_char g = PyStr.last_char g').
  { assert (L : PyStr.last_char (t ++ "_" ++ g)
                = PyStr.last_char (t' ++ "_" ++ g')) by (rewrite H; reflexivity).
    rewrite !last_char_append in L;
      try (apply geography_nonempty; assumption);
      try (simpl; discriminate).
    exact L. }
  pose proof (geography_by_last_char _ _ Hg Hg' Hlast) as <-.
  split; [|reflexivity].
  exact (append_same_suffix _ _ _ H).
Qed.

End SinkNames.

Section SinkNameFacts.

Lemma target_table_name_injective (t t' g g' : string) :
  In g ETL.geographies -> In g' ETL.geographies ->
  ETL.target_table_name t g = ETL.target_table_name t' g' ->
  t = t' /\ g = g'.
Proof.
  intros Hg Hg'. unfold ETL.target_table_name. intros H.
  apply append_same_prefix in H.
  exact (unit_suffix_injective _ _ _ _ Hg Hg' H).
Qed.

Lemma output_file_injective (t t' g g' : string) :
  In g ETL.geographies -> In g' ETL.geographies ->
  AllGeos.output_file t g = AllGeos.output_file t' g' ->
  t = t' /\ g = g'.
Proof.
  intros Hg Hg'. unfold AllGeos.output_file. intros H.
  apply append_same_prefix in H.
  assert (Hassoc : forall a b : string,
             (a ++ "_" ++ b ++ ".parquet")%string
             = ((a ++ "_" ++ b) ++ ".parquet")%string).
  { intros a b. exact (eq_sym (append_assoc a ("_" ++ b) ".parquet")). }
  rewrite (Hassoc t g), (Hassoc t' g') in H.
  apply append_same_suffix in H.
  exact (unit_suffix_injective _ _ _ _ Hg Hg' H).
Qed.

Lemma store_get_put_same (name : string) (d : dataset)
      (st : list (string * dataset)) :
  store_get name (store_put name d st) = Some d.
Proof. unfold store_put. simpl. rewrite String.eqb_refl. reflexivity. Qed.

Lemma store_get_filter_other (name other : string)
      (st : list (string * dataset)) :
  name <> other ->
  store_get name (filter (fun nd => negb (String.eqb other (fst nd))) st)
  = store_get name st.
Proof.
  intros Hne. induction st as [|[n d] st IH]; simpl; [reflexivity|].
  destruct (String.eqb_spec other n) as [->|Hn]; simpl.
  - destruct (String.eqb_spec name n) as [->|_]; [congruence|exact IH].
  - destruct (String.eqb_spec name n); [reflexivity|exact IH].
Qed.

Lemma store_get_put_other (name other : string) (d : dataset)
      (st : list (string * dataset)) :
  name <> other ->
  store_get name (store_put other d st) = store_get name st.
Proof.
  intros Hne. unfold store_put. simpl.
  destruct (String.eqb_spec name other) as [->|_]; [congruence|].
  apply store_get_filter_other. exact Hne.
Qed.

End SinkNameFacts.

(** X4: the name of a unit's dataset determines the unit.  Over the four
    geography levels two units with different table codes or different
    levels never share a table name in the notebook nor a file name in the
    all-geographies script, whatever the table codes contain, so no unit
    overwrites the output of another. *)
Theorem X4_unit_names_are_distinct (t t' g g' : string) :
  In g ETL.geographies -> In g' ETL.geographies ->
  (ETL.target_table_name t g = ETL.target_table_name t' g' ->
   t = t' /\ g = g')
  /\ (AllGeos.output_file t g = AllGeos.output_file t' g' ->
      t = t' /\ g = g').
Proof.
  intros Hg Hg'. split.
  - apply target_table_name_injective; assumption.
  - apply output_file_injective; assumption.
Qed.

(** A table code that ends like a level does not collide with the level
    of another table. *)
Lemma X4_unit_names_are_distinct_witness :
  ETL.target_table_name "B01003_zcta" "state"
  <> ETL.target_table_name "B01003" "zcta"
  /\ AllGeos.output_file "B01003" "tract"
     <> AllGeos.output_file "B01003" "county".
Proof.
  split; intros H.
  - apply (proj1 (X4_unit_names_are_distinct
                    "B01003_zcta" "B01003" "state" "zcta"
                    (or_intror (or_intror (or_intror (or_introl eq_refl))))
                    (or_intror (or_introl eq_refl)))) in H.
    destruct H as [H _]. discriminate H.
  - apply (proj2 (X4_unit_names_are_distinct
                    "B01003" "B01003" "tract" "county"
                    (or_introl eq_refl)
                    (or_intror (or_intror (or_introl eq_refl))))) in H.
    destruct H as [_ H]. discriminate H.
Defined.

(** ** What a unit and a table do to the world *)

Section UnitEffects.

Variable sv : services.

Lemma for_each_keeps {A S X : Type} (f : world -> X) (l : list A)
      (body : A -> S -> M S) :
  (forall a s w, f (snd (body a s w)) = f w) ->
  forall s w, f (snd (for_each l body s w)) = f w.
Proof.
  intros Hbody. induction l as [|a l IH]; intros s w; simpl.
  - reflexivity.
  - unfold bind. pose proof (Hbody a s w) as H.
    destruct (body a s w) as [[s1|e] w1]; simpl in *.
    + rewrite IH. exact H.
    + exact H.
Qed.

Lemma chunk_body_sleeps (geo_level : string) (params : list (string * string))
      (vars_list : list string) (i : nat) (s : option DataFrame) (w : world) :
  sleeps (snd (ETL.chunk_body sv geo_level params vars_list i s w)) = sleeps w.
Proof.
  unfold ETL.chunk_body, bind, ced_download, lift, ret. simpl.
  destruct (download sv (List.length (calls w)) _) as [chunk|e]; simpl.
  - destruct s as [full|].
    + destruct (ETL.next_chunk _ _ _) as [c|e]; simpl; [|reflexivity].
      destruct (join_left full c); reflexivity.
    + destruct (ETL.first_chunk _ _ _); reflexivity.
  - reflexivity.
Qed.

(** The notebook's fetch never sleeps. *)
Lemma fetch_geo_data_sleeps (vars_list : list string) (geo_level : string)
      (w : world) :
  sleeps (snd (ETL.fetch_geo_data sv vars_list geo_level w)) = sleeps w.
Proof.
  unfold ETL.fetch_geo_data, bind, lift.
  destruct (query_params geo_level) as [params|e]; [|reflexivity].
  pose proof (for_each_keeps sleeps
                (PyList.range0 (List.length vars_list) ETL.MAX_VARS_PER_CALL)
                (ETL.chunk_body sv geo_level params vars_list)
                (chunk_body_sleeps geo_level params vars_list) None w)
    as Hloop.
  destruct (for_each _ _ None w) as [[[d|]|e] w1]; simpl in *; exact Hloop.
Qed.

(** A unit that returns has fetched its chunks and written one dataset,
    under its own name. *)
Lemma unit_body_effect (table_id : string) (var_codes all_vars : list string)
      (geo : string) (w w' : world) :
  ETL.unit_body sv table_id var_codes all_vars geo tt w = (Return tt, w') ->
  exists df,
    store w' = store_put (ETL.target_table_name table_id geo)
                         (mkDataset df (ETL.partition_of geo)) (store w)
    /\ writes w' = S (writes w)
    /\ sleeps w' = sleeps w
    /\ map req_vars (calls w') = map req_vars (calls w) ++ ETL.chunks all_vars.
Proof.
  unfold ETL.unit_body, bind, lift. intros H.
  pose proof (fetch_geo_data_store sv all_vars geo w) as [Hs Hw].
  pose proof (fetch_geo_data_sleeps all_vars geo w) as Hsl.
  destruct (ETL.fetch_geo_data sv all_vars geo w) as [[d|e0] w1] eqn:Hf;
    [|discriminate].
  pose proof (fetch_geo_data_calls _ _ _ _ _ _ Hf) as Hc.
  simpl in Hs, Hw, Hsl.
  destruct (cv_loop var_codes d) as [d1|e1]; [|discriminate].
  destruct (reset_index d1) as [d2|e2]; [|discriminate].
  destruct (ETL.geometry_to_wkt d2) as [d3|e3]; [|discriminate].
  unfold write in H.
  destruct (write_error sv (writes w1) _ d3) as [e4|]; [discriminate|].
  inversion H; subst. simpl. exists d3.
  rewrite Hs, Hw, Hsl. repeat split. exact Hc.
Qed.

End UnitEffects.

(** A list of at most fifty variables is one group. *)
Lemma chunks_single {A : Type} (l : list A) :
  0 < List.length l -> List.length l <= 50 -> ETL.chunks l = [l].
Proof.
  intros H0 H50. rewrite chunks_explicit.
  replace ((List.length l + 49) / 50) with 1
    by (apply (Nat.div_unique _ _ 1 (List.length l - 1)); lia).
  cbn [seq map]. replace (50 * 0) with 0 by reflexivity. cbn [skipn].
  rewrite firstn_all2 by lia. reflexivity.
Qed.

(** X5: one table of the notebook's loop.  A table with no variable is
    skipped and the world stays as it was.  A table with between 1 and 25
    variable codes (at most fifty with the margins of error) whose loop
    returns has issued exactly four requests, one for each level, each
    asking for all the estimates followed by all the margins of error;
    it has not slept and has made exactly four writes: afterwards the
    sink holds a dataset under the name of each of its four units,
    partitioned by state for tract and county and unpartitioned for zcta
    and state, and every dataset of another name is as before. *)
Theorem X5_table_writes_its_four_units (sv : services) (table_id : string)
        (var_codes : list string) (w w' : world) :
  (var_codes = [] ->
   ETL.table_body sv (table_id, var_codes) tt w = (Return tt, w))
  /\ (var_codes <> [] ->
      List.length var_codes <= 25 ->
      ETL.table_body sv (table_id, var_codes) tt w = (Return tt, w') ->
      writes w' = writes w + 4
      /\ map req_vars (calls w')
         = map req_vars (calls w)
           ++ repeat (var_codes ++ ETL.moe_codes var_codes) 4
      /\ List.length (calls w') = List.length (calls w) + 4
      /\ sleeps w' = sleeps w
      /\ (forall geo, In geo ETL.geographies ->
            exists d,
              store_get (ETL.target_table_name table_id geo) (store w')
              = Some d
              /\ ds_partition d = ETL.partition_of geo)
      /\ (forall name,
            (forall geo, In geo ETL.geographies ->
                         name <> ETL.target_table_name table_id geo) ->
            store_get name (store w') = store_get name (store w))).
Proof.
  split.
  - intros ->. reflexivity.
  - intros Hne Hmax H. unfold ETL.table_body in H.
    set (all_vars := var_codes ++ ETL.moe_codes var_codes) in *.
    assert (Hlen : List.length all_vars = 2 * List.length var_codes).
    { unfold all_vars, ETL.moe_codes. rewrite length_app, length_map. lia. }
    assert (Hpos : 0 < List.length var_codes).
    { destruct var_codes; [congruence|simpl; lia]. }
    assert (Hone : ETL.chunks all_vars = [all_vars]).
    { apply chunks_single; lia. }
    destruct all_vars as [|v0 rest] eqn:Hall.
    { simpl in Hlen. lia. }
    rewrite <- Hall in *. clear Hall v0 rest.
    unfold ETL.geographies in H. simpl in H. unfold bind in H.
    destruct (ETL.unit_body sv table_id var_codes all_vars "tract" tt w)
      as [[[]|e] w1] eqn:H1; [|discriminate].
    destruct (ETL.unit_body sv table_id var_codes all_vars "zcta" tt w1)
      as [[[]|e] w2] eqn:H2; [|discriminate].
    destruct (ETL.unit_body sv table_id var_codes all_vars "county" tt w2)
      as [[[]|e] w3] eqn:H3; [|discriminate].
    destruct (ETL.unit_body sv table_id var_codes all_vars "state" tt w3)
      as [[[]|e] w4] eqn:H4; [|discriminate].
    unfold ret in H. inversion H; subst w4. clear H.
    destruct (unit_body_effect _ _ _ _ _ _ _ H1) as [d1 [S1 [W1 [L1 C1]]]].
    destruct (unit_body_effect _ _ _ _ _ _ _ H2) as [d2 [S2 [W2 [L2 C2]]]].
    destruct (unit_body_effect _ _ _ _ _ _ _ H3) as [d3 [S3 [W3 [L3 C3]]]].
    destruct (unit_body_effect _ _ _ _ _ _ _ H4) as [d4 [S4 [W4 [L4 C4]]]].
    rewrite Hone in C1, C2, C3, C4.
    assert (Hnames : forall g g', In g ETL.geographies ->
               In g' ETL.geographies -> g <> g' ->
               ETL.target_table_name table_id g
               <> ETL.target_table_name table_id g').
    { intros g g' Hg Hg' Hgg E.
      destruct (target_table_name_injective _ _ _ _ Hg Hg' E) as [_ E'].
      exact (Hgg E'). }
    assert (Hreq : map req_vars (calls w')
                   = map req_vars (calls w) ++ repeat all_vars 4).
    { rewrite C4, C3, C2, C1. simpl. rewrite <- !app_assoc. reflexivity. }
    split; [lia|]. split; [exact Hreq|].
    split; [|split; [congruence|split]].
    + apply (f_equal (@List.length _)) in Hreq.
      rewrite length_app, !length_map, repeat_length in Hreq. exact Hreq.
    + intros geo Hgeo. rewrite S4, S3, S2, S1.
      simpl in Hgeo. destruct Hgeo as [<-|[<-|[<-|[<-|[]]]]].
      * exists (mkDataset d1 (ETL.partition_of "tract")).
        rewrite !store_get_put_other
          by (apply Hnames; simpl; auto; discriminate).
        rewrite store_get_put_same. split; reflexivity.
      * exists (mkDataset d2 (ETL.partition_of "zcta")).
        rewrite !store_get_put_other
          by (apply Hnames; simpl; auto; discriminate).
        rewrite store_get_put_same. split; reflexivity.
      * exists (mkDataset d3 (ETL.partition_of "county")).
        rewrite !store_get_put_other
          by (apply Hnames; simpl; auto; discriminate).
        rewrite store_get_put_same. split; reflexivity.
      * exists (mkDataset d4 (ETL.partition_of "state")).
        rewrite store_get_put_same. split; reflexivity.
    + intros name Hname. rewrite S4, S3, S2, S1.
      rewrite !store_get_put_other by (apply Hname; simpl; auto).
      reflexivity.
Qed.

(** One table with two estimate codes against the two-unit source: four
    requests, each for the two estimates and their two margins of error,
    and four datasets. *)
Lemma X5_table_writes_its_four_units_witness :
  let r := ETL.table_body Samples.sv_census
                          ("B01003", ["B01003_001E"; "B01003_002E"]) tt
                          empty_world in
  fst r = Return tt
  /\ writes (snd r) = 4
  /\ map req_vars (calls (snd r))
     = repeat ["B01003_001E"; "B01003_002E"; "B01003_001M"; "B01003_002M"] 4
  /\ (exists d,
        store_get (ETL.target_table_name "B01003" "county") (store (snd r))
        = Some d
        /\ ds_partition d = Some "state")
  /\ ETL.table_body Samples.sv_census ("B99999", []) tt empty_world
     = (Return tt, empty_world).
Proof.
  intros r. destruct r as [[[]|e] w'] eqn:Hr.
  - assert (Hne : ["B01003_001E"; "B01003_002E"] <> []) by discriminate.
    assert (Hmax : List.length ["B01003_001E"; "B01003_002E"] <= 25)
      by (simpl; lia).
    destruct (proj2 (X5_table_writes_its_four_units
                       Samples.sv_census "B01003"
                       ["B01003_001E"; "B01003_002E"]
                       empty_world w') Hne Hmax Hr)
      as [Hw [Hc [_ [_ [Hst _]]]]].
    split; [reflexivity|]. split; [exact Hw|]. split; [exact Hc|]. split.
    + apply (Hst "county"). simpl. auto.
    + exact (proj1 (X5_table_writes_its_four_units
                      Samples.sv_census "B99999" [] empty_world empty_world)
                   eq_refl).
  - vm_compute in Hr. discriminate Hr.
Defined.

(** ** The retry loop, attempt by attempt *)

Section RetryAttempts.

Variable sv : services.
Variable chunk_vars : list string.
Variable geo : string.
Variable params : list (string * string).

Hypothesis Hparams : query_params geo = Return params.

Let req : request := mkReq chunk_vars params.

Lemma after_timeouts_0 (w : world) : after_timeouts chunk_vars params w 0 = w.
Proof. unfold after_timeouts. simpl. rewrite !app_nil_r. destruct w; reflexivity. Qed.

Lemma after_timeouts_S (w : world) (k : nat) :
  after_timeouts chunk_vars params w (S k)
  = after_timeouts chunk_vars params
      (mkWorld (calls w ++ [mkReq chunk_vars params])
               (sleeps w ++ [AllGeos.WAIT_BETWEEN_RETRIES])
               (writes w) (store w)) k.
Proof. unfold after_timeouts. simpl. rewrite <- !app_assoc. reflexivity. Qed.

Lemma fetch_data_chunk_timeout (w : world) :
  download sv (List.length (calls w)) (mkReq chunk_vars params)
  = Raise ReadTimeout ->
  AllGeos.fetch_data_chunk sv chunk_vars geo w
  = (Raise ReadTimeout,
     mkWorld (calls w ++ [mkReq chunk_vars params]) (sleeps w) (writes w)
             (store w)).
Proof.
  intros H. unfold AllGeos.fetch_data_chunk, bind, lift, ced_download.
  rewrite Hparams, H. reflexivity.
Qed.

(** After [k] timeouts, the first attempt that does not time out decides
    the loop. *)
Lemma retry_loop_decided (k : nat) :
  forall (retries : nat) (chunk_df : option DataFrame) (w : world),
    k < retries ->
    (forall i, i < k ->
               download sv (List.length (calls w) + i)
                        (mkReq chunk_vars params) = Raise ReadTimeout) ->
    fst (AllGeos.fetch_data_chunk sv chunk_vars geo (after_timeouts chunk_vars params w k))
    <> Raise ReadTimeout ->
    AllGeos.retry_loop sv chunk_vars geo retries chunk_df w
    = match AllGeos.fetch_data_chunk sv chunk_vars geo (after_timeouts chunk_vars params w k) with
      | (Return d, w') => (Return (Some d), w')
      | (Raise e, w') => (Raise e, w')
      end.
Proof.
  induction k as [|k IH]; intros retries chunk_df w Hk Htime Hlast.
  - destruct retries as [|n]; [lia|]. simpl.
    rewrite after_timeouts_0 in *.
    destruct (AllGeos.fetch_data_chunk sv chunk_vars geo w) as [[d|e] w1];
      [reflexivity|].
    destruct e; try reflexivity. exfalso. apply Hlast. reflexivity.
  - destruct retries as [|n]; [lia|]. simpl.
    rewrite fetch_data_chunk_timeout
      by (rewrite <- (Htime 0) by lia; f_equal; lia).
    unfold bind, sleep.
    rewrite after_timeouts_S in *.
    apply IH; [lia| |exact Hlast].
    intros i Hi. simpl. rewrite length_app. simpl.
    rewrite <- (Htime (S i)) by lia. f_equal. lia.
Qed.

End RetryAttempts.

Lemma fetch_data_chunk_calls (sv : services) (chunk_vars : list string)
      (geo : string) (params : list (string * string)) (w : world) :
  query_params geo = Return params ->
  calls (snd (AllGeos.fetch_data_chunk sv chunk_vars geo w))
  = calls w ++ [mkReq chunk_vars params]
  /\ sleeps (snd (AllGeos.fetch_data_chunk sv chunk_vars geo w)) = sleeps w.
Proof.
  intros Hq. unfold AllGeos.fetch_data_chunk, bind, lift, ced_download, ret.
  rewrite Hq. simpl.
  destruct (download sv _ _) as [df|e]; simpl; [|split; reflexivity].
  destruct (AllGeos.standardize _ _ df); simpl; split; reflexivity.
Qed.

(** X6: the retry loop of the all-geographies script stops at the first
    attempt that does not time out.  When the first [k] attempts time out
    and [k] is below the budget, the outcome of attempt [k + 1] is the
    outcome of the loop, be it a frame (bound to [chunk_df]) or an
    exception other than a timeout (raised, not retried); by then the loop
    has issued [k + 1] requests and slept 2 seconds [k] times, once after
    each timeout and never after the last attempt. *)
Theorem X6_retry_stops_at_first_answer (sv : services)
        (chunk_vars : list string) (geo : string)
        (params : list (string * string)) (k retries : nat)
        (chunk_df : option DataFrame) (w : world) :
  query_params geo = Return params ->
  k < retries ->
  (forall i, i < k ->
             download sv (List.length (calls w) + i)
                      (mkReq chunk_vars params) = Raise ReadTimeout) ->
  fst (AllGeos.fetch_data_chunk sv chunk_vars geo
         (after_timeouts chunk_vars params w k)) <> Raise ReadTimeout ->
  let r := AllGeos.retry_loop sv chunk_vars geo retries chunk_df w in
  fst r
  = match fst (AllGeos.fetch_data_chunk sv chunk_vars geo
                 (after_timeouts chunk_vars params w k)) with
    | Return d => Return (Some d)
    | Raise e => Raise e
    end
  /\ calls (snd r) = calls w ++ repeat (mkReq chunk_vars params) (S k)
  /\ sleeps (snd r) = sleeps w ++ repeat AllGeos.WAIT_BETWEEN_RETRIES k
  /\ writes (snd r) = writes w
  /\ store (snd r) = store w.
Proof.
  intros Hq Hk Htime Hlast r. subst r.
  rewrite (retry_loop_decided sv chunk_vars geo params Hq k retries chunk_df w
             Hk Htime Hlast).
  pose proof (fetch_data_chunk_calls sv chunk_vars geo params
                (after_timeouts chunk_vars params w k) Hq) as [Hc Hs].
  pose proof (fetch_data_chunk_world sv chunk_vars geo
                (after_timeouts chunk_vars params w k)) as [_ [Hst _]].
  assert (Hwr : writes (snd (AllGeos.fetch_data_chunk sv chunk_vars geo
                               (after_timeouts chunk_vars params w k)))
                = writes w).
  { unfold AllGeos.fetch_data_chunk, bind, lift, ced_download, ret.
    rewrite Hq. simpl.
    destruct (download sv _ _) as [df|e]; simpl; [|reflexivity].
    destruct (AllGeos.standardize _ _ df); reflexivity. }
  assert (Hrep : forall (x : request) n, repeat x n ++ [x] = repeat x (S n)).
  { intros x n. induction n as [|n IHn]; simpl; [reflexivity|].
    rewrite IHn. reflexivity. }
  destruct (AllGeos.fetch_data_chunk sv chunk_vars geo
              (after_timeouts chunk_vars params w k)) as [[d|e] w'];
    simpl in *; rewrite Hc, Hs, Hwr, Hst, <- app_assoc, Hrep;
    repeat split.
Qed.

(** Two timeouts, then an answer, with the budget of three. *)
Lemma X6_retry_stops_at_first_answer_witness :
  let r := AllGeos.retry_loop MoreSamples.sv_third_time ["B01003_001E"]
                              "state" AllGeos.RETRY_LIMIT None empty_world in
  (exists d, fst r = Return (Some d)
             /\ index d = [CStr "01"; CStr "02"])
  /\ List.length (calls (snd r)) = 3
  /\ sleeps (snd r) = [2; 2].
Proof.
  intros r.
  assert (Hk : 2 < AllGeos.RETRY_LIMIT) by (unfold AllGeos.RETRY_LIMIT; lia).
  assert (Htime : forall i, i < 2 ->
            download MoreSamples.sv_third_time
                     (List.length (calls empty_world) + i)
                     (mkReq ["B01003_001E"] [("state", "*")])
            = Raise ReadTimeout).
  { intros [|[|i]] Hi; try reflexivity. lia. }
  assert (Hlast : fst (AllGeos.fetch_data_chunk MoreSamples.sv_third_time
                         ["B01003_001E"] "state"
                         (after_timeouts ["B01003_001E"] [("state", "*")]
                                         empty_world 2))
                  <> Raise ReadTimeout).
  { vm_compute. discriminate. }
  destruct (X6_retry_stops_at_first_answer
              MoreSamples.sv_third_time ["B01003_001E"] "state"
              [("state", "*")] 2 AllGeos.RETRY_LIMIT None empty_world
              eq_refl Hk Htime Hlast) as [Hr [Hc [Hs _]]].
  fold r in Hr, Hc, Hs. split; [|split].
  - rewrite Hr.
    destruct (fst (AllGeos.fetch_data_chunk MoreSamples.sv_third_time
                     ["B01003_001E"] "state"
                     (after_timeouts ["B01003_001E"] [("state", "*")]
                                     empty_world 2))) as [d|e] eqn:E.
    + exists d. split; [reflexivity|].
      vm_compute in E. inversion E; subst. reflexivity.
    + vm_compute in E. discriminate E.
  - rewrite Hc. reflexivity.
  - rewrite Hs. reflexivity.
Defined.

(** ** The cost of a unit of the all-geographies script *)

Section UnitBudget.

Variable sv : services.
Variable geo : string.
Variable variables_all : list string.

Lemma within_budget_refl (w : world) : within_budget 0 w w.
Proof.
  unfold within_budget. split; [lia|]. split; [|split; reflexivity].
  exists 0. split; [lia|]. simpl. rewrite app_nil_r. reflexivity.
Qed.

Lemma within_budget_trans (n m : nat) (w1 w2 w3 : world) :
  within_budget n w1 w2 -> within_budget m w2 w3 ->
  within_budget (n + m) w1 w3.
Proof.
  intros [C1 [[k1 [K1 S1]] [T1 W1]]] [C2 [[k2 [K2 S2]] [T2 W2]]].
  unfold within_budget. split; [lia|]. split; [|split; congruence].
  exists (k1 + k2). split; [lia|].
  rewrite S2, S1, <- app_assoc, repeat_app. reflexivity.
Qed.

Lemma retry_loop_writes (chunk_vars : list string) (retries : nat) :
  forall (chunk_df : option DataFrame) (w : world),
    writes (snd (AllGeos.retry_loop sv chunk_vars geo retries chunk_df w))
    = writes w.
Proof.
  induction retries as [|n IH]; intros chunk_df w; simpl; [reflexivity|].
  assert (Hw : writes (snd (AllGeos.fetch_data_chunk sv chunk_vars geo w))
               = writes w).
  { unfold AllGeos.fetch_data_chunk, bind, lift, ced_download, ret.
    destruct (query_params geo) as [params|e]; simpl; [|reflexivity].
    destruct (download sv _ _) as [df|e]; simpl; [|reflexivity].
    destruct (AllGeos.standardize _ _ df); reflexivity. }
  destruct (AllGeos.fetch_data_chunk sv chunk_vars geo w) as [[d|e] w1];
    simpl in *; [exact Hw|].
  destruct e; simpl; try exact Hw.
  unfold bind, sleep. rewrite IH. simpl. exact Hw.
Qed.

Lemma chunk_body_budget (i : nat) (v : AllGeos.vars) (w : world) :
  within_budget AllGeos.RETRY_LIMIT w
                (snd (AllGeos.chunk_body sv geo variables_all i v w)).
Proof.
  unfold AllGeos.chunk_body, bind, lift, ret, raise.
  pose proof (retry_loop_budget sv
                (PyList.slice variables_all i (i + AllGeos.MAX_VARS_PER_CALL))
                geo AllGeos.RETRY_LIMIT (AllGeos.chunk_df v) w)
    as [Hk [Hc Hs]].
  pose proof (retry_loop_writes
                (PyList.slice variables_all i (i + AllGeos.MAX_VARS_PER_CALL))
                AllGeos.RETRY_LIMIT (AllGeos.chunk_df v) w) as Hw.
  assert (Hb : within_budget AllGeos.RETRY_LIMIT w
                 (snd (AllGeos.retry_loop sv
                         (PyList.slice variables_all i
                                       (i + AllGeos.MAX_VARS_PER_CALL))
                         geo AllGeos.RETRY_LIMIT (AllGeos.chunk_df v) w))).
  { unfold within_budget. repeat split; assumption. }
  destruct (AllGeos.retry_loop _ _ _ _ _ w) as [[[chunk|]|e] w1];
    simpl in *; try exact Hb.
  destruct (AllGeos.geo_gdf v) as [g|]; [|exact Hb].
  destruct (join_left g chunk); exact Hb.
Qed.

Lemma within_budget_le (n m : nat) (w w' : world) :
  n <= m -> within_budget n w w' -> within_budget m w w'.
Proof.
  intros Hnm [C [[k [K S]] [T W]]]. unfold within_budget.
  split; [lia|]. split; [|split; assumption].
  exists k. split; [lia|exact S].
Qed.

Lemma chunk_loop_budget (starts : list nat) :
  forall (v : AllGeos.vars) (w : world),
    within_budget (AllGeos.RETRY_LIMIT * List.length starts) w
      (snd (for_each starts (AllGeos.chunk_body sv geo variables_all) v w)).
Proof.
  induction starts as [|i starts IH]; intros v w; cbn [for_each].
  - apply (within_budget_le 0); [lia|]. apply within_budget_refl.
  - unfold bind. pose proof (chunk_body_budget i v w) as Hb.
    destruct (AllGeos.chunk_body sv geo variables_all i v w)
      as [[v1|e] w1]; cbn [snd] in *.
    + apply (within_budget_le
               (AllGeos.RETRY_LIMIT
                + AllGeos.RETRY_LIMIT * List.length starts));
        [cbn [List.length]; lia|].
      exact (within_budget_trans _ _ _ _ _ Hb (IH v1 w1)).
    + apply (within_budget_le AllGeos.RETRY_LIMIT);
        [cbn [List.length]; unfold AllGeos.RETRY_LIMIT; lia|exact Hb].
Qed.

End UnitBudget.

(** X7: what one table-by-geography unit of the all-geographies script
    can cost, whatever the data source does: at most 3 requests per chunk
    of its variable list, that is 3 * ceil(N/50); as many sleeps at most,
    each of exactly 2 seconds; at most one write, and no dataset touched
    but the unit's own file. *)
Theorem X7_unit_cost_is_bounded (sv : services) (table_id : string)
        (table_vars variables_all : list string) (geo : string)
        (v : AllGeos.vars) (w : world) :
  let r := AllGeos.unit_body sv table_id table_vars variables_all geo v w in
  let n := 3 * ((List.length variables_all + 49) / 50) in
  List.length (calls (snd r)) <= List.length (calls w) + n
  /\ (exists k, k <= n /\ sleeps (snd r) = sleeps w ++ repeat 2 k)
  /\ writes (snd r) <= S (writes w)
  /\ (forall name,
        name <> AllGeos.output_file table_id geo ->
        store_get name (store (snd r)) = store_get name (store w)).
Proof.
  intros r n. subst r.
  assert (Hlen : List.length
                   (PyList.range0 (List.length variables_all)
                                  AllGeos.MAX_VARS_PER_CALL)
                 = (List.length variables_all + 49) / 50).
  { rewrite <- (chunks_count variables_all). unfold ETL.chunks.
    rewrite length_map. reflexivity. }
  pose proof (chunk_loop_budget sv geo variables_all
                (PyList.range0 (List.length variables_all)
                               AllGeos.MAX_VARS_PER_CALL)
                (AllGeos.mkVars None (AllGeos.chunk_df v) false) w) as Hb.
  rewrite Hlen in Hb. unfold AllGeos.RETRY_LIMIT in Hb. fold n in Hb.
  unfold AllGeos.unit_body, bind, lift, raise, ret.
  destruct (for_each _ _ (AllGeos.mkVars None (AllGeos.chunk_df v) false) w)
    as [[v1|e] w1]; cbn [snd] in Hb;
    destruct Hb as [C [[k [K S]] [T W]]].
  - destruct (AllGeos.geo_gdf v1) as [g|]; simpl.
    + destruct (cv_loop table_vars g) as [g'|e]; simpl.
      * unfold write.
        destruct (write_error sv (writes w1) _ g') as [e|]; simpl.
        -- split; [exact C|]. split; [exists k; split; assumption|].
           split; [lia|]. intros name _. rewrite T. reflexivity.
        -- split; [exact C|]. split; [exists k; split; assumption|].
           split; [lia|]. intros name Hname. rewrite T.
           apply store_get_put_other. exact Hname.
      * split; [exact C|]. split; [exists k; split; assumption|].
        split; [lia|]. intros name _. rewrite T. reflexivity.
    + split; [exact C|]. split; [exists k; split; assumption|].
      split; [lia|]. intros name _. rewrite T. reflexivity.
  - simpl. split; [exact C|]. split; [exists k; split; assumption|].
    split; [lia|]. intros name _. rewrite T. reflexivity.
Qed.

(** A unit with two variables against a source that never answers: three
    requests and three sleeps of 2 seconds, no write. *)
Lemma X7_unit_cost_is_bounded_witness :
  let r := AllGeos.unit_body Samples.sv_timeout "B01003" ["B01003_001E"]
                             ["B01003_001E"; "B01003_001M"] "state"
                             (AllGeos.mkVars None None false) empty_world in
  List.length (calls (snd r)) <= 3
  /\ (exists k, k <= 3 /\ sleeps (snd r) = repeat 2 k)
  /\ store_get "acs5_2022_B01003_tract.parquet" (store (snd r)) = None.
Proof.
  intros r.
  destruct (X7_unit_cost_is_bounded
              Samples.sv_timeout "B01003" ["B01003_001E"]
              ["B01003_001E"; "B01003_001M"] "state"
              (AllGeos.mkVars None None false) empty_world)
    as [Hc [Hs [_ Hst]]].
  split; [exact Hc|]. split; [exact Hs|].
  apply (Hst "acs5_2022_B01003_tract.parquet"). discriminate.
Defined.

(** ** Left joins on unique keys *)

Section UniqueKeys.

Lemma cell_eqb_eq (a b : cell) : cell_eqb a b = true <-> a = b.
Proof.
  split.
  - destruct a as [s|z|f| |s], b as [t|y|g| |t]; simpl; try discriminate;
      intros H.
    + apply String.eqb_eq in H. congruence.
    + apply Z.eqb_eq in H. congruence.
    + f_equal.
      destruct f as [s|s| |s m e], g as [t|t| |t n e']; simpl in H;
        try discriminate; try reflexivity.
      * apply Bool.eqb_prop in H. congruence.
      * apply Bool.eqb_prop in H. congruence.
      * apply andb_true_iff in H. destruct H as [H He].
        apply andb_true_iff in H. destruct H as [Hs Hm].
        apply Bool.eqb_prop in Hs. apply Pos.eqb_eq in Hm.
        apply Z.eqb_eq in He. congruence.
    + reflexivity.
    + apply String.eqb_eq in H. congruence.
  - intros <-. destruct a as [s|z|f| |s]; simpl.
    + apply String.eqb_refl.
    + apply Z.eqb_refl.
    + destruct f as [s|s| |s m e]; simpl;
        rewrite ?Bool.eqb_reflx, ?Pos.eqb_refl, ?Z.eqb_refl; reflexivity.
    + reflexivity.
    + apply String.eqb_refl.
Qed.

Lemma positions_spec (k : cell) (labels : list cell) (j : nat) :
  In j (positions k labels)
  <-> j < List.length labels /\ nth j labels CNone = k.
Proof.
  unfold positions. rewrite filter_In, in_seq, cell_eqb_eq. simpl.
  split; intros [H1 H2]; split; try assumption; lia.
Qed.

Lemma at_most_one {X : Type} (l : list X) :
  NoDup l -> (forall x y, In x l -> In y l -> x = y) ->
  l = [] \/ exists p, l = [p].
Proof.
  intros Hnd Heq. destruct l as [|a [|b t]].
  - left. reflexivity.
  - right. exists a. reflexivity.
  - exfalso. inversion Hnd as [|? ? Hnotin _]; subst.
    apply Hnotin. rewrite (Heq a b); simpl; auto.
Qed.

(** A label occurs at most once among distinct labels. *)
Lemma positions_unique (k : cell) (labels : list cell) :
  NoDup labels ->
  positions k labels = [] \/ exists p, positions k labels = [p].
Proof.
  intros Hnd. apply at_most_one.
  - unfold positions. apply NoDup_filter. apply seq_NoDup.
  - intros x y Hx Hy. apply positions_spec in Hx, Hy.
    destruct Hx as [Hx1 Hx2], Hy as [Hy1 Hy2].
    apply (proj1 (NoDup_nth labels CNone) Hnd); try assumption. congruence.
Qed.

Lemma flat_map_singletons {X Y : Type} (f : X -> list Y) (g : X -> Y)
      (l : list X) :
  (forall x, f x = [g x]) -> flat_map f l = map g l.
Proof.
  intros H. induction l as [|x l IH]; simpl; [reflexivity|].
  rewrite H, IH. reflexivity.
Qed.

Lemma join_plan_unique (l r : DataFrame) :
  NoDup (index r) ->
  join_plan l r
  = map (fun i => (i, hd_error (positions (nth i (index l) CNone) (index r))))
        (seq 0 (nrows l)).
Proof.
  intros Hnd. unfold join_plan. apply flat_map_singletons. intros i.
  destruct (positions_unique (nth i (index l) CNone) (index r) Hnd)
    as [->|[p ->]]; reflexivity.
Qed.

Lemma map_nth_seq (v : Series) :
  map (fun i => nth i v CNone) (seq 0 (List.length v)) = v.
Proof.
  induction v as [|c v IH]; simpl; [reflexivity|].
  f_equal. rewrite <- seq_shift, map_map. exact IH.
Qed.

Lemma take_left_unique (l r : DataFrame) (v : Series) :
  NoDup (index r) -> List.length v = nrows l ->
  take_left (join_plan l r) v = v.
Proof.
  intros Hnd Hlen. rewrite (join_plan_unique l r Hnd). unfold take_left.
  rewrite map_map. simpl. rewrite <- Hlen. apply map_nth_seq.
Qed.

Lemma take_right_unique (l r : DataFrame) (v : Series) :
  NoDup (index r) ->
  take_right (join_plan l r) v = map (matched (index r) v) (index l).
Proof.
  intros Hnd. rewrite (join_plan_unique l r Hnd). unfold take_right.
  rewrite map_map. simpl.
  transitivity (map (matched (index r) v)
                    (map (fun i => nth i (index l) CNone)
                         (seq 0 (List.length (index l))))).
  - rewrite map_map. apply map_ext. intros i. unfold matched.
    destruct (positions (nth i (index l) CNone) (index r)); reflexivity.
  - rewrite map_nth_seq. reflexivity.
Qed.

Lemma lookup_map_values (f : Series -> Series) (c : string)
      (cols : list (string * Series)) :
  lookup c (map (fun nv => (fst nv, f (snd nv))) cols)
  = option_map f (lookup c cols).
Proof.
  induction cols as [|[n v] cols IH]; simpl; [reflexivity|].
  destruct (String.eqb c n); [reflexivity|exact IH].
Qed.

Lemma lookup_app (c : string) (a b : list (string * Series)) :
  lookup c (a ++ b)
  = match lookup c a with
    | Some v => Some v
    | None => lookup c b
    end.
Proof.
  induction a as [|[n v] a IH]; simpl; [reflexivity|].
  destruct (String.eqb c n); [reflexivity|exact IH].
Qed.

Lemma overlap_empty (l r : DataFrame) (c : string) :
  overlap l r = [] -> has_col c r = true -> lookup c (columns l) = None.
Proof.
  intros Ho Hr. apply lookup_absent. intros Hin.
  assert (Hc : In c (overlap l r)).
  { unfold overlap. apply filter_In. split; assumption. }
  rewrite Ho in Hc. exact Hc.
Qed.

End UniqueKeys.

(** X8: the left join used to merge chunks, when the two frames share no
    column name and the labels of the right frame are distinct: the join
    returns; the result has the index of the left frame, row for row in
    the same order, the columns of the left frame unchanged followed by
    those of the right frame; and each right column holds, on the row of a
    left label, the value on the right row of that label, or the missing
    value when the right frame has no such row. *)
Theorem X8_join_on_unique_keys (l r : DataFrame) :
  overlap l r = [] -> NoDup (index r) ->
  exists j,
    join_left l r = Return j
    /\ index j = index l
    /\ index_name j = index_name l
    /\ col_names j = col_names l ++ col_names r
    /\ (forall c v, lookup c (columns l) = Some v ->
                    List.length v = nrows l ->
                    lookup c (columns j) = Some v)
    /\ (forall c v, lookup c (columns r) = Some v ->
                    lookup c (columns j)
                    = Some (map (matched (index r) v) (index l))).
Proof.
  intros Ho Hnd. unfold join_left. rewrite Ho.
  eexists. split; [reflexivity|]. cbn [index index_name columns].
  split; [apply take_left_unique; [exact Hnd|reflexivity]|].
  split; [reflexivity|]. split; [|split].
  - unfold col_names. cbn [columns]. rewrite map_app, !map_map.
    reflexivity.
  - intros c v Hc Hlen.
    rewrite lookup_app, lookup_map_values, Hc. simpl.
    rewrite (take_left_unique l r v Hnd Hlen). reflexivity.
  - intros c v Hc.
    assert (Hr : has_col c r = true) by (rewrite has_col_lookup, Hc; reflexivity).
    rewrite lookup_app, lookup_map_values, (overlap_empty l r c Ho Hr).
    simpl. rewrite lookup_map_values, Hc. simpl.
    rewrite (take_right_unique l r v Hnd). reflexivity.
Qed.

(** States 01 and 02 on the left, 02 and 03 on the right. *)
Lemma X8_join_on_unique_keys_witness :
  exists j,
    join_left MoreSamples.left_states MoreSamples.right_states = Return j
    /\ index j = [CStr "01"; CStr "02"]
    /\ col_names j = ["NAME"; "A"; "B"]
    /\ lookup "A" (columns j) = Some [CInt 10; CInt 20]
    /\ lookup "B" (columns j) = Some [CFloat F64.nan; CInt 200].
Proof.
  assert (Hnd : NoDup (index MoreSamples.right_states)).
  { simpl. constructor.
    - intros [H|[]]. discriminate H.
    - constructor; [intros []|constructor]. }
  destruct (X8_join_on_unique_keys
              MoreSamples.left_states MoreSamples.right_states eq_refl Hnd)
    as [j [Hj [Hi [_ [Hn [Hl Hr]]]]]].
  exists j. split; [exact Hj|]. split; [exact Hi|]. split; [exact Hn|]. split.
  - apply (Hl "A" [CInt 10; CInt 20]); reflexivity.
  - exact (Hr "B" [CInt 200; CInt 300] eq_refl).
Defined.

(** ** The coercion loop, column by column *)

Section CoercionLoop.

Variable cv : conversions.

Lemma lookup_app_notin (c : string) (pre rest : list (string * Series)) :
  ~ In c (map fst pre) -> lookup c (pre ++ rest) = lookup c rest.
Proof.
  intros H. rewrite lookup_app, (lookup_absent _ _ H). reflexivity.
Qed.

Lemma assign_app_notin (c : string) (v : Series)
      (pre rest : list (string * Series)) :
  ~ In c (map fst pre) -> assign c v (pre ++ rest) = pre ++ assign c v rest.
Proof.
  induction pre as [|[n w] pre IH]; simpl; intros H; [reflexivity|].
  destruct (String.eqb_spec c n) as [->|_].
  - exfalso. apply H. left. reflexivity.
  - rewrite IH; [reflexivity|]. intros Hin. apply H. right. exact Hin.
Qed.

Lemma coerce_fold_explicit (post : list (string * Series)) :
  forall (pre : list (string * Series)) (df : DataFrame),
    columns df = pre ++ post ->
    NoDup (map fst (pre ++ post)) ->
    columns (fold_left (coerce_column cv) (map fst post) df)
    = pre ++ map (coerce_pair cv) post.
Proof.
  induction post as [|[n v] post IH]; intros pre df Hcols Hnd; simpl.
  - rewrite Hcols. reflexivity.
  - assert (Hn : ~ In n (map fst pre)).
    { rewrite map_app in Hnd. simpl in Hnd.
      apply NoDup_remove_2 in Hnd. intros Hin. apply Hnd.
      apply in_or_app. left. exact Hin. }
    assert (Hstep : columns (coerce_column cv df n)
                    = (pre ++ [coerce_pair cv (n, v)]) ++ post).
    { unfold coerce_column, coerce_pair. simpl.
      destruct (passthrough n).
      - rewrite Hcols, <- app_assoc. reflexivity.
      - rewrite Hcols, (lookup_app_notin _ _ _ Hn). simpl.
        rewrite String.eqb_refl. simpl.
        rewrite Hcols, (assign_app_notin _ _ _ _ Hn). simpl.
        rewrite String.eqb_refl, <- app_assoc. reflexivity. }
    rewrite (IH _ _ Hstep).
    + rewrite <- app_assoc. reflexivity.
    + rewrite <- app_assoc. simpl. unfold coerce_pair at 1. simpl.
      rewrite !map_app in *. simpl in *. exact Hnd.
Qed.

Lemma index_name_coerce_column (df : DataFrame) (c : string) :
  index_name (coerce_column cv df c) = index_name df.
Proof.
  unfold coerce_column. destruct (passthrough c); [reflexivity|].
  destruct (lookup c (columns df)); reflexivity.
Qed.

Lemma index_name_coerce_numeric (df : DataFrame) :
  index_name (coerce_numeric cv df) = index_name df.
Proof.
  unfold coerce_numeric. generalize (col_names df) as names. intros names.
  revert df. induction names as [|c names IH]; intros df; simpl.
  - reflexivity.
  - rewrite IH. apply index_name_coerce_column.
Qed.

Lemma coerce_numeric_explicit (df : DataFrame) :
  NoDup (col_names df) ->
  coerce_numeric cv df
  = mkDF (index_name df) (index df) (map (coerce_pair cv) (columns df)).
Proof.
  intros Hnd.
  assert (Hcols : columns (coerce_numeric cv df)
                  = map (coerce_pair cv) (columns df)).
  { unfold coerce_numeric, col_names.
    exact (coerce_fold_explicit (columns df) [] df eq_refl Hnd). }
  pose proof (index_coerce_numeric cv df) as Hidx.
  pose proof (index_name_coerce_numeric df) as Hname.
  destruct (coerce_numeric cv df) as [nm idx cols]. simpl in *.
  congruence.
Qed.

Lemma to_numeric_cell_idempotent (c : cell) :
  to_numeric_cell cv (to_numeric_cell cv c) = to_numeric_cell cv c.
Proof.
  destruct c as [s|z|f| |w]; simpl; try reflexivity.
  destruct (integer_text s) as [z|]; [|reflexivity].
  match goal with |- context [if ?b then _ else _] => destruct b end;
    reflexivity.
Qed.

Lemma coerce_pair_idempotent (nv : string * Series) :
  coerce_pair cv (coerce_pair cv nv) = coerce_pair cv nv.
Proof.
  unfold coerce_pair. simpl. destruct (passthrough (fst nv)); [reflexivity|].
  f_equal. unfold to_numeric. rewrite map_map. apply map_ext.
  apply to_numeric_cell_idempotent.
Qed.

End CoercionLoop.

(** X9: the numeric coercion loop on a frame with distinct column names.
    It never raises; it keeps the index, the column names and their order;
    it leaves [NAME] and [geometry] exactly as they were and replaces every
    other column by its [pd.to_numeric] image, whose cells are all numbers
    (text that is no number, [None] and objects become the missing value);
    and running it a second time changes nothing. *)
Theorem X9_coercion_loop (cv : conversions) (df : DataFrame) :
  NoDup (col_names df) ->
  coerce_numeric cv df
  = mkDF (index_name df) (index df) (map (coerce_pair cv) (columns df))
  /\ col_names (coerce_numeric cv df) = col_names df
  /\ (forall c, passthrough c = true ->
                lookup c (columns (coerce_numeric cv df))
                = lookup c (columns df))
  /\ (forall c v, passthrough c = false ->
                  lookup c (columns df) = Some v ->
                  lookup c (columns (coerce_numeric cv df))
                  = Some (to_numeric cv v)
                  /\ Forall (fun x => is_numeric x = true) (to_numeric cv v)
                  /\ List.length (to_numeric cv v) = List.length v)
  /\ coerce_numeric cv (coerce_numeric cv df) = coerce_numeric cv df.
Proof.
  intros Hnd. pose proof (coerce_numeric_explicit cv df Hnd) as Hex.
  assert (Hnames : col_names (coerce_numeric cv df) = col_names df).
  { rewrite Hex. unfold col_names. simpl. rewrite map_map. reflexivity. }
  split; [exact Hex|]. split; [exact Hnames|]. split; [|split].
  - intros c Hc. rewrite (proj1 (coerce_numeric_spec cv df c Hnd)).
    unfold coerced. rewrite Hc.
    destruct (lookup c (columns df)); reflexivity.
  - intros c v Hc Hv. rewrite (proj1 (coerce_numeric_spec cv df c Hnd)).
    unfold coerced. rewrite Hc, Hv. simpl.
    split; [reflexivity|]. split; [apply to_numeric_is_numeric|].
    unfold to_numeric. apply length_map.
  - rewrite (coerce_numeric_explicit cv (coerce_numeric cv df))
      by (rewrite Hnames; exact Hnd).
    rewrite Hex. simpl. rewrite map_map. f_equal.
    apply map_ext. apply coerce_pair_idempotent.
Qed.

(** The tract answer of the samples: the codes become numbers, the names
    stay text. *)
Lemma X9_coercion_loop_witness :
  lookup "tract" (columns (coerce_numeric Samples.plain Samples.tract_answer))
  = Some [CInt 100; CInt 200]
  /\ lookup "NAME" (columns (coerce_numeric Samples.plain Samples.tract_answer))
     = Some [CStr "First"; CStr "Second"]
  /\ col_names (coerce_numeric Samples.plain Samples.tract_answer)
     = ["state"; "county"; "tract"; "NAME"; "B01003_001E"].
Proof.
  assert (Hnd : NoDup (col_names Samples.tract_answer)).
  { unfold col_names. simpl.
    repeat (constructor;
            [simpl; intros H;
             repeat (destruct H as [H|H]; [discriminate H|]); exact H|]).
    constructor. }
  destruct (X9_coercion_loop Samples.plain Samples.tract_answer Hnd)
    as [_ [Hn [Hp Hc]]].
  split; [|split].
  - exact (proj1 (proj1 Hc "tract" [CStr "100"; CStr "200"] eq_refl eq_refl)).
  - exact (Hp "NAME" eq_refl).
  - exact Hn.
Defined.

(** ** Integer text *)

Section IntegerText.

Lemma integer_text_no_sign (c : ascii) (rest : string) :
  c <> "-"%char ->
  integer_text (String c rest)
  = if PyStr.all_chars PyStr.is_digit (String c rest)
    then Some (digits_value 0 (String c rest)) else None.
Proof.
  intros H. unfold integer_text.
  destruct c as [[] [] [] [] [] [] [] []]; try reflexivity.
  exfalso. apply H. reflexivity.
Qed.

Lemma digit_is_no_sign (c : ascii) :
  PyStr.is_digit c = true -> c <> "-"%char /\ c <> "+"%char.
Proof.
  intros H. split; intros ->; discriminate H.
Qed.

(** Text made of digits reads as the number it writes. *)
Lemma integer_text_digits (s : string) :
  s <> EmptyString -> PyStr.all_chars PyStr.is_digit s = true ->
  integer_text s = Some (digits_value 0 s).
Proof.
  destruct s as [|c rest]; [congruence|]. intros _ Hd.
  assert (Hc : PyStr.is_digit c = true).
  { simpl in Hd. apply andb_true_iff in Hd. exact (proj1 Hd). }
  rewrite (integer_text_no_sign c rest (proj1 (digit_is_no_sign c Hc))).
  rewrite Hd. reflexivity.
Qed.

Lemma integer_text_minus (rest : string) :
  rest <> EmptyString -> PyStr.all_chars PyStr.is_digit rest = true ->
  integer_text (String "-" rest) = Some (- digits_value 0 rest)%Z.
Proof.
  intros Hne Hd. unfold integer_text. rewrite Hd.
  destruct rest as [|c r]; [congruence|]. reflexivity.
Qed.

Lemma all_digits_zeros (k : nat) (s : string) :
  PyStr.all_chars PyStr.is_digit (PyStr.zeros k ++ s)
  = PyStr.all_chars PyStr.is_digit s.
Proof. induction k as [|k IH]; simpl; [reflexivity|exact IH]. Qed.

Lemma digits_value_zeros (k : nat) (s : string) :
  digits_value 0 (PyStr.zeros k ++ s) = digits_value 0 s.
Proof. induction k as [|k IH]; simpl; [reflexivity|exact IH]. Qed.

Lemma zeros_append_nonempty (k : nat) (s : string) :
  s <> EmptyString -> (PyStr.zeros k ++ s)%string <> EmptyString.
Proof. destruct k; simpl; [auto|discriminate]. Qed.

(** Zero-padding a text of digits changes neither that it is one nor the
    number. *)
Lemma zfill_digits (w : nat) (s : string) :
  s <> EmptyString -> PyStr.all_chars PyStr.is_digit s = true ->
  integer_text (PyStr.zfill w s) = integer_text s.
Proof.
  intros Hne Hd. rewrite (integer_text_digits s Hne Hd).
  unfold PyStr.zfill. destruct (w <=? String.length s).
  - apply integer_text_digits; assumption.
  - destruct s as [|c rest]; [congruence|].
    assert (Hc : PyStr.is_digit c = true).
    { simpl in Hd. apply andb_true_iff in Hd. exact (proj1 Hd). }
    destruct (digit_is_no_sign c Hc) as [Hm Hp].
    destruct (Ascii.eqb_spec c "+") as [E|_]; [contradiction|].
    destruct (Ascii.eqb_spec c "-") as [E|_]; [contradiction|].
    cbn [orb].
    rewrite integer_text_digits.
    + rewrite digits_value_zeros. reflexivity.
    + apply zeros_append_nonempty. discriminate.
    + rewrite all_digits_zeros. exact Hd.
Qed.

Lemma zfill_minus_digits (w : nat) (rest : string) :
  rest <> EmptyString -> PyStr.all_chars PyStr.is_digit rest = true ->
  integer_text (PyStr.zfill w (String "-" rest))
  = integer_text (String "-" rest).
Proof.
  intros Hne Hd. unfold PyStr.zfill.
  destruct (w <=? String.length (String "-" rest)); [reflexivity|].
  cbn [Ascii.eqb Bool.eqb orb andb].
  rewrite !integer_text_minus; try assumption.
  - rewrite digits_value_zeros. reflexivity.
  - apply zeros_append_nonempty. exact Hne.
  - rewrite all_digits_zeros. exact Hd.
Qed.

End IntegerText.

(** ** Integers written out and read back *)

Section DecimalText.

Lemma digits_value_acc (d : Decimal.uint) (acc : positive) :
  digits_value (Z.pos acc) (NilEmpty.string_of_uint d)
  = Z.pos (Pos.of_uint_acc d acc).
Proof.
  revert acc. induction d as [|d IH|d IH|d IH|d IH|d IH|d IH|d IH|d IH|d IH|d IH];
    intros acc; cbn [NilEmpty.string_of_uint digits_value Pos.of_uint_acc];
    [reflexivity|..];
    rewrite <- IH; f_equal;
    match goal with
    | |- (_ + Z.of_nat ?n)%Z = _ =>
        let k := eval vm_compute in n in change n with k
    end; lia.
Qed.

Lemma digits_value_uint (d : Decimal.uint) :
  digits_value 0 (NilEmpty.string_of_uint d) = Z.of_N (Pos.of_uint d).
Proof.
  induction d as [|d IH|d IH|d IH|d IH|d IH|d IH|d IH|d IH|d IH|d IH];
    cbn [NilEmpty.string_of_uint digits_value Pos.of_uint];
    [reflexivity|exact IH|..];
    exact (digits_value_acc d _).
Qed.

Lemma all_digits_uint (d : Decimal.uint) :
  PyStr.all_chars PyStr.is_digit (NilEmpty.string_of_uint d) = true.
Proof.
  induction d as [|d IH|d IH|d IH|d IH|d IH|d IH|d IH|d IH|d IH|d IH];
    cbn [NilEmpty.string_of_uint PyStr.all_chars];
    [reflexivity|..]; rewrite IH; reflexivity.
Qed.

Lemma nilzero_nonempty (d : Decimal.uint) :
  NilZero.string_of_uint d <> EmptyString.
Proof. destruct d; discriminate. Qed.

Lemma nilzero_digits (d : Decimal.uint) :
  PyStr.all_chars PyStr.is_digit (NilZero.string_of_uint d) = true.
Proof.
  destruct d; try reflexivity; apply (all_digits_uint (_ _)).
Qed.

Lemma nilzero_value (d : Decimal.uint) :
  digits_value 0 (NilZero.string_of_uint d) = Z.of_N (Pos.of_uint d).
Proof.
  destruct d; try reflexivity; apply (digits_value_uint (_ _)).
Qed.

(** [int(str(z)) = z], also through zero-padding. *)
Lemma integer_text_of_Z (w : nat) (z : Z) :
  integer_text (PyStr.zfill w (PyStr.of_Z z)) = Some z
  /\ integer_text (PyStr.of_Z z) = Some z.
Proof.
  unfold PyStr.of_Z. destruct z as [|p|p].
  - cbn [Z.to_int NilZero.string_of_int].
    assert (H : integer_text (NilZero.string_of_uint (Decimal.D0 Decimal.Nil))
                = Some 0%Z) by reflexivity.
    split; [|exact H].
    rewrite zfill_digits; [exact H|discriminate|reflexivity].
  - cbn [Z.to_int NilZero.string_of_int].
    assert (H : integer_text (NilZero.string_of_uint (Pos.to_uint p))
                = Some (Z.pos p)).
    { rewrite integer_text_digits
        by (apply nilzero_nonempty || apply nilzero_digits).
      rewrite nilzero_value, DecimalPos.Unsigned.of_to. reflexivity. }
    split; [|exact H].
    rewrite zfill_digits; [exact H|apply nilzero_nonempty|apply nilzero_digits].
  - cbn [Z.to_int NilZero.string_of_int].
    assert (H : integer_text
                  (String "-" (NilZero.string_of_uint (Pos.to_uint p)))
                = Some (Z.neg p)).
    { rewrite integer_text_minus
        by (apply nilzero_nonempty || apply nilzero_digits).
      rewrite nilzero_value, DecimalPos.Unsigned.of_to. reflexivity. }
    split; [|exact H].
    rewrite zfill_minus_digits;
      [exact H|apply nilzero_nonempty|apply nilzero_digits].
Qed.

End DecimalText.

(** ** Padding and coercion *)

Section PaddingAndCoercion.

Variable cv : conversions.

Lemma to_numeric_padded_cell (w : nat) (x : cell) :
  code_cell x ->
  to_numeric_cell cv (CStr (PyStr.zfill w (cell_str cv x)))
  = to_numeric_cell cv x.
Proof.
  destruct x as [s|z|f| |g]; cbn [code_cell]; try contradiction.
  - intros [Hne Hd]. cbn [to_numeric_cell cell_str].
    rewrite (zfill_digits w s Hne Hd), (integer_text_digits s Hne Hd).
    reflexivity.
  - intros Hz. cbn [to_numeric_cell cell_str].
    rewrite (proj1 (integer_text_of_Z w z)).
    assert (Hr : ((- 2 ^ 63 <=? z) && (z <? 2 ^ 64))%Z%bool = true).
    { apply andb_true_iff. split; [apply Z.leb_le|apply Z.ltb_lt]; lia. }
    rewrite Hr. reflexivity.
Qed.

Lemma to_numeric_padded (w : nat) (v : Series) :
  Forall code_cell v ->
  to_numeric cv (astype_str_zfill cv w v) = to_numeric cv v.
Proof.
  intros H. unfold to_numeric, astype_str_zfill. rewrite map_map.
  induction H as [|x v Hx _ IH]; cbn [map]; [reflexivity|].
  cbv beta. rewrite (to_numeric_padded_cell w x Hx), IH. reflexivity.
Qed.

Lemma names_assign_present (c : string) (v v' : Series)
      (cols : list (string * Series)) :
  lookup c cols = Some v -> map fst (assign c v' cols) = map fst cols.
Proof.
  induction cols as [|[n x] cols IH]; simpl; [discriminate|].
  destruct (String.eqb_spec c n) as [->|_]; simpl; intros H.
  - reflexivity.
  - rewrite (IH H). reflexivity.
Qed.

Lemma coerce_pairs_assign (c : string) (v v' : Series)
      (cols : list (string * Series)) :
  lookup c cols = Some v ->
  coerce_pair cv (c, v') = coerce_pair cv (c, v) ->
  map (coerce_pair cv) (assign c v' cols) = map (coerce_pair cv) cols.
Proof.
  intros Hl He. induction cols as [|[n x] cols IH]; simpl in *;
    [discriminate|].
  destruct (String.eqb_spec c n) as [->|_]; simpl.
  - injection Hl as ->. rewrite He. reflexivity.
  - rewrite (IH Hl). reflexivity.
Qed.

End PaddingAndCoercion.

(** X10: zero-padding does not survive the coercion loop.  For a column
    of codes (non-empty digit texts, or integers of the 64-bit range)
    that is neither [NAME] nor [geometry], [astype(str).str.zfill(w)]
    followed by [pd.to_numeric] gives the numbers the column stood for:
    an integer written out, padded and read back is the same integer, a
    padded digit text reads as the unpadded one, and the frame after
    padding and coercion is the frame after coercion alone. *)
Theorem X10_padding_does_not_survive_coercion (cv : conversions)
        (df : DataFrame) (c : string) (w : nat) (v : Series) :
  NoDup (col_names df) ->
  lookup c (columns df) = Some v ->
  passthrough c = false ->
  Forall code_cell v ->
  (forall z, (- 2 ^ 63 <= z < 2 ^ 64)%Z ->
             to_numeric_cell cv (CStr (PyStr.zfill w (PyStr.of_Z z))) = CInt z)
  /\ (forall s, s <> EmptyString ->
                PyStr.all_chars PyStr.is_digit s = true ->
                to_numeric_cell cv (CStr (PyStr.zfill w s))
                = to_numeric_cell cv (CStr s))
  /\ to_numeric cv (astype_str_zfill cv w v) = to_numeric cv v
  /\ exists df', pad_column cv df c w = Return df'
                 /\ lookup c (columns df') = Some (astype_str_zfill cv w v)
                 /\ coerce_numeric cv df' = coerce_numeric cv df
                 /\ lookup c (columns (coerce_numeric cv df'))
                    = Some (to_numeric cv v).
Proof.
  intros Hnd Hl Hp Hv.
  split; [|split; [|split]].
  - intros z Hz. exact (to_numeric_padded_cell cv w (CInt z) Hz).
  - intros s Hne Hd.
    exact (to_numeric_padded_cell cv w (CStr s) (conj Hne Hd)).
  - exact (to_numeric_padded cv w v Hv).
  - exists (setitem df c (astype_str_zfill cv w v)).
    assert (Hpad : pad_column cv df c w
                   = Return (setitem df c (astype_str_zfill cv w v))).
    { unfold pad_column, getitem. rewrite Hl. reflexivity. }
    assert (Hnames : col_names (setitem df c (astype_str_zfill cv w v))
                     = col_names df).
    { unfold col_names, setitem. simpl.
      exact (names_assign_present c v _ _ Hl). }
    assert (Heq : coerce_numeric cv (setitem df c (astype_str_zfill cv w v))
                  = coerce_numeric cv df).
    { rewrite (coerce_numeric_explicit cv _
                 (eq_ind_r (fun l => NoDup l) Hnd Hnames)).
      rewrite (coerce_numeric_explicit cv df Hnd). simpl. f_equal.
      apply (coerce_pairs_assign cv c v _ _ Hl).
      unfold coerce_pair. simpl. rewrite Hp.
      rewrite (to_numeric_padded cv w v Hv). reflexivity. }
    split; [exact Hpad|]. split; [apply lookup_setitem_same|].
    split; [exact Heq|].
    rewrite Heq, (proj1 (coerce_numeric_spec cv df c Hnd)).
    unfold coerced. rewrite Hl, Hp. reflexivity.
Qed.

(** The state codes of the sample tract answer: padded to ["01"] and
    ["02"], and the numbers 1 and 2 again after the coercion. *)
Lemma X10_padding_does_not_survive_coercion_witness :
  exists df',
    pad_column Samples.plain Samples.tract_answer "state" 2 = Return df'
    /\ lookup "state" (columns df') = Some [CStr "01"; CStr "02"]
    /\ lookup "state" (columns (coerce_numeric Samples.plain df'))
       = Some [CInt 1; CInt 2].
Proof.
  assert (Hnd : NoDup (col_names Samples.tract_answer)).
  { unfold col_names. simpl.
    repeat (constructor;
            [simpl; intros H;
             repeat (destruct H as [H|H]; [discriminate H|]); exact H|]).
    constructor. }
  assert (Hv : Forall code_cell [CStr "1"; CStr "2"]).
  { repeat constructor; discriminate. }
  destruct (X10_padding_does_not_survive_coercion Samples.plain
              Samples.tract_answer "state" 2 [CStr "1"; CStr "2"]
              Hnd eq_refl eq_refl Hv)
    as [_ [_ [_ [df' [Hpad [Hcol [_ Hnum]]]]]]].
  exists df'. split; [exact Hpad|]. split; [exact Hcol|exact Hnum].
Defined.

(** ** Running the scripts again *)

Section StoreFacts.

Lemma puts_app (ps qs st : list (string * dataset)) :
  puts (ps ++ qs) st = puts qs (puts ps st).
Proof. unfold puts. apply fold_left_app. Qed.

Lemma filter_filter {A} (f g : A -> bool) (l : list A) :
  filter f (filter g l) = filter (fun x => (g x && f x)%bool) l.
Proof.
  induction l as [|x l IH]; simpl; [reflexivity|].
  destruct (g x); simpl; [destruct (f x)|]; rewrite IH; reflexivity.
Qed.

Lemma filter_none {A} (f : A -> bool) (l : list A) :
  (forall x, In x l -> f x = false) -> filter f l = [].
Proof.
  induction l as [|x l IH]; simpl; intros H; [reflexivity|].
  rewrite (H x (or_introl eq_refl)). apply IH.
  intros y Hy. apply H. right. exact Hy.
Qed.

Lemma untouched_snoc (ps : list (string * dataset)) (p nd : string * dataset) :
  untouched (ps ++ [p]) nd
  = (untouched ps nd && negb (String.eqb (fst p) (fst nd)))%bool.
Proof.
  unfold untouched. rewrite forallb_app. simpl.
  rewrite andb_true_r. reflexivity.
Qed.

Lemma puts_split (ps st : list (string * dataset)) :
  puts ps st = written ps ++ filter (untouched ps) st.
Proof.
  revert st. induction ps as [|p ps IH] using rev_ind; intros st.
  - simpl. induction st as [|x st IHst]; simpl; [reflexivity|].
    f_equal. exact IHst.
  - unfold written. rewrite !puts_app. simpl. unfold store_put.
    rewrite (IH st), (IH []). simpl. rewrite app_nil_r.
    rewrite filter_app, filter_filter. simpl. f_equal. f_equal.
    apply filter_ext. intros nd. symmetry. apply untouched_snoc.
Qed.

Lemma written_touched (ps : list (string * dataset)) (nd : string * dataset) :
  In nd (written ps) -> untouched ps nd = false.
Proof.
  induction ps as [|p ps IH] using rev_ind; [intros []|].
  unfold written. rewrite puts_app. simpl. unfold store_put.
  rewrite untouched_snoc. intros [<-|Hin].
  - simpl. rewrite String.eqb_refl. apply andb_false_r.
  - apply filter_In in Hin. destruct Hin as [Hin _].
    rewrite (IH Hin). reflexivity.
Qed.

(** The same overwrites a second time change nothing. *)
Lemma puts_twice (ps st : list (string * dataset)) :
  puts ps (puts ps st) = puts ps st.
Proof.
  rewrite (puts_split ps (puts ps st)), (puts_split ps st).
  f_equal. rewrite filter_app.
  rewrite (filter_none _ _ (written_touched ps)). simpl.
  rewrite filter_filter. apply filter_ext.
  intros nd. apply andb_diag.
Qed.

End StoreFacts.

Section SteadyRuns.

Lemma steady_ret {A} (a : A) : steady (ret a).
Proof. exists (Return a), []. intros w. split; reflexivity. Qed.

Lemma steady_raise {A} (e : exn) : steady (@raise A e).
Proof. exists (Raise e), []. intros w. split; reflexivity. Qed.

Lemma steady_lift {A} (o : outcome A) : steady (lift o).
Proof. exists o, []. intros w. split; reflexivity. Qed.

Lemma steady_sleep (n : nat) : steady (sleep n).
Proof. exists (Return tt), []. intros w. split; reflexivity. Qed.

Lemma steady_bind {A B} (m : M A) (k : A -> M B) :
  steady m -> (forall a, steady (k a)) -> steady (bind m k).
Proof.
  intros [o [ps Hm]] Hk. destruct o as [a|e].
  - destruct (Hk a) as [o' [qs Hka]]. exists o', (ps ++ qs). intros w.
    unfold bind. destruct (Hm w) as [Ho Hs].
    destruct (m w) as [o1 w1]. simpl in Ho, Hs. subst o1.
    destruct (Hka w1) as [Ho' Hs']. rewrite Ho', Hs', Hs, puts_app.
    split; reflexivity.
  - exists (Raise e), ps. intros w.
    unfold bind. destruct (Hm w) as [Ho Hs].
    destruct (m w) as [o1 w1]. simpl in Ho, Hs. subst o1.
    split; [reflexivity|exact Hs].
Qed.

Lemma steady_for_each {A S} (body : A -> S -> M S) (l : list A) :
  (forall a s, steady (body a s)) -> forall s, steady (for_each l body s).
Proof.
  intros Hb. induction l as [|a l IH]; intros s; simpl.
  - apply steady_ret.
  - apply steady_bind; [apply Hb|exact IH].
Qed.

Variable sv : services.
Hypothesis Hst : stationary sv.

Lemma steady_download (r : request) : steady (ced_download sv r).
Proof.
  exists (download sv 0 r), []. intros w. split; [|reflexivity].
  unfold ced_download. simpl. apply (proj1 Hst).
Qed.

Lemma steady_write (name : string) (df : DataFrame) (part : option string) :
  steady (write sv name df part).
Proof.
  destruct (write_error sv 0 name df) as [e|] eqn:E.
  - exists (Raise e), []. intros w. unfold write.
    rewrite (proj2 Hst (writes w) 0 name df), E. split; reflexivity.
  - exists (Return tt), [(name, mkDataset df part)]. intros w. unfold write.
    rewrite (proj2 Hst (writes w) 0 name df), E. split; reflexivity.
Qed.

Lemma steady_retry_loop (chunk_vars : list string)
      (geo : string) (n : nat) (chunk : option DataFrame) :
  steady (AllGeos.fetch_data_chunk sv chunk_vars geo) ->
  steady (AllGeos.retry_loop sv chunk_vars geo n chunk).
Proof.
  intros [o [ps Hf]]. induction n as [|n IH]; simpl.
  - apply steady_ret.
  - destruct IH as [o' [qs Hr]].
    assert (Hrest : forall w1,
               fst ((sleep AllGeos.WAIT_BETWEEN_RETRIES ;;;
                     AllGeos.retry_loop sv chunk_vars geo n chunk) w1) = o'
               /\ store ((snd ((sleep AllGeos.WAIT_BETWEEN_RETRIES ;;;
                     AllGeos.retry_loop sv chunk_vars geo n chunk) w1)))
                  = puts qs (store w1)).
    { intros w1. unfold bind, sleep. cbn [fst snd].
      destruct (Hr (mkWorld (calls w1)
                            (sleeps w1 ++ [AllGeos.WAIT_BETWEEN_RETRIES])
                            (writes w1) (store w1))) as [Ho Hs].
      split; [exact Ho|exact Hs]. }
    destruct o as [d|e].
    + exists (Return (Some d)), ps. intros w. destruct (Hf w) as [Ho Hs].
      destruct (AllGeos.fetch_data_chunk sv chunk_vars geo w) as [o1 w1].
      simpl in Ho, Hs. subst o1. split; [reflexivity|exact Hs].
    + destruct e;
        try (eexists (Raise _), ps; intros w; destruct (Hf w) as [Ho Hs];
             destruct (AllGeos.fetch_data_chunk sv chunk_vars geo w)
               as [o1 w1];
             simpl in Ho, Hs; subst o1; split; [reflexivity|exact Hs]).
      exists o', (ps ++ qs). intros w. destruct (Hf w) as [Ho Hs].
      destruct (AllGeos.fetch_data_chunk sv chunk_vars geo w) as [o1 w1].
      simpl in Ho, Hs. subst o1.
      destruct (Hrest w1) as [Ho' Hs'].
      rewrite Ho', Hs', Hs, puts_app. split; reflexivity.
Qed.

Ltac steady_step :=
  match goal with
  | |- steady (bind _ _) => apply steady_bind; [|intros ?]
  | |- steady (ret _) => apply steady_ret
  | |- steady (raise _) => apply steady_raise
  | |- steady (lift _) => apply steady_lift
  | |- steady (sleep _) => apply steady_sleep
  | |- steady (ced_download _ _) => apply steady_download
  | |- steady (write _ _ _ _) => apply steady_write
  | |- steady (for_each _ _ _) => apply steady_for_each; intros ? ?
  | |- steady (match ?x with _ => _ end) => destruct x
  end.

Lemma steady_fetch_geo_data (vars_list : list string) (geo : string) :
  steady (ETL.fetch_geo_data sv vars_list geo).
Proof.
  unfold ETL.fetch_geo_data, ETL.chunk_body. repeat steady_step.
Qed.

Lemma steady_etl_run (table_groups : list (string * list string)) :
  steady (ETL.run sv table_groups).
Proof.
  unfold ETL.run. apply steady_for_each. intros [table_id var_codes] [].
  unfold ETL.table_body.
  destruct (var_codes ++ ETL.moe_codes var_codes) as [|v all_vars];
    [apply steady_ret|].
  apply steady_for_each. intros geo []. unfold ETL.unit_body.
  apply steady_bind; [apply steady_fetch_geo_data|intros ?].
  repeat steady_step.
Qed.

Lemma steady_fetch_data_chunk (variable_list : list string) (geo : string) :
  steady (AllGeos.fetch_data_chunk sv variable_list geo).
Proof. unfold AllGeos.fetch_data_chunk. repeat steady_step. Qed.

Lemma steady_allgeos_run (tables : list (string * list string)) :
  forall v, steady (for_each tables (AllGeos.table_body sv) v).
Proof.
  apply steady_for_each. intros [table_id table_vars] v.
  unfold AllGeos.table_body.
  destruct (table_vars ++ AllGeos.table_moes table_vars) as [|x variables_all];
    [apply steady_ret|].
  apply steady_for_each. intros geo v0. unfold AllGeos.unit_body.
  apply steady_bind.
  - apply steady_for_each. intros i v1. unfold AllGeos.chunk_body.
    apply steady_bind;
      [apply steady_retry_loop; apply steady_fetch_data_chunk|intros ?].
    repeat steady_step.
  - intros v1. repeat steady_step.
Qed.

(** A steady computation run from the world it left: the same outcome,
    the same sink. *)
Lemma steady_again {A} (c : M A) (w : world) :
  steady c ->
  fst (c (snd (c w))) = fst (c w)
  /\ store (snd (c (snd (c w)))) = store (snd (c w)).
Proof.
  intros [o [ps H]]. destruct (H w) as [Ho Hs].
  destruct (H (snd (c w))) as [Ho' Hs']. split; [congruence|].
  rewrite Hs', Hs. apply puts_twice.
Qed.

End SteadyRuns.

(** X11: running a script again is idempotent.  When the answers of the
    source and of the sink do not depend on how many calls came before,
    a run of the notebook, or of the all-geographies script, started in
    the world that a first run left ends as the first one did (the same
    result or the same exception) and leaves every dataset of the sink
    exactly as the first run left it; and the outcome of a run does not
    depend on the world it starts from. *)
Theorem X11_rerun_changes_nothing (sv : services)
        (tables : list (string * list string)) (w : world) :
  stationary sv ->
  (fst (ETL.run sv tables (snd (ETL.run sv tables w)))
   = fst (ETL.run sv tables w)
   /\ store (snd (ETL.run sv tables (snd (ETL.run sv tables w))))
      = store (snd (ETL.run sv tables w)))
  /\ (fst (AllGeos.run sv tables (snd (AllGeos.run sv tables w)))
      = fst (AllGeos.run sv tables w)
      /\ store (snd (AllGeos.run sv tables (snd (AllGeos.run sv tables w))))
         = store (snd (AllGeos.run sv tables w)))
  /\ (forall w', fst (ETL.run sv tables w') = fst (ETL.run sv tables w)
                 /\ fst (AllGeos.run sv tables w')
                    = fst (AllGeos.run sv tables w)).
Proof.
  intros Hst.
  pose proof (steady_etl_run sv Hst tables) as He.
  pose proof (steady_allgeos_run sv Hst tables (AllGeos.mkVars None None false))
    as Ha.
  split; [exact (steady_again (ETL.run sv tables) w He)|].
  split; [exact (steady_again (AllGeos.run sv tables) w Ha)|].
  intros w'. destruct He as [o [ps H]]. destruct Ha as [o' [qs H']].
  split.
  - rewrite (proj1 (H w')), (proj1 (H w)). reflexivity.
  - unfold AllGeos.run.
    rewrite (proj1 (H' w')), (proj1 (H' w)). reflexivity.
Qed.

(** The sample source answers every request the same way at any time:
    a second run over the two sample tables leaves the sink as the first
    one did. *)
Lemma X11_rerun_changes_nothing_witness :
  store (snd (ETL.run Samples.sv_census Samples.two_tables
                (snd (ETL.run Samples.sv_census Samples.two_tables
                        empty_world))))
  = store (snd (ETL.run Samples.sv_census Samples.two_tables empty_world))
  /\ store (snd (AllGeos.run Samples.sv_census Samples.two_tables
                   (snd (AllGeos.run Samples.sv_census Samples.two_tables
                           empty_world))))
     = store (snd (AllGeos.run Samples.sv_census Samples.two_tables
                     empty_world)).
Proof.
  assert (Hst : stationary Samples.sv_census).
  { split; intros; reflexivity. }
  destruct (X11_rerun_changes_nothing Samples.sv_census Samples.two_tables
              empty_world Hst) as [[_ He] [[_ Ha] _]].
  split; [exact He|exact Ha].
Defined.

(** ** Tables over the request limit *)

Section LargeTables.

Lemma has_col_setitem (df : DataFrame) (c k : string) (v : Series) :
  has_col c df = true -> has_col c (setitem df k v) = true.
Proof.
  rewrite !has_col_lookup. simpl. rewrite lookup_assign.
  destruct (String.eqb c k); [reflexivity|auto].
Qed.

Lemma has_col_setitem_same (df : DataFrame) (k : string) (v : Series) :
  has_col k (setitem df k v) = true.
Proof. rewrite has_col_lookup, lookup_setitem_same. reflexivity. Qed.

Lemma lookup_without (c k : string) (cols : list (string * Series)) :
  c <> k -> lookup c (without k cols) = lookup c cols.
Proof.
  intros Hne. induction cols as [|[n v] cols IH]; simpl; [reflexivity|].
  destruct (String.eqb_spec k n) as [->|Hk]; simpl.
  - destruct (String.eqb_spec c n) as [->|_]; [congruence|exact IH].
  - rewrite IH. reflexivity.
Qed.

Lemma has_col_pad_column (cv : conversions) (df d : DataFrame)
      (k : string) (w : nat) :
  pad_column cv df k w = Return d ->
  has_col k d = true /\ forall c, has_col c df = true -> has_col c d = true.
Proof.
  unfold pad_column, getitem.
  destruct (lookup k (columns df)) as [v|]; cbn [obind]; [|discriminate].
  cbn [obind]. intros H. injection H as <-. split.
  - apply has_col_setitem_same.
  - intros c. apply has_col_setitem.
Qed.

Lemma has_col_concat2 (df d : DataFrame) (key a b c : string) :
  concat2 df key a b = Return d -> has_col c df = true -> has_col c d = true.
Proof.
  unfold concat2.
  destruct (getitem df a) as [va|]; cbn [obind]; [|discriminate].
  destruct (getitem df b) as [vb|]; cbn [obind]; [|discriminate]. cbn [obind].
  destruct (series_add va vb) as [s|]; cbn [obind]; [|discriminate]. cbn [obind].
  intros H. injection H as <-. apply has_col_setitem.
Qed.

Lemma has_col_concat3 (df d : DataFrame) (key a b c x : string) :
  concat3 df key a b c = Return d -> has_col x df = true -> has_col x d = true.
Proof.
  unfold concat3.
  destruct (getitem df a) as [va|]; cbn [obind]; [|discriminate].
  destruct (getitem df b) as [vb|]; cbn [obind]; [|discriminate].
  destruct (getitem df c) as [vc|]; cbn [obind]; [|discriminate]. cbn [obind].
  destruct (series_add va vb) as [s|]; cbn [obind]; [|discriminate]. cbn [obind].
  destruct (series_add s vc) as [t|]; cbn [obind]; [|discriminate]. cbn [obind].
  intros H. injection H as <-. apply has_col_setitem.
Qed.

Lemma has_col_set_index (df d : DataFrame) (k c : string) :
  set_index df k = Return d -> c <> k ->
  has_col c df = true -> has_col c d = true.
Proof.
  unfold set_index. destruct (lookup k (columns df)) as [v|]; cbn [obind]; [|discriminate].
  intros H Hne. injection H as <-. rewrite !has_col_lookup. simpl.
  rewrite (lookup_without _ _ _ Hne). auto.
Qed.

(** The frames of the tract and county branches keep a [state] column. *)
Lemma key_tract_state (cv : conversions) (df d : DataFrame) :
  ETL.key_tract cv df = Return d -> has_col "state" d = true.
Proof.
  unfold ETL.key_tract.
  destruct (pad_column cv df "state" 2) as [d1|] eqn:E1; cbn [obind]; [|discriminate].
  destruct (pad_column cv d1 "county" 3) as [d2|] eqn:E2; cbn [obind]; [|discriminate].
  destruct (pad_column cv d2 "tract" 6) as [d3|] eqn:E3; cbn [obind]; [|discriminate].
  cbn [obind]. intros H.
  apply (has_col_concat3 _ _ _ _ _ _ _ H).
  apply (proj2 (has_col_pad_column _ _ _ _ _ E3)).
  apply (proj2 (has_col_pad_column _ _ _ _ _ E2)).
  exact (proj1 (has_col_pad_column _ _ _ _ _ E1)).
Qed.

Lemma index_county_state (cv : conversions) (df d : DataFrame) :
  ETL.index_county cv df = Return d -> has_col "state" d = true.
Proof.
  unfold ETL.index_county.
  destruct (pad_column cv df "state" 2) as [d1|] eqn:E1; cbn [obind]; [|discriminate].
  destruct (pad_column cv d1 "county" 3) as [d2|] eqn:E2; cbn [obind]; [|discriminate].
  cbn [obind].
  destruct (concat2 d2 "FIPS" "state" "county") as [d3|] eqn:E3; cbn [obind];
    [|discriminate].
  cbn [obind]. intros H.
  apply (has_col_set_index _ _ _ _ H); [discriminate|].
  apply (has_col_concat2 _ _ _ _ _ _ E3).
  apply (proj2 (has_col_pad_column _ _ _ _ _ E2)).
  exact (proj1 (has_col_pad_column _ _ _ _ _ E1)).
Qed.

Lemma first_chunk_state (cv : conversions) (geo : string) (df d : DataFrame) :
  geo = "tract" \/ geo = "county" ->
  ETL.first_chunk cv geo df = Return d -> has_col "state" d = true.
Proof.
  intros [-> | ->]; unfold ETL.first_chunk; simpl.
  - apply key_tract_state.
  - apply index_county_state.
Qed.

Lemma next_chunk_state (cv : conversions) (geo : string) (df d : DataFrame) :
  geo = "tract" \/ geo = "county" ->
  ETL.next_chunk cv geo df = Return d -> has_col "state" d = true.
Proof.
  intros [-> | ->]; unfold ETL.next_chunk; simpl.
  - destruct (ETL.key_tract cv df) as [d1|] eqn:E; cbn [obind]; [|discriminate].
    cbn [obind]. intros H.
    apply (has_col_set_index _ _ _ _ H); [discriminate|].
    exact (key_tract_state _ _ _ E).
  - apply index_county_state.
Qed.

Lemma range0_two (n : nat) :
  50 < n -> exists rest, PyList.range0 n 50 = 0 :: 50 :: rest.
Proof.
  intros H. unfold PyList.range0.
  destruct n as [|[|n]]; [lia|lia|].
  cbn [PyList.range_from].
  destruct (Nat.ltb_spec 0 (S (S n))); [|lia].
  replace (0 + 50) with 50 by reflexivity.
  destruct (Nat.ltb_spec 50 (S (S n))); [|lia].
  eexists. reflexivity.
Qed.

End LargeTables.

Section OverTheLimit.

Variable sv : services.

Lemma fetch_over_limit (geo : string) (vars_list : list string) (w : world) :
  geo = "tract" \/ geo = "county" ->
  ETL.MAX_VARS_PER_CALL < List.length vars_list ->
  exists e w',
    ETL.fetch_geo_data sv vars_list geo w = (Raise e, w')
    /\ store w' = store w
    /\ writes w' = writes w
    /\ List.length (calls w') <= List.length (calls w) + 2.
Proof.
  intros Hgeo Hlen. unfold ETL.fetch_geo_data.
  assert (Hq : exists p, query_params geo = Return p).
  { destruct Hgeo as [-> | ->]; eexists; reflexivity. }
  destruct Hq as [p Hq]. rewrite Hq.
  destruct (range0_two _ Hlen) as [rest Hr].
  unfold ETL.MAX_VARS_PER_CALL at 1. rewrite Hr.
  cbn [for_each]. unfold ETL.chunk_body, bind, lift, ced_download, ret.
  cbn [fst snd calls store writes].
  destruct (download sv (List.length (calls w)) _) as [d1|e1].
  2:{ do 2 eexists. split; [reflexivity|]. cbn [calls store writes].
      rewrite length_app. simpl. repeat split; lia. }
  destruct (ETL.first_chunk (conv sv) geo d1) as [c1|e1] eqn:E1.
  2:{ do 2 eexists. split; [reflexivity|]. cbn [calls store writes].
      rewrite length_app. simpl. repeat split; lia. }
  cbn [fst snd calls store writes].
  destruct (download sv (List.length (calls w ++ _)) _) as [d2|e2].
  2:{ do 2 eexists. split; [reflexivity|]. cbn [calls store writes].
      rewrite !length_app. simpl. repeat split; lia. }
  destruct (ETL.next_chunk (conv sv) geo d2) as [c2|e2] eqn:E2.
  2:{ do 2 eexists. split; [reflexivity|]. cbn [calls store writes].
      rewrite !length_app. simpl. repeat split; lia. }
  rewrite (join_left_overlap c1 c2 "state"
             (first_chunk_state _ _ _ _ Hgeo E1)
             (next_chunk_state _ _ _ _ Hgeo E2)).
  do 2 eexists. split; [reflexivity|]. cbn [calls store writes].
  rewrite !length_app. simpl. repeat split; lia.
Qed.

End OverTheLimit.

Section RequestPrefix.

Variable sv : services.

(** Whatever its outcome, a fetch has issued the first groups, in order,
    and nothing else. *)
Lemma fetch_geo_data_prefix (vars_list : list string) (geo : string)
      (w : world) :
  exists k,
    map req_vars (calls (snd (ETL.fetch_geo_data sv vars_list geo w)))
    = map req_vars (calls w) ++ firstn k (ETL.chunks vars_list).
Proof.
  unfold ETL.fetch_geo_data, bind, lift.
  destruct (query_params geo) as [params|e].
  - destruct (chunk_loop_calls_prefix sv geo params vars_list
                (PyList.range0 (List.length vars_list) ETL.MAX_VARS_PER_CALL)
                None w) as [k Hk].
    exists k.
    destruct (for_each _ _ None w) as [[[d|]|e] w1]; simpl in *; rewrite Hk;
      rewrite map_app, map_map; unfold ETL.chunks; rewrite firstn_map;
      reflexivity.
  - exists 0. simpl. rewrite app_nil_r. reflexivity.
Qed.

Lemma has_col_coerce_column (cv : conversions) (df : DataFrame) (n c : string) :
  has_col c (coerce_column cv df n) = has_col c df.
Proof.
  rewrite !has_col_lookup, lookup_coerce_column.
  destruct (String.eqb c n); [|reflexivity].
  unfold coerced. destruct (lookup c (columns df)); reflexivity.
Qed.

Lemma has_col_coerce_numeric (cv : conversions) (df : DataFrame) (c : string) :
  has_col c (coerce_numeric cv df) = has_col c df.
Proof.
  unfold coerce_numeric. generalize (col_names df) as names. intros names.
  revert df. induction names as [|n names IH]; intros df; simpl.
  - reflexivity.
  - rewrite IH. apply has_col_coerce_column.
Qed.

Lemma standardize_state (cv : conversions) (geo : string) (df d : DataFrame) :
  geo = "tract" \/ geo = "county" ->
  AllGeos.standardize cv geo df = Return d -> has_col "state" d = true.
Proof.
  intros [-> | ->].
  - unfold AllGeos.standardize. cbn [String.eqb Ascii.eqb Bool.eqb].
    destruct (pad_column cv df "state" 2) as [d1|] eqn:E1; cbn [obind];
      [|discriminate].
    destruct (pad_column cv d1 "county" 3) as [d2|] eqn:E2; cbn [obind];
      [|discriminate].
    destruct (pad_column cv d2 "tract" 6) as [d3|] eqn:E3; cbn [obind];
      [|discriminate].
    destruct (concat3 d3 "GEOID" "state" "county" "tract") as [d4|] eqn:E4;
      cbn [obind]; [|discriminate].
    intros H. apply (has_col_set_index _ _ _ _ H); [discriminate|].
    apply (has_col_concat3 _ _ _ _ _ _ _ E4).
    apply (proj2 (has_col_pad_column _ _ _ _ _ E3)).
    apply (proj2 (has_col_pad_column _ _ _ _ _ E2)).
    exact (proj1 (has_col_pad_column _ _ _ _ _ E1)).
  - change (AllGeos.standardize cv "county" df)
      with (ETL.index_county cv df).
    apply index_county_state.
Qed.

Lemma fetch_data_chunk_state (vars_list : list string) (geo : string)
      (w : world) (d : DataFrame) :
  geo = "tract" \/ geo = "county" ->
  fst (AllGeos.fetch_data_chunk sv vars_list geo w) = Return d ->
  has_col "state" d = true.
Proof.
  intros Hgeo. unfold AllGeos.fetch_data_chunk, bind, lift, ret, ced_download.
  destruct (query_params geo) as [p|e]; [|discriminate].
  destruct (download sv (List.length (calls w)) _) as [a|e]; [|discriminate].
  cbn [fst snd].
  destruct (AllGeos.standardize (conv sv) geo a) as [b|e] eqn:E;
    [|discriminate].
  cbn [fst]. intros H. injection H as <-.
  rewrite has_col_coerce_numeric. exact (standardize_state _ _ _ _ Hgeo E).
Qed.

End RequestPrefix.

(** C5: the variable list is cut into consecutive groups of at most 50,
    ceil(N/50) of them, and laid end to end the groups are the list
    itself; but the fetch does not issue a request for each of them.  At
    tract and county level the frame of the first group and the frame of
    the second both keep the padded [state] column, their join raises,
    and the fetch ends there: for a list of more than 100 variables the
    requests issued are at most the first two groups, fewer than
    ceil(N/50), and the variables of the later groups are never asked
    for.  The join of the all-geographies script meets the same two
    frames. *)
Theorem C5_requests_stop_at_the_join (sv : services)
        (vars_list : list string) (geo : string) (w : world) :
  geo = "tract" \/ geo = "county" ->
  2 * ETL.MAX_VARS_PER_CALL < List.length vars_list ->
  Forall (fun c => List.length c <= 50) (ETL.chunks vars_list)
  /\ List.length (ETL.chunks vars_list) = (List.length vars_list + 49) / 50
  /\ List.concat (ETL.chunks vars_list) = vars_list
  /\ (exists e w' k,
        ETL.fetch_geo_data sv vars_list geo w = (Raise e, w')
        /\ k <= 2
        /\ k < List.length (ETL.chunks vars_list)
        /\ map req_vars (calls w')
           = map req_vars (calls w) ++ firstn k (ETL.chunks vars_list))
  /\ (forall v1 v2 w1 w2 d1 d2,
        fst (AllGeos.fetch_data_chunk sv v1 geo w1) = Return d1 ->
        fst (AllGeos.fetch_data_chunk sv v2 geo w2) = Return d2 ->
        join_left d1 d2
        = Raise (ValueError "columns overlap but no suffix specified")).
Proof.
  intros Hgeo Hlen. unfold ETL.MAX_VARS_PER_CALL in Hlen.
  assert (Hcount : 3 <= List.length (ETL.chunks vars_list)).
  { rewrite chunks_count.
    apply (Nat.div_le_lower_bound (List.length vars_list + 49) 50 3); lia. }
  split; [apply chunks_bounded|].
  split; [apply chunks_count|].
  split; [apply chunks_concat|].
  split.
  - destruct (fetch_over_limit sv geo vars_list w Hgeo) as [e [w' [Hf [_ [_ Hc]]]]];
      [unfold ETL.MAX_VARS_PER_CALL; lia|].
    destruct (fetch_geo_data_prefix sv vars_list geo w) as [k Hk].
    rewrite Hf in Hk. cbn [snd] in Hk.
    exists e, w', (List.length (firstn k (ETL.chunks vars_list))).
    assert (Hshort : List.length (firstn k (ETL.chunks vars_list)) <= 2).
    { apply (f_equal (@List.length _)) in Hk.
      rewrite length_app, !length_map in Hk. lia. }
    split; [exact Hf|]. split; [exact Hshort|]. split; [lia|].
    rewrite Hk. f_equal. symmetry.
    rewrite length_firstn.
    destruct (Nat.le_ge_cases k (List.length (ETL.chunks vars_list)))
      as [Hle|Hge].
    + rewrite Nat.min_l by exact Hle. reflexivity.
    + rewrite Nat.min_r by exact Hge.
      rewrite !firstn_all2; [reflexivity|exact Hge|lia].
  - intros v1 v2 w1 w2 d1 d2 H1 H2.
    exact (join_left_overlap d1 d2 "state"
             (fetch_data_chunk_state sv v1 geo w1 d1 Hgeo H1)
             (fetch_data_chunk_state sv v2 geo w2 d2 Hgeo H2)).
Qed.

(** The 51 estimate codes of the samples with their margins of error,
    102 variables, at county level: three groups, two requests, and the
    columns-overlap error of the join; the two codes of the third group
    are never requested. *)
Lemma C5_requests_stop_at_the_join_witness :
  let vars_list := Samples.codes51 ++ ETL.moe_codes Samples.codes51 in
  let r := ETL.fetch_geo_data Samples.sv_census vars_list "county"
                              empty_world in
  List.length (ETL.chunks vars_list) = 3
  /\ fst r = Raise (ValueError "columns overlap but no suffix specified")
  /\ map req_vars (calls (snd r)) = firstn 2 (ETL.chunks vars_list)
  /\ exists e w' k,
       r = (Raise e, w')
       /\ k <= 2
       /\ map req_vars (calls w') = firstn k (ETL.chunks vars_list).
Proof.
  intros vars_list r.
  assert (Hlen : 2 * ETL.MAX_VARS_PER_CALL < List.length vars_list).
  { unfold vars_list, ETL.moe_codes, Samples.codes51, ETL.MAX_VARS_PER_CALL.
    rewrite length_app, !length_map, length_seq. lia. }
  split; [vm_compute; reflexivity|].
  split; [vm_compute; reflexivity|].
  split; [vm_compute; reflexivity|].
  destruct (C5_requests_stop_at_the_join Samples.sv_census vars_list "county"
              empty_world (or_intror eq_refl) Hlen)
    as [_ [_ [_ [[e [w' [k [Hf [Hk [_ Hc]]]]]] _]]]].
  exists e, w', k. split; [exact Hf|]. split; [exact Hk|exact Hc].
Defined.

(** X12: a table over the request limit does not get through at tract or
    county level.  The frames of two chunks both keep the [state] column
    that the padding needed, so their join raises [ValueError] (columns
    overlap, no suffix); hence a fetch of more than 50 variables at tract
    or county level always ends in an exception, after at most two
    requests and without touching the sink; and since the loop over the
    levels starts with the tracts, a table of more than 25 estimate
    variables (more than 50 with the margins of error) ends the
    notebook's loop with an exception before anything is written. *)
Theorem X12_tables_over_the_limit_fail (sv : services) (table_id : string)
        (var_codes : list string) (w : world) :
  25 < List.length var_codes ->
  (forall geo d1 d2 c1 c2,
      geo = "tract" \/ geo = "county" ->
      ETL.first_chunk (conv sv) geo d1 = Return c1 ->
      ETL.next_chunk (conv sv) geo d2 = Return c2 ->
      join_left c1 c2
      = Raise (ValueError "columns overlap but no suffix specified"))
  /\ (forall geo vars_list w0,
         geo = "tract" \/ geo = "county" ->
         ETL.MAX_VARS_PER_CALL < List.length vars_list ->
         exists e w',
           ETL.fetch_geo_data sv vars_list geo w0 = (Raise e, w')
           /\ store w' = store w0
           /\ writes w' = writes w0
           /\ List.length (calls w') <= List.length (calls w0) + 2)
  /\ exists e w',
       ETL.table_body sv (table_id, var_codes) tt w = (Raise e, w')
       /\ store w' = store w
       /\ writes w' = writes w
       /\ List.length (calls w') <= List.length (calls w) + 2.
Proof.
  intros Hlen. split; [|split].
  - intros geo d1 d2 c1 c2 Hgeo H1 H2.
    exact (join_left_overlap c1 c2 "state"
             (first_chunk_state _ _ _ _ Hgeo H1)
             (next_chunk_state _ _ _ _ Hgeo H2)).
  - intros geo vars_list w0. apply fetch_over_limit.
  - unfold ETL.table_body.
    assert (Hall : ETL.MAX_VARS_PER_CALL
                   < List.length (var_codes ++ ETL.moe_codes var_codes)).
    { unfold ETL.MAX_VARS_PER_CALL, ETL.moe_codes.
      rewrite length_app, length_map. lia. }
    destruct (var_codes ++ ETL.moe_codes var_codes) as [|v all_vars] eqn:E;
      [simpl in Hall; lia|].
    unfold ETL.geographies. cbn [for_each]. unfold ETL.unit_body.
    destruct (fetch_over_limit sv "tract" (v :: all_vars) w
                (or_introl eq_refl) Hall) as [e [w' [Hf Hw]]].
    exists e, w'. unfold bind at 1 2. rewrite Hf. split; [reflexivity|exact Hw].
Qed.

(** Fifty-one estimate codes from the sample source: the loop of their
    table stops with the join's [ValueError] and the sink stays empty. *)
Lemma X12_tables_over_the_limit_fail_witness :
  25 < List.length Samples.codes51
  /\ exists e w',
       ETL.table_body Samples.sv_census ("B01001", Samples.codes51) tt
                      empty_world = (Raise e, w')
       /\ store w' = []
       /\ writes w' = 0.
Proof.
  assert (H : 25 < List.length Samples.codes51).
  { unfold Samples.codes51. rewrite length_map, length_seq. lia. }
  split; [exact H|].
  destruct (X12_tables_over_the_limit_fail Samples.sv_census "B01001"
              Samples.codes51 empty_world H)
    as [_ [_ [e [w' [Ht [Hs [Hw _]]]]]]].
  exists e, w'. split; [exact Ht|]. split; [exact Hs|exact Hw].
Defined.

(** ** Geometry as text *)

Section GeometryText.

Lemma apply_wkt_shapes (g : Series) :
  forallb is_shape g = true -> ETL.apply_wkt g = Return (map wkt_cell g).
Proof.
  induction g as [|c g IH]; simpl; intros H; [reflexivity|].
  apply andb_true_iff in H. destruct H as [Hc Hg]. rewrite (IH Hg).
  destruct c; try discriminate Hc; reflexivity.
Qed.

Lemma apply_wkt_other (g : Series) :
  forallb is_shape g = false -> ETL.apply_wkt g = Raise (AttributeError "wkt").
Proof.
  induction g as [|c g IH]; simpl; intros H; [discriminate|].
  destruct c; simpl in *; try reflexivity; rewrite (IH H); reflexivity.
Qed.

Lemma has_col_without (c : string) (cols : list (string * Series)) :
  existsb (String.eqb c) (map fst (without c cols)) = false.
Proof.
  induction cols as [|[n v] cols IH]; simpl; [reflexivity|].
  destruct (String.eqb c n) eqn:E; simpl; [exact IH|].
  rewrite E. exact IH.
Qed.

End GeometryText.

(** X13: geometry as text (lines 242-244 of the notebook).  A frame
    without a [geometry] column is left as it is.  With one whose cells
    are shapes or [None], the step returns a frame that has no
    [geometry] column any more, whose [geometry_wkt] column holds the
    text of each shape ([None] stays [None]), and whose index and other
    columns are unchanged.  A cell of any other kind in the column (the
    missing value of a float column, a number, a text) makes the step
    raise [AttributeError]. *)
Theorem X13_geometry_becomes_text (df : DataFrame) :
  (has_col "geometry" df = false -> ETL.geometry_to_wkt df = Return df)
  /\ (forall g,
         lookup "geometry" (columns df) = Some g ->
         forallb is_shape g = true ->
         exists d,
           ETL.geometry_to_wkt df = Return d
           /\ has_col "geometry" d = false
           /\ lookup "geometry_wkt" (columns d) = Some (map wkt_cell g)
           /\ index d = index df
           /\ index_name d = index_name df
           /\ forall c, c <> "geometry" -> c <> "geometry_wkt" ->
                         lookup c (columns d) = lookup c (columns df))
  /\ (forall g,
         lookup "geometry" (columns df) = Some g ->
         forallb is_shape g = false ->
         ETL.geometry_to_wkt df = Raise (AttributeError "wkt")).
Proof.
  split; [|split].
  - intros H. unfold ETL.geometry_to_wkt. rewrite H. reflexivity.
  - intros g Hg Hs. unfold ETL.geometry_to_wkt, getitem.
    rewrite has_col_lookup, Hg. cbn [obind].
    rewrite (apply_wkt_shapes g Hs). cbn [obind]. unfold drop.
    rewrite (has_col_setitem df "geometry" "geometry_wkt" (map wkt_cell g))
      by (rewrite has_col_lookup, Hg; reflexivity).
    eexists. split; [reflexivity|]. split; [|split; [|split; [|split]]].
    + unfold has_col, col_names. cbn [columns]. apply has_col_without.
    + cbn [columns]. rewrite lookup_without by discriminate.
      apply lookup_setitem_same.
    + reflexivity.
    + reflexivity.
    + intros c Hc Hw. cbn [columns]. rewrite (lookup_without _ _ _ Hc).
      apply (lookup_setitem_other df c "geometry_wkt" _ Hw).
  - intros g Hg Hs. unfold ETL.geometry_to_wkt, getitem.
    rewrite has_col_lookup, Hg. cbn [obind].
    rewrite (apply_wkt_other g Hs). reflexivity.
Qed.

(** Two states, one without a shape: the text of the first, [None] for
    the second, and no [geometry] column left. *)
Lemma X13_geometry_becomes_text_witness :
  exists d,
    ETL.geometry_to_wkt MoreSamples.shapes = Return d
    /\ has_col "geometry" d = false
    /\ lookup "geometry_wkt" (columns d) = Some [CStr "POLYGON A"; CNone]
    /\ lookup "NAME" (columns d) = Some [CStr "First"; CStr "Second"].
Proof.
  destruct (proj1 (proj2 (X13_geometry_becomes_text MoreSamples.shapes))
              [CGeom "POLYGON A"; CNone] eq_refl eq_refl)
    as [d [Hd [Hg [Hw [_ [_ Ho]]]]]].
  exists d. split; [exact Hd|]. split; [exact Hg|]. split; [exact Hw|].
  rewrite Ho by discriminate. reflexivity.
Defined.

(** ** The two derivations of a margin-of-error code *)

Section MoeDerivations.

Lemma replace_length (old new : ascii) (s : string) :
  String.length (PyStr.replace old new s) = String.length s.
Proof. induction s as [|c s IH]; simpl; [reflexivity|rewrite IH; reflexivity]. Qed.

Lemma append_same_length (s s' t t' : string) :
  String.length s = String.length s' ->
  (s ++ t)%string = (s' ++ t')%string -> s = s'.
Proof.
  revert s'. induction s as [|c s IH]; intros [|c' s']; simpl;
    try discriminate; intros Hl H; [reflexivity|].
  injection H as -> H. injection Hl as Hl. rewrite (IH s' Hl H). reflexivity.
Qed.

Lemma replace_fixed (s : string) :
  PyStr.replace "E" "M" s = s ->
  PyStr.all_chars (fun c => negb (Ascii.eqb c "E")) s = true.
Proof.
  induction s as [|c s IH]; simpl; intros H; [reflexivity|].
  injection H as Hc Hs. rewrite (IH Hs).
  destruct (Ascii.eqb_spec c "E") as [->|_]; [discriminate Hc|reflexivity].
Qed.

Lemma replace_leaves_none (s : string) :
  PyStr.all_chars (fun c => negb (Ascii.eqb c "E")) (PyStr.replace "E" "M" s)
  = true.
Proof.
  induction s as [|c s IH]; simpl; [reflexivity|]. rewrite IH.
  destruct (Ascii.eqb_spec c "E") as [->|Hne]; [reflexivity|].
  destruct (Ascii.eqb_spec c "E"); [contradiction|reflexivity].
Qed.

Lemma sub_at_end_other (body : string) (c : ascii) :
  c <> "E"%char -> c <> PyStr.newline ->
  PyStr.sub_at_end "E" "M" (body ++ String c EmptyString)
  = (body ++ String c EmptyString)%string.
Proof.
  intros He Hn. unfold PyStr.sub_at_end. rewrite rev_app_char.
  destruct (Ascii.eqb_spec c "E"); [contradiction|].
  destruct (Ascii.eqb_spec c PyStr.newline); [contradiction|reflexivity].
Qed.

End MoeDerivations.

(** X14: the two derivations of a margin-of-error code.  The pattern
    [E$] of the all-geographies script turns the final [E] of an estimate
    code into [M] and touches nothing else, and it leaves a code that
    ends in [M] alone.  [v.replace("E", "M")], which both loops use,
    gives the same code exactly when the part before the final [E] has
    no [E]; in general it keeps the length, leaves no [E] anywhere, and
    is the identity exactly on texts without [E].  So the lists of the
    two derivations agree on codes whose only [E] is the last
    character. *)
Theorem X14_moe_derivations (body : string) :
  AllGeos.MOE_VAR (body ++ "E") = (body ++ "M")%string
  /\ AllGeos.MOE_VAR (body ++ "M") = (body ++ "M")%string
  /\ (PyStr.replace "E" "M" (body ++ "E") = AllGeos.MOE_VAR (body ++ "E")
      <-> PyStr.all_chars (fun c => negb (Ascii.eqb c "E")) body = true)
  /\ String.length (PyStr.replace "E" "M" body) = String.length body
  /\ PyStr.all_chars (fun c => negb (Ascii.eqb c "E"))
                     (PyStr.replace "E" "M" body) = true
  /\ (PyStr.replace "E" "M" body = body
      <-> PyStr.all_chars (fun c => negb (Ascii.eqb c "E")) body = true)
  /\ (forall bodies,
         Forall (fun b => PyStr.all_chars (fun c => negb (Ascii.eqb c "E")) b
                          = true) bodies ->
         ETL.moe_codes (map (fun b => (b ++ "E")%string) bodies)
         = map AllGeos.MOE_VAR (map (fun b => (b ++ "E")%string) bodies)
         /\ AllGeos.table_moes (map (fun b => (b ++ "E")%string) bodies)
            = map (fun b => (b ++ "M")%string) bodies).
Proof.
  unfold AllGeos.MOE_VAR.
  split; [apply sub_at_end_final|].
  split; [apply sub_at_end_other; [discriminate|vm_compute; discriminate]|].
  split; [|split; [apply replace_length|split; [apply replace_leaves_none|]]].
  - rewrite sub_at_end_final. split.
    + intros H. rewrite replace_app in H. apply replace_fixed.
      apply (append_same_length _ _ _ _ (replace_length _ _ _) H).
    + apply replace_only_final.
  - split.
    + split; [apply replace_fixed|apply replace_absent].
    + intros bodies Hb. unfold ETL.moe_codes, AllGeos.table_moes.
      rewrite !map_map. split; apply map_ext_in; intros b Hin;
        rewrite Forall_forall in Hb;
        rewrite (replace_only_final b (Hb b Hin));
        [rewrite sub_at_end_final|]; reflexivity.
Qed.

(** The code of table [B06004E]: its body has an [E], and the two
    derivations differ; for [B01003_001E] they agree. *)
Lemma X14_moe_derivations_witness :
  PyStr.replace "E" "M" "B06004E_001E" <> AllGeos.MOE_VAR "B06004E_001E"
  /\ PyStr.replace "E" "M" "B01003_001E" = AllGeos.MOE_VAR "B01003_001E".
Proof.
  split.
  - intros H.
    pose proof (proj1 (proj1 (proj2 (proj2
                 (X14_moe_derivations "B06004E_001"))) ) H) as Hn.
    discriminate Hn.
  - exact (proj2 (proj1 (proj2 (proj2 (X14_moe_derivations "B01003_001"))))
             eq_refl).
Defined.

(** ** One request: the notebook and the all-geographies script *)

Section SingleRequest.

Lemma range0_one (n : nat) :
  0 < n -> n <= 50 -> PyList.range0 n 50 = [0].
Proof.
  intros H0 H50. unfold PyList.range0. destruct n as [|n]; [lia|].
  cbn [PyList.range_from]. destruct (Nat.ltb_spec 0 (S n)); [|lia].
  f_equal. destruct n as [|n]; [reflexivity|].
  cbn [PyList.range_from]. replace (0 + 50) with 50 by reflexivity.
  destruct (Nat.ltb_spec 50 (S (S n))); [lia|reflexivity].
Qed.

Lemma chunk_at_all {A} (l : list A) :
  List.length l <= 50 -> ETL.chunk_at l 0 = l.
Proof.
  intros H. unfold ETL.chunk_at, PyList.slice, ETL.MAX_VARS_PER_CALL.
  cbn [skipn]. apply firstn_all2. lia.
Qed.

Lemma prefix_contains (p s : string) :
  PyStr.startswith p s = true -> PyStr.contains p s = true.
Proof.
  unfold PyStr.startswith. intros H.
  destruct s as [|c s]; cbn [PyStr.contains]; rewrite H; reflexivity.
Qed.

Lemma first_chunk_standardize (cv : conversions) (geo : string)
      (df : DataFrame) :
  geo = "county" \/ geo = "state" ->
  ETL.first_chunk cv geo df = AllGeos.standardize cv geo df.
Proof. intros [-> | ->]; reflexivity. Qed.

Lemma single_request (sv : services) (vars_list : list string) (geo : string)
      (w : world) :
  0 < List.length vars_list -> List.length vars_list <= 50 ->
  ETL.fetch_geo_data sv vars_list geo w
  = (params <- lift (query_params geo) ;;
     df <- ced_download sv (mkReq vars_list params) ;;
     df <- lift (ETL.first_chunk (conv sv) geo df) ;;
     ret (coerce_numeric (conv sv) df)) w.
Proof.
  intros H0 H50. unfold ETL.fetch_geo_data, ETL.MAX_VARS_PER_CALL.
  rewrite (range0_one _ H0 H50). cbn [for_each].
  unfold ETL.chunk_body. rewrite (chunk_at_all _ H50).
  unfold bind, lift, ret.
  destruct (query_params geo) as [p|e]; [|reflexivity].
  destruct (ced_download sv (mkReq vars_list p) w) as [[d|e] w1];
    [|reflexivity].
  destruct (ETL.first_chunk (conv sv) geo d); reflexivity.
Qed.

End SingleRequest.

(** X15: with at most fifty variables the fetch of the notebook is one
    request, and at county and state level it is the fetch of the
    all-geographies script: the same request, the same frame or the same
    exception, the same world afterwards.  At zcta level the two differ
    only in the test that finds the code column (the notebook wants a
    name that starts with [zip], the script one that contains it): every
    column the notebook accepts the script accepts too, and the two
    fetches agree whenever the two tests agree on the columns of the
    answer. *)
Theorem X15_single_request_agreement (sv : services)
        (vars_list : list string) (w : world) :
  0 < List.length vars_list ->
  List.length vars_list <= ETL.MAX_VARS_PER_CALL ->
  (forall geo, geo = "county" \/ geo = "state" ->
               ETL.fetch_geo_data sv vars_list geo w
               = AllGeos.fetch_data_chunk sv vars_list geo w)
  /\ (forall c, ETL.is_zcta_column c = true ->
                AllGeos.is_zcta_column c = true)
  /\ ((forall d, download sv (List.length (calls w))
                          (mkReq vars_list [("zip_code_tabulation_area", "*")])
                 = Return d ->
                 filter ETL.is_zcta_column (col_names d)
                 = filter AllGeos.is_zcta_column (col_names d)) ->
      ETL.fetch_geo_data sv vars_list "zcta" w
      = AllGeos.fetch_data_chunk sv vars_list "zcta" w)
  /\ (forall geo, calls (snd (ETL.fetch_geo_data sv vars_list geo w)) = calls w
                  \/ exists params,
                       calls (snd (ETL.fetch_geo_data sv vars_list geo w))
                       = calls w ++ [mkReq vars_list params]).
Proof.
  intros H0 H50. unfold ETL.MAX_VARS_PER_CALL in H50.
  split; [|split; [|split]].
  - intros geo Hgeo. rewrite (single_request sv vars_list geo w H0 H50).
    unfold AllGeos.fetch_data_chunk, bind, lift, ret.
    destruct (query_params geo) as [p|e]; [|reflexivity].
    destruct (ced_download sv (mkReq vars_list p) w) as [[d|e] w1];
      [|reflexivity].
    rewrite (first_chunk_standardize _ _ _ Hgeo). reflexivity.
  - intros c. unfold ETL.is_zcta_column, AllGeos.is_zcta_column.
    intros H. apply orb_true_iff in H. apply orb_true_iff.
    destruct H as [H|H]; [left; apply prefix_contains; exact H|right; exact H].
  - intros Hsame. rewrite (single_request sv vars_list "zcta" w H0 H50).
    unfold AllGeos.fetch_data_chunk, bind, lift, ret.
    change (query_params "zcta")
      with (@Return (list (string * string))
                    [("zip_code_tabulation_area", "*")]).
    cbv beta iota. unfold ced_download.
    destruct (download sv (List.length (calls w))
                       (mkReq vars_list [("zip_code_tabulation_area", "*")]))
      as [d|e] eqn:E; [|reflexivity].
    assert (Hz : ETL.first_chunk (conv sv) "zcta" d
                 = AllGeos.standardize (conv sv) "zcta" d).
    { change (ETL.first_chunk (conv sv) "zcta" d)
        with (ETL.index_zcta (conv sv) d).
      unfold ETL.index_zcta, first_column. rewrite (Hsame d eq_refl).
      reflexivity. }
    rewrite Hz. reflexivity.
  - intros geo. rewrite (single_request sv vars_list geo w H0 H50).
    unfold bind, lift, ret.
    destruct (query_params geo) as [p|e]; [|left; reflexivity].
    right. exists p. unfold ced_download.
    destruct (download sv (List.length (calls w)) (mkReq vars_list p));
      [|reflexivity].
    destruct (ETL.first_chunk (conv sv) geo a); reflexivity.
Qed.

(** The population count of the sample source at state level: one
    request, and the same answer from both scripts. *)
Lemma X15_single_request_agreement_witness :
  ETL.fetch_geo_data Samples.sv_census ["B01003_001E"; "B01003_001M"]
                     "state" empty_world
  = AllGeos.fetch_data_chunk Samples.sv_census ["B01003_001E"; "B01003_001M"]
                             "state" empty_world.
Proof.
  assert (H0 : 0 < List.length ["B01003_001E"; "B01003_001M"])
    by (simpl; lia).
  assert (H50 : List.length ["B01003_001E"; "B01003_001M"]
                <= ETL.MAX_VARS_PER_CALL)
    by (unfold ETL.MAX_VARS_PER_CALL; simpl; lia).
  exact (proj1 (X15_single_request_agreement Samples.sv_census
                  ["B01003_001E"; "B01003_001M"] empty_world H0 H50)
               "state" (or_intror eq_refl)).
Defined.

(** ** The single-county script, from the request to the file *)

Section SingleCountyFacts.

Variable cv : conversions.

Lemma numeric_step_present (df : DataFrame) (n : string) (v : Series) :
  n <> "NAME" -> lookup n (columns df) = Some v ->
  SingleCounty.numeric_step cv df n
  = Return (setitem df n (to_numeric cv v)).
Proof.
  intros Hn Hv. unfold SingleCounty.numeric_step, getitem.
  destruct (String.eqb_spec n "NAME") as [E|_]; [contradiction|].
  rewrite Hv. reflexivity.
Qed.

Lemma numeric_loop_spec (names : list string) :
  NoDup names -> ~ In "NAME" names ->
  forall df,
    (forall c, In c names -> lookup c (columns df) <> None) ->
    exists df',
      SingleCounty.numeric_loop cv names df = Return df'
      /\ index df' = index df
      /\ forall c,
           lookup c (columns df')
           = if in_dec string_dec c names
             then option_map (to_numeric cv) (lookup c (columns df))
             else lookup c (columns df).
Proof.
  induction names as [|n names IH]; intros Hnd Hname df Hpre.
  - exists df. repeat split.
  - inversion Hnd as [|n' names' Hn Hnd']; subst.
    destruct (lookup n (columns df)) as [v|] eqn:Hv;
      [|exfalso; apply (Hpre n (or_introl eq_refl)); exact Hv].
    cbn [SingleCounty.numeric_loop].
    rewrite (numeric_step_present df n v) by
      (try exact Hv; intros ->; apply Hname; left; reflexivity).
    cbn [obind].
    destruct (IH Hnd' (fun H => Hname (or_intror H))
                 (setitem df n (to_numeric cv v))) as [df' [Hl [Hi Hc]]].
    { intros c Hin. rewrite lookup_setitem_other.
      - apply Hpre. right. exact Hin.
      - intros ->. contradiction. }
    exists df'. split; [exact Hl|]. split; [rewrite Hi; reflexivity|].
    intros c. rewrite Hc.
    destruct (string_dec n c) as [<-|Hne].
    + destruct (in_dec string_dec n names) as [Hin|_]; [contradiction|].
      rewrite lookup_setitem_same, Hv.
      destruct (in_dec string_dec n (n :: names)) as [_|Hout];
        [reflexivity|exfalso; apply Hout; left; reflexivity].
    + rewrite lookup_setitem_other by congruence.
      destruct (in_dec string_dec c names) as [Hin|Hout];
        destruct (in_dec string_dec c (n :: names)) as [Hin'|Hout'];
        try reflexivity; exfalso.
      * apply Hout'. right. exact Hin.
      * destruct Hin' as [E|Hin']; [exact (Hne E)|exact (Hout Hin')].
Qed.

Lemma numeric_loop_missing (pre : list string) (c : string)
      (post : list string) :
  ~ In "NAME" (pre ++ [c]) ->
  forall df,
    (forall x, In x pre -> lookup x (columns df) <> None) ->
    lookup c (columns df) = None ->
    SingleCounty.numeric_loop cv (pre ++ c :: post) df = Raise (KeyError c).
Proof.
  induction pre as [|n pre IH]; intros Hname df Hpre Hc.
  - cbn [app SingleCounty.numeric_loop]. unfold SingleCounty.numeric_step.
    destruct (String.eqb_spec c "NAME") as [->|_];
      [exfalso; apply Hname; left; reflexivity|].
    unfold getitem. rewrite Hc. reflexivity.
  - destruct (lookup n (columns df)) as [v|] eqn:Hv;
      [|exfalso; apply (Hpre n (or_introl eq_refl)); exact Hv].
    cbn [app SingleCounty.numeric_loop].
    rewrite (numeric_step_present df n v) by
      (try exact Hv; intros ->; apply Hname; left; reflexivity).
    cbn [obind]. apply IH.
    + intros H. apply Hname. right. exact H.
    + intros x Hx. cbn [setitem columns]. rewrite lookup_assign.
      destruct (String.eqb x n); [discriminate|].
      apply Hpre. right. exact Hx.
    + rewrite lookup_setitem_other; [exact Hc|].
      intros ->. rewrite Hv in Hc. discriminate.
Qed.

(** The three pairs, once their six columns are numeric: no step can
    fail, and each writes its two columns. *)
Lemma pair_loop_numeric (df : DataFrame) (p pm h hm r rm : Series)
      (fp fpm fh fhm fr frm : list spec_float) :
  lookup "TotalPopulation" (columns df) = Some p ->
  lookup "TotalPopulation_MOE" (columns df) = Some pm ->
  lookup "MedianHouseholdIncome" (columns df) = Some h ->
  lookup "MedianHouseholdIncome_MOE" (columns df) = Some hm ->
  lookup "MedianMonthlyRent" (columns df) = Some r ->
  lookup "MedianMonthlyRent_MOE" (columns df) = Some rm ->
  as_floats p = Return fp -> as_floats pm = Return fpm ->
  as_floats h = Return fh -> as_floats hm = Return fhm ->
  as_floats r = Return fr -> as_floats rm = Return frm ->
  EnvSetup.pair_loop EnvSetup.estimate_moe_pairs df
  = Return
      (setitem
         (setitem
            (setitem
               (setitem
                  (setitem
                     (setitem df "TotalPopulation_SE"
                        (map (fun x => CFloat (F64.div x F64.c1_645)) fpm))
                     "TotalPopulation_CV" (cv_rows fpm fp))
                  "MedianHouseholdIncome_SE"
                  (map (fun x => CFloat (F64.div x F64.c1_645)) fhm))
               "MedianHouseholdIncome_CV" (cv_rows fhm fh))
            "MedianMonthlyRent_SE"
            (map (fun x => CFloat (F64.div x F64.c1_645)) frm))
         "MedianMonthlyRent_CV" (cv_rows frm fr)).
Proof.
  intros Hp Hpm Hh Hhm Hr Hrm Fp Fpm Fh Fhm Fr Frm.
  unfold EnvSetup.estimate_moe_pairs. cbn [EnvSetup.pair_loop].
  rewrite (pair_step_spec _ _ df pm p fpm fp Hpm Hp Fpm Fp). cbn [obind].
  rewrite (pair_step_spec "MedianHouseholdIncome" "MedianHouseholdIncome_MOE"
             _ hm h fhm fh)
    by (try assumption;
        rewrite !lookup_setitem_other by discriminate; assumption).
  cbn [obind].
  rewrite (pair_step_spec "MedianMonthlyRent" "MedianMonthlyRent_MOE"
             _ rm r frm fr)
    by (try assumption;
        rewrite !lookup_setitem_other by discriminate; assumption).
  reflexivity.
Qed.

End SingleCountyFacts.

Section SingleCountyRun.

Variable sv : services.

Lemma run_after_download (w : world) (d : DataFrame) :
  download sv (List.length (calls w)) SingleCounty.tracts_request = Return d ->
  SingleCounty.run sv w
  = (gdf <- lift (SingleCounty.numeric_loop (conv sv)
                    (map snd SingleCounty.column_renames)
                    (SingleCounty.rename_columns SingleCounty.column_renames d)) ;;
     gdf <- lift (EnvSetup.pair_loop EnvSetup.estimate_moe_pairs gdf) ;;
     write sv (SingleCounty.lakehouse_path ++ SingleCounty.output_filename)
           (SingleCounty.without_index gdf) None)
      (mkWorld (calls w ++ [SingleCounty.tracts_request]) (sleeps w)
               (writes w) (store w)).
Proof.
  intros H. unfold SingleCounty.run. unfold bind at 1. unfold ced_download.
  rewrite H. reflexivity.
Qed.

Lemma friendly_names :
  NoDup (map snd SingleCounty.column_renames)
  /\ ~ In "NAME" (map snd SingleCounty.column_renames).
Proof.
  split.
  - simpl.
    repeat (constructor;
            [simpl; intros H;
             repeat (destruct H as [H|H]; [discriminate H|]); exact H|]).
    constructor.
  - simpl. intros H.
    repeat (destruct H as [H|H]; [discriminate H|]). exact H.
Qed.

End SingleCountyRun.

(** X16: the single-county script from the request to the file.  It
    issues one request and never sleeps.  When the answer, after the
    renaming, lacks one of the six friendly columns, the coercion loop
    raises [KeyError] for the first one missing and nothing is written.
    When all six are there, nothing between the download and the write
    can fail: the six columns become numeric, every estimate gets its
    [_SE] column ([MOE / 1.645]) and its [_CV] column, and the frame is
    written without its index under the one file name, unless the write
    itself fails, which leaves the sink as it was. *)
Theorem X16_single_county_run (sv : services) (w : world) (d : DataFrame) :
  download sv (List.length (calls w)) SingleCounty.tracts_request = Return d ->
  NoDup (col_names (SingleCounty.rename_columns SingleCounty.column_renames d)) ->
  let g := SingleCounty.rename_columns SingleCounty.column_renames d in
  let r := SingleCounty.run sv w in
  calls (snd r) = calls w ++ [SingleCounty.tracts_request]
  /\ sleeps (snd r) = sleeps w
  /\ (forall pre c post,
         map snd SingleCounty.column_renames = pre ++ c :: post ->
         (forall x, In x pre -> has_col x g = true) ->
         has_col c g = false ->
         fst r = Raise (KeyError c)
         /\ store (snd r) = store w /\ writes (snd r) = writes w)
  /\ ((forall c, In c (map snd SingleCounty.column_renames) ->
                 has_col c g = true) ->
      exists out,
        (forall est moe,
            In (est, moe) EnvSetup.estimate_moe_pairs ->
            exists ve vm es ms,
              lookup est (columns g) = Some ve
              /\ lookup moe (columns g) = Some vm
              /\ as_floats (to_numeric (conv sv) ve) = Return es
              /\ as_floats (to_numeric (conv sv) vm) = Return ms
              /\ lookup est (columns out) = Some (to_numeric (conv sv) ve)
              /\ lookup moe (columns out) = Some (to_numeric (conv sv) vm)
              /\ lookup (est ++ "_SE") (columns out)
                 = Some (map (fun x => CFloat (F64.div x F64.c1_645)) ms)
              /\ lookup (est ++ "_CV") (columns out) = Some (cv_rows ms es))
        /\ match write_error sv (writes w)
                   (SingleCounty.lakehouse_path ++ SingleCounty.output_filename)
                   (SingleCounty.without_index out) with
           | None =>
               fst r = Return tt
               /\ store (snd r)
                  = store_put
                      (SingleCounty.lakehouse_path ++ SingleCounty.output_filename)
                      (mkDataset (SingleCounty.without_index out) None)
                      (store w)
           | Some e => fst r = Raise e /\ store (snd r) = store w
           end).
Proof.
  intros Hd _ g r. unfold r. rewrite (run_after_download sv w d Hd).
  fold g. destruct friendly_names as [Hnd Hname].
  assert (Hcalls :
            forall df,
              let r' :=
                (gdf <- lift (EnvSetup.pair_loop EnvSetup.estimate_moe_pairs df) ;;
                 write sv (SingleCounty.lakehouse_path
                           ++ SingleCounty.output_filename)
                       (SingleCounty.without_index gdf) None)
                  (mkWorld (calls w ++ [SingleCounty.tracts_request])
                           (sleeps w) (writes w) (store w)) in
              calls (snd r') = calls w ++ [SingleCounty.tracts_request]
              /\ sleeps (snd r') = sleeps w).
  { intros df. unfold bind, lift, write. cbn [fst snd].
    destruct (EnvSetup.pair_loop EnvSetup.estimate_moe_pairs df) as [o|e];
      cbn [fst snd writes]; [|split; reflexivity].
    destruct (write_error sv (writes w) _ _); split; reflexivity. }
  split; [|split; [|split]].
  - unfold bind at 1. unfold lift at 1.
    destruct (SingleCounty.numeric_loop _ _ g) as [df|e]; [|reflexivity].
    exact (proj1 (Hcalls df)).
  - unfold bind at 1. unfold lift at 1.
    destruct (SingleCounty.numeric_loop _ _ g) as [df|e]; [|reflexivity].
    exact (proj2 (Hcalls df)).
  - intros pre c post Hsplit Hpre Hc. unfold bind at 1. unfold lift at 1.
    rewrite Hsplit.
    rewrite (numeric_loop_missing (conv sv) pre c post).
    + repeat split.
    + intros Hin. apply Hname. rewrite Hsplit.
      apply in_app_or in Hin. apply in_or_app.
      destruct Hin as [Hin|[<-|[]]]; [left; exact Hin|right; left; reflexivity].
    + intros x Hx. pose proof (Hpre x Hx) as Hx'.
      rewrite has_col_lookup in Hx'.
      destruct (lookup x (columns g)); [discriminate|discriminate Hx'].
    + rewrite has_col_lookup in Hc.
      destruct (lookup c (columns g)); [discriminate Hc|reflexivity].
  - intros Hall.
    assert (Hget : forall c, In c (map snd SingleCounty.column_renames) ->
                             exists v, lookup c (columns g) = Some v).
    { intros c Hc. pose proof (Hall c Hc) as H. rewrite has_col_lookup in H.
      destruct (lookup c (columns g)) as [v|]; [exists v; reflexivity|discriminate H]. }
    destruct (numeric_loop_spec (conv sv) _ Hnd Hname g) as [df [Hloop [_ Hlook]]].
    { intros c Hc. destruct (Hget c Hc) as [v Hv]. rewrite Hv. discriminate. }
    assert (Hnum : forall c v, In c (map snd SingleCounty.column_renames) ->
                     lookup c (columns g) = Some v ->
                     lookup c (columns df) = Some (to_numeric (conv sv) v)
                     /\ exists fs, as_floats (to_numeric (conv sv) v) = Return fs).
    { intros c v Hc Hv. split.
      - rewrite Hlook.
        destruct (in_dec string_dec c (map snd SingleCounty.column_renames));
          [rewrite Hv; reflexivity|contradiction].
      - apply as_floats_numeric. apply to_numeric_is_numeric. }
    destruct (Hget "TotalPopulation") as [p Hp]; [simpl; auto 10|].
    destruct (Hget "TotalPopulation_MOE") as [pm Hpm]; [simpl; auto 10|].
    destruct (Hget "MedianHouseholdIncome") as [h Hh]; [simpl; auto 10|].
    destruct (Hget "MedianHouseholdIncome_MOE") as [hm Hhm]; [simpl; auto 10|].
    destruct (Hget "MedianMonthlyRent") as [rt Hrt]; [simpl; auto 10|].
    destruct (Hget "MedianMonthlyRent_MOE") as [rm Hrm]; [simpl; auto 10|].
    destruct (Hnum "TotalPopulation" p ltac:(simpl; auto 10) Hp) as [Lp [fp Fp]].
    destruct (Hnum "TotalPopulation_MOE" pm ltac:(simpl; auto 10) Hpm) as [Lpm [fpm Fpm]].
    destruct (Hnum "MedianHouseholdIncome" h ltac:(simpl; auto 10) Hh) as [Lh [fh Fh]].
    destruct (Hnum "MedianHouseholdIncome_MOE" hm ltac:(simpl; auto 10) Hhm) as [Lhm [fhm Fhm]].
    destruct (Hnum "MedianMonthlyRent" rt ltac:(simpl; auto 10) Hrt) as [Lrt [frt Frt]].
    destruct (Hnum "MedianMonthlyRent_MOE" rm ltac:(simpl; auto 10) Hrm) as [Lrm [frm Frm]].
    pose proof (pair_loop_numeric df _ _ _ _ _ _ _ _ _ _ _ _
                  Lp Lpm Lh Lhm Lrt Lrm Fp Fpm Fh Fhm Frt Frm) as Hpairs.
    match type of Hpairs with _ = Return ?o => exists o end. split.
    + intros est moe Hin. simpl in Hin.
      destruct Hin as [E|[E|[E|[]]]]; injection E as <- <-.
      * exists p, pm, fp, fpm.
        repeat split; try assumption;
          repeat first [ apply lookup_setitem_same
                       | rewrite lookup_setitem_other by discriminate ];
          assumption.
      * exists h, hm, fh, fhm.
        repeat split; try assumption;
          repeat first [ apply lookup_setitem_same
                       | rewrite lookup_setitem_other by discriminate ];
          assumption.
      * exists rt, rm, frt, frm.
        repeat split; try assumption;
          repeat first [ apply lookup_setitem_same
                       | rewrite lookup_setitem_other by discriminate ];
          assumption.
    + unfold bind, lift. rewrite Hloop, Hpairs. unfold write.
      cbn [writes store].
      destruct (write_error sv (writes w) _ _); split; reflexivity.
Qed.

(** The sample source answers the request with two tracts: the run
    returns after one request, and the one file holds the standard error
    [1645 / 1.645] of the population count for both. *)
Lemma X16_single_county_run_witness :
  let r := SingleCounty.run Samples.sv_census empty_world in
  fst r = Return tt
  /\ calls (snd r) = [SingleCounty.tracts_request]
  /\ exists out,
       store (snd r)
       = [((SingleCounty.lakehouse_path ++ SingleCounty.output_filename)%string,
           mkDataset (SingleCounty.without_index out) None)]
       /\ lookup "TotalPopulation_SE" (columns out)
          = Some (map (fun x => CFloat (F64.div x F64.c1_645))
                      [F64.of_Z 1645; F64.of_Z 1645]).
Proof.
  intros r.
  assert (Hnd : NoDup (col_names
                         (SingleCounty.rename_columns
                            SingleCounty.column_renames
                            (mkDF None [CInt 0; CInt 1]
                               (map Samples.dimension_column
                                    (req_params SingleCounty.tracts_request)
                                ++ [("NAME", [CStr "First"; CStr "Second"])]
                                ++ map Samples.variable_column
                                       (req_vars SingleCounty.tracts_request)
                                ++ [("geometry",
                                     [CGeom "POLYGON A"; CGeom "POLYGON B"])]))))).
  { unfold col_names. simpl.
    repeat (constructor;
            [simpl; intros H;
             repeat (destruct H as [H|H]; [discriminate H|]); exact H|]).
    constructor. }
  destruct (X16_single_county_run Samples.sv_census empty_world _ eq_refl Hnd)
    as [Hc [_ [_ Hok]]].
  destruct Hok as [out [Hcols Hw]].
  { intros c Hin. simpl in Hin.
    repeat (destruct Hin as [<-|Hin]; [reflexivity|]). destruct Hin. }
  hnf in Hw. destruct Hw as [Hret Hst].
  split; [exact Hret|]. split; [exact Hc|].
  exists out. split; [exact Hst|].
  destruct (Hcols "TotalPopulation" "TotalPopulation_MOE")
    as [ve [vm [es [ms [_ [Hvm [_ [Hms [_ [_ [Hse _]]]]]]]]]]];
    [simpl; auto|].
  assert (Evm : Some vm = Some [CStr "1645"; CStr "1645"])
    by (rewrite <- Hvm; reflexivity).
  injection Evm as ->.
  assert (Ems : Return ms = Return [F64.of_Z 1645; F64.of_Z 1645])
    by (rewrite <- Hms; reflexivity).
  injection Ems as ->. exact Hse.
Defined.
